(** * covid-cases-prediction: the series store and the polynomial forecast

    A shallow embedding of [src/main.py] (class [App]): [getInfo], which
    reshapes the API records into the store [self.data], and [plotData],
    which turns one county of the store into the day-offset axis [x], the
    polynomial fit and the plotted artefacts.

    Python values are modelled as follows.
    - [int] is [Z]; a [str] is the [string] of its UTF-8 text, and its
      methods work on the code points with the case tables of Unicode.
    - a naive [datetime] is the number of seconds elapsed since
      0001-01-01T00:00:00 in the proleptic Gregorian calendar, so that
      [a - b] is the [timedelta] between two datetimes, in seconds.
    - a [dict] is an association list in insertion order.
    - an exception is a value of [exn]; code that can raise returns a
      [result].
    - the host's time zone and numpy's floating-point solver are the two
      parts of the environment the code depends on; they are the classes
      [TimeZone] and [Numpy].

    The HTTP request is an argument of [getInfo]; of [startGUI], the two
    callbacks and the county menu are modelled; the file [data.json],
    the request headers and the title of the plot are not. *)

From Stdlib Require Import ZArith QArith List String Ascii Bool Lia Sorted.
From Stdlib Require Import DecimalString.
Import ListNotations.

Local Open Scope string_scope.
Local Open Scope list_scope.
Local Open Scope Z_scope.

(** ** Exceptions *)

Inductive exn : Type :=
| KeyError (key : string)
| IndexError
| ValueError
| TypeError
| LinAlgError
| Exception (status : Z).  (* [Exception('REST API error: <status>')] *)

Inductive result (A : Type) : Type :=
| Ok (a : A)
| Raise (e : exn).

Arguments Ok {A} a.
Arguments Raise {A} e.

Definition bind {A B : Type} (c : result A) (k : A -> result B) : result B :=
  match c with
  | Ok a => k a
  | Raise e => Raise e
  end.

Notation "x <- c ;; k" := (bind c (fun x => k))
  (at level 61, c at next level, right associativity).

(** A list comprehension whose body can raise: the first exception wins. *)
Fixpoint mapM {A B : Type} (f : A -> result B) (l : list A) : result (list B) :=
  match l with
  | [] => Ok []
  | a :: tl => b <- f a ;; bs <- mapM f tl ;; Ok (b :: bs)
  end.

(** ** Strings

    A [str] is a sequence of Unicode code points.  It is held here as its
    UTF-8 text, which is what a string literal of this file is: equality
    and order of the texts are equality and order of the [str]s.  The
    methods of [str] work on the code points, with the case mappings of
    the Unicode Character Database 14.0 (the one of CPython 3.11). *)

Definition code (a : ascii) : Z := Z.of_nat (nat_of_ascii a).

Definition byte (n : Z) : ascii := ascii_of_nat (Z.to_nat n).

Definition continuation (b : Z) : bool := (0x80 <=? b) && (b <=? 0xBF).

(** The code points a [str] is made of here: all but the surrogates. *)
Definition scalar (c : Z) : bool :=
  (0 <=? c) && (c <? 0x110000) && negb ((0xD800 <=? c) && (c <=? 0xDFFF)).

(** A byte that is not part of a well-formed sequence is kept, as a value
    beyond the code points; the text of a [str] has none. *)
Definition stray (b : Z) : Z := 0x110000 + b.

(** From the UTF-8 text to the code points. *)
Fixpoint decode (s : string) : list Z :=
  match s with
  | EmptyString => []
  | String a0 s1 =>
      let b0 := code a0 in
      if b0 <? 0x80 then b0 :: decode s1
      else
        match s1 with
        | EmptyString => [stray b0]
        | String a1 s2 =>
            let b1 := code a1 in
            let c2 := (b0 - 0xC0) * 64 + (b1 - 0x80) in
            if (0xC0 <=? b0) && (b0 <? 0xE0) && continuation b1 && (0x80 <=? c2)
            then c2 :: decode s2
            else
              match s2 with
              | EmptyString => stray b0 :: decode s1
              | String a2 s3 =>
                  let b2 := code a2 in
                  let c3 := (b0 - 0xE0) * 4096 + (b1 - 0x80) * 64 + (b2 - 0x80) in
                  if (0xE0 <=? b0) && (b0 <? 0xF0) && continuation b1
                     && continuation b2 && (0x800 <=? c3) && scalar c3
                  then c3 :: decode s3
                  else
                    match s3 with
                    | EmptyString => stray b0 :: decode s1
                    | String a3 s4 =>
                        let b3 := code a3 in
                        let c4 := (b0 - 0xF0) * 262144 + (b1 - 0x80) * 4096
                                  + (b2 - 0x80) * 64 + (b3 - 0x80) in
                        if (0xF0 <=? b0) && (b0 <? 0xF8) && continuation b1
                           && continuation b2 && continuation b3
                           && (0x10000 <=? c4) && (c4 <? 0x110000)
                        then c4 :: decode s4
                        else stray b0 :: decode s1
                    end
              end
        end
  end.

(** The UTF-8 text of one code point, before the text [rest]. *)
Definition encode_point (c : Z) (rest : string) : string :=
  if c <? 0x80 then String (byte c) rest
  else if c <? 0x800 then
    String (byte (0xC0 + c / 64)) (String (byte (0x80 + c mod 64)) rest)
  else if c <? 0x10000 then
    String (byte (0xE0 + c / 4096))
      (String (byte (0x80 + c / 64 mod 64)) (String (byte (0x80 + c mod 64)) rest))
  else if c <? 0x110000 then
    String (byte (0xF0 + c / 262144))
      (String (byte (0x80 + c / 4096 mod 64))
         (String (byte (0x80 + c / 64 mod 64)) (String (byte (0x80 + c mod 64)) rest)))
  else String (byte (c - 0x110000)) rest.

(** From the code points to the UTF-8 text. *)
Definition encode (l : list Z) : string := fold_right encode_point EmptyString l.

(** The text of a [str]: well-formed UTF-8. *)
Definition well_formed (s : string) : bool := forallb scalar (decode s).

(** *** The case tables *)

(** The simple upper-case mappings: from the first to the last code point of a run, every one or every other one, by a fixed difference. *)
Definition upper_ranges : list (Z * Z * Z * Z) :=
  [(0x0061, 0x007A, 1, (-32)); (0x00B5, 0x00B5, 1, 743);
   (0x00E0, 0x00F6, 1, (-32)); (0x00F8, 0x00FE, 1, (-32));
   (0x00FF, 0x00FF, 1, 121); (0x0101, 0x012F, 2, (-1));
   (0x0131, 0x0131, 1, (-232)); (0x0133, 0x0137, 2, (-1));
   (0x013A, 0x0148, 2, (-1)); (0x014B, 0x0177, 2, (-1));
   (0x017A, 0x017E, 2, (-1)); (0x017F, 0x017F, 1, (-300));
   (0x0180, 0x0180, 1, 195); (0x0183, 0x0185, 2, (-1));
   (0x0188, 0x0188, 1, (-1)); (0x018C, 0x018C, 1, (-1));
   (0x0192, 0x0192, 1, (-1)); (0x0195, 0x0195, 1, 97);
   (0x0199, 0x0199, 1, (-1)); (0x019A, 0x019A, 1, 163);
   (0x019E, 0x019E, 1, 130); (0x01A1, 0x01A5, 2, (-1));
   (0x01A8, 0x01A8, 1, (-1)); (0x01AD, 0x01AD, 1, (-1));
   (0x01B0, 0x01B0, 1, (-1)); (0x01B4, 0x01B6, 2, (-1));
   (0x01B9, 0x01B9, 1, (-1)); (0x01BD, 0x01BD, 1, (-1));
   (0x01BF, 0x01BF, 1, 56); (0x01C5, 0x01C5, 1, (-1));
   (0x01C6, 0x01C6, 1, (-2)); (0x01C8, 0x01C8, 1, (-1));
   (0x01C9, 0x01C9, 1, (-2)); (0x01CB, 0x01CB, 1, (-1));
   (0x01CC, 0x01CC, 1, (-2)); (0x01CE, 0x01DC, 2, (-1));
   (0x01DD, 0x01DD, 1, (-79)); (0x01DF, 0x01EF, 2, (-1));
   (0x01F2, 0x01F2, 1, (-1)); (0x01F3, 0x01F3, 1, (-2));
   (0x01F5, 0x01F5, 1, (-1)); (0x01F9, 0x021F, 2, (-1));
   (0x0223, 0x0233, 2, (-1)); (0x023C, 0x023C, 1, (-1));
   (0x023F, 0x0240, 1, 10815); (0x0242, 0x0242, 1, (-1));
   (0x0247, 0x024F, 2, (-1)); (0x0250, 0x0250, 1, 10783);
   (0x0251, 0x0251, 1, 10780); (0x0252, 0x0252, 1, 10782);
   (0x0253, 0x0253, 1, (-210)); (0x0254, 0x0254, 1, (-206));
   (0x0256, 0x0257, 1, (-205)); (0x0259, 0x0259, 1, (-202));
   (0x025B, 0x025B, 1, (-203)); (0x025C, 0x025C, 1, 42319);
   (0x0260, 0x0260, 1, (-205)); (0x0261, 0x0261, 1, 42315);
   (0x0263, 0x0263, 1, (-207)); (0x0265, 0x0265, 1, 42280);
   (0x0266, 0x0266, 1, 42308); (0x0268, 0x0268, 1, (-209));
   (0x0269, 0x0269, 1, (-211)); (0x026A, 0x026A, 1, 42308);
   (0x026B, 0x026B, 1, 10743); (0x026C, 0x026C, 1, 42305);
   (0x026F, 0x026F, 1, (-211)); (0x0271, 0x0271, 1, 10749);
   (0x0272, 0x0272, 1, (-213)); (0x0275, 0x0275, 1, (-214));
   (0x027D, 0x027D, 1, 10727); (0x0280, 0x0280, 1, (-218));
   (0x0282, 0x0282, 1, 42307); (0x0283, 0x0283, 1, (-218));
   (0x0287, 0x0287, 1, 42282); (0x0288, 0x0288, 1, (-218));
   (0x0289, 0x0289, 1, (-69)); (0x028A, 0x028B, 1, (-217));
   (0x028C, 0x028C, 1, (-71)); (0x0292, 0x0292, 1, (-219));
   (0x029D, 0x029D, 1, 42261); (0x029E, 0x029E, 1, 42258);
   (0x0345, 0x0345, 1, 84); (0x0371, 0x0373, 2, (-1));
   (0x0377, 0x0377, 1, (-1)); (0x037B, 0x037D, 1, 130);
   (0x03AC, 0x03AC, 1, (-38)); (0x03AD, 0x03AF, 1, (-37));
   (0x03B1, 0x03C1, 1, (-32)); (0x03C2, 0x03C2, 1, (-31));
   (0x03C3, 0x03CB, 1, (-32)); (0x03CC, 0x03CC, 1, (-64));
   (0x03CD, 0x03CE, 1, (-63)); (0x03D0, 0x03D0, 1, (-62));
   (0x03D1, 0x03D1, 1, (-57)); (0x03D5, 0x03D5, 1, (-47));
   (0x03D6, 0x03D6, 1, (-54)); (0x03D7, 0x03D7, 1, (-8));
   (0x03D9, 0x03EF, 2, (-1)); (0x03F0, 0x03F0, 1, (-86));
   (0x03F1, 0x03F1, 1, (-80)); (0x03F2, 0x03F2, 1, 7);
   (0x03F3, 0x03F3, 1, (-116)); (0x03F5, 0x03F5, 1, (-96));
   (0x03F8, 0x03F8, 1, (-1)); (0x03FB, 0x03FB, 1, (-1));
   (0x0430, 0x044F, 1, (-32)); (0x0450, 0x045F, 1, (-80));
   (0x0461, 0x0481, 2, (-1)); (0x048B, 0x04BF, 2, (-1));
   (0x04C2, 0x04CE, 2, (-1)); (0x04CF, 0x04CF, 1, (-15));
   (0x04D1, 0x052F, 2, (-1)); (0x0561, 0x0586, 1, (-48));
   (0x10D0, 0x10FA, 1, 3008); (0x10FD, 0x10FF, 1, 3008);
   (0x13F8, 0x13FD, 1, (-8)); (0x1C80, 0x1C80, 1, (-6254));
   (0x1C81, 0x1C81, 1, (-6253)); (0x1C82, 0x1C82, 1, (-6244));
   (0x1C83, 0x1C84, 1, (-6242)); (0x1C85, 0x1C85, 1, (-6243));
   (0x1C86, 0x1C86, 1, (-6236)); (0x1C87, 0x1C87, 1, (-6181));
   (0x1C88, 0x1C88, 1, 35266); (0x1D79, 0x1D79, 1, 35332);
   (0x1D7D, 0x1D7D, 1, 3814); (0x1D8E, 0x1D8E, 1, 35384);
   (0x1E01, 0x1E95, 2, (-1)); (0x1E9B, 0x1E9B, 1, (-59));
   (0x1EA1, 0x1EFF, 2, (-1)); (0x1F00, 0x1F07, 1, 8); (0x1F10, 0x1F15, 1, 8);
   (0x1F20, 0x1F27, 1, 8); (0x1F30, 0x1F37, 1, 8); (0x1F40, 0x1F45, 1, 8);
   (0x1F51, 0x1F57, 2, 8); (0x1F60, 0x1F67, 1, 8); (0x1F70, 0x1F71, 1, 74);
   (0x1F72, 0x1F75, 1, 86); (0x1F76, 0x1F77, 1, 100);
   (0x1F78, 0x1F79, 1, 128); (0x1F7A, 0x1F7B, 1, 112);
   (0x1F7C, 0x1F7D, 1, 126); (0x1FB0, 0x1FB1, 1, 8);
   (0x1FBE, 0x1FBE, 1, (-7205)); (0x1FD0, 0x1FD1, 1, 8);
   (0x1FE0, 0x1FE1, 1, 8); (0x1FE5, 0x1FE5, 1, 7);
   (0x214E, 0x214E, 1, (-28)); (0x2170, 0x217F, 1, (-16));
   (0x2184, 0x2184, 1, (-1)); (0x24D0, 0x24E9, 1, (-26));
   (0x2C30, 0x2C5F, 1, (-48)); (0x2C61, 0x2C61, 1, (-1));
   (0x2C65, 0x2C65, 1, (-10795)); (0x2C66, 0x2C66, 1, (-10792));
   (0x2C68, 0x2C6C, 2, (-1)); (0x2C73, 0x2C73, 1, (-1));
   (0x2C76, 0x2C76, 1, (-1)); (0x2C81, 0x2CE3, 2, (-1));
   (0x2CEC, 0x2CEE, 2, (-1)); (0x2CF3, 0x2CF3, 1, (-1));
   (0x2D00, 0x2D25, 1, (-7264)); (0x2D27, 0x2D27, 1, (-7264));
   (0x2D2D, 0x2D2D, 1, (-7264)); (0xA641, 0xA66D, 2, (-1));
   (0xA681, 0xA69B, 2, (-1)); (0xA723, 0xA72F, 2, (-1));
   (0xA733, 0xA76F, 2, (-1)); (0xA77A, 0xA77C, 2, (-1));
   (0xA77F, 0xA787, 2, (-1)); (0xA78C, 0xA78C, 1, (-1));
   (0xA791, 0xA793, 2, (-1)); (0xA794, 0xA794, 1, 48);
   (0xA797, 0xA7A9, 2, (-1)); (0xA7B5, 0xA7C3, 2, (-1));
   (0xA7C8, 0xA7CA, 2, (-1)); (0xA7D1, 0xA7D1, 1, (-1));
   (0xA7D7, 0xA7D9, 2, (-1)); (0xA7F6, 0xA7F6, 1, (-1));
   (0xAB53, 0xAB53, 1, (-928)); (0xAB70, 0xABBF, 1, (-38864));
   (0xFF41, 0xFF5A, 1, (-32)); (0x10428, 0x1044F, 1, (-40));
   (0x104D8, 0x104FB, 1, (-40)); (0x10597, 0x105A1, 1, (-39));
   (0x105A3, 0x105B1, 1, (-39)); (0x105B3, 0x105B9, 1, (-39));
   (0x105BB, 0x105BC, 1, (-39)); (0x10CC0, 0x10CF2, 1, (-64));
   (0x118C0, 0x118DF, 1, (-32)); (0x16E60, 0x16E7F, 1, (-32));
   (0x1E922, 0x1E943, 1, (-34))].

(** The code points whose upper case is more than one code point. *)
Definition upper_special : list (Z * list Z) :=
  [(0x00DF, [0x0053; 0x0053]); (0x0149, [0x02BC; 0x004E]);
   (0x01F0, [0x004A; 0x030C]); (0x0390, [0x0399; 0x0308; 0x0301]);
   (0x03B0, [0x03A5; 0x0308; 0x0301]); (0x0587, [0x0535; 0x0552]);
   (0x1E96, [0x0048; 0x0331]); (0x1E97, [0x0054; 0x0308]);
   (0x1E98, [0x0057; 0x030A]); (0x1E99, [0x0059; 0x030A]);
   (0x1E9A, [0x0041; 0x02BE]); (0x1F50, [0x03A5; 0x0313]);
   (0x1F52, [0x03A5; 0x0313; 0x0300]); (0x1F54, [0x03A5; 0x0313; 0x0301]);
   (0x1F56, [0x03A5; 0x0313; 0x0342]); (0x1F80, [0x1F08; 0x0399]);
   (0x1F81, [0x1F09; 0x0399]); (0x1F82, [0x1F0A; 0x0399]);
   (0x1F83, [0x1F0B; 0x0399]); (0x1F84, [0x1F0C; 0x0399]);
   (0x1F85, [0x1F0D; 0x0399]); (0x1F86, [0x1F0E; 0x0399]);
   (0x1F87, [0x1F0F; 0x0399]); (0x1F88, [0x1F08; 0x0399]);
   (0x1F89, [0x1F09; 0x0399]); (0x1F8A, [0x1F0A; 0x0399]);
   (0x1F8B, [0x1F0B; 0x0399]); (0x1F8C, [0x1F0C; 0x0399]);
   (0x1F8D, [0x1F0D; 0x0399]); (0x1F8E, [0x1F0E; 0x0399]);
   (0x1F8F, [0x1F0F; 0x0399]); (0x1F90, [0x1F28; 0x0399]);
   (0x1F91, [0x1F29; 0x0399]); (0x1F92, [0x1F2A; 0x0399]);
   (0x1F93, [0x1F2B; 0x0399]); (0x1F94, [0x1F2C; 0x0399]);
   (0x1F95, [0x1F2D; 0x0399]); (0x1F96, [0x1F2E; 0x0399]);
   (0x1F97, [0x1F2F; 0x0399]); (0x1F98, [0x1F28; 0x0399]);
   (0x1F99, [0x1F29; 0x0399]); (0x1F9A, [0x1F2A; 0x0399]);
   (0x1F9B, [0x1F2B; 0x0399]); (0x1F9C, [0x1F2C; 0x0399]);
   (0x1F9D, [0x1F2D; 0x0399]); (0x1F9E, [0x1F2E; 0x0399]);
   (0x1F9F, [0x1F2F; 0x0399]); (0x1FA0, [0x1F68; 0x0399]);
   (0x1FA1, [0x1F69; 0x0399]); (0x1FA2, [0x1F6A; 0x0399]);
   (0x1FA3, [0x1F6B; 0x0399]); (0x1FA4, [0x1F6C; 0x0399]);
   (0x1FA5, [0x1F6D; 0x0399]); (0x1FA6, [0x1F6E; 0x0399]);
   (0x1FA7, [0x1F6F; 0x0399]); (0x1FA8, [0x1F68; 0x0399]);
   (0x1FA9, [0x1F69; 0x0399]); (0x1FAA, [0x1F6A; 0x0399]);
   (0x1FAB, [0x1F6B; 0x0399]); (0x1FAC, [0x1F6C; 0x0399]);
   (0x1FAD, [0x1F6D; 0x0399]); (0x1FAE, [0x1F6E; 0x0399]);
   (0x1FAF, [0x1F6F; 0x0399]); (0x1FB2, [0x1FBA; 0x0399]);
   (0x1FB3, [0x0391; 0x0399]); (0x1FB4, [0x0386; 0x0399]);
   (0x1FB6, [0x0391; 0x0342]); (0x1FB7, [0x0391; 0x0342; 0x0399]);
   (0x1FBC, [0x0391; 0x0399]); (0x1FC2, [0x1FCA; 0x0399]);
   (0x1FC3, [0x0397; 0x0399]); (0x1FC4, [0x0389; 0x0399]);
   (0x1FC6, [0x0397; 0x0342]); (0x1FC7, [0x0397; 0x0342; 0x0399]);
   (0x1FCC, [0x0397; 0x0399]); (0x1FD2, [0x0399; 0x0308; 0x0300]);
   (0x1FD3, [0x0399; 0x0308; 0x0301]); (0x1FD6, [0x0399; 0x0342]);
   (0x1FD7, [0x0399; 0x0308; 0x0342]); (0x1FE2, [0x03A5; 0x0308; 0x0300]);
   (0x1FE3, [0x03A5; 0x0308; 0x0301]); (0x1FE4, [0x03A1; 0x0313]);
   (0x1FE6, [0x03A5; 0x0342]); (0x1FE7, [0x03A5; 0x0308; 0x0342]);
   (0x1FF2, [0x1FFA; 0x0399]); (0x1FF3, [0x03A9; 0x0399]);
   (0x1FF4, [0x038F; 0x0399]); (0x1FF6, [0x03A9; 0x0342]);
   (0x1FF7, [0x03A9; 0x0342; 0x0399]); (0x1FFC, [0x03A9; 0x0399]);
   (0xFB00, [0x0046; 0x0046]); (0xFB01, [0x0046; 0x0049]);
   (0xFB02, [0x0046; 0x004C]); (0xFB03, [0x0046; 0x0046; 0x0049]);
   (0xFB04, [0x0046; 0x0046; 0x004C]); (0xFB05, [0x0053; 0x0054]);
   (0xFB06, [0x0053; 0x0054]); (0xFB13, [0x0544; 0x0546]);
   (0xFB14, [0x0544; 0x0535]); (0xFB15, [0x0544; 0x053B]);
   (0xFB16, [0x054E; 0x0546]); (0xFB17, [0x0544; 0x053D])].

(** The simple lower-case mappings: from the first to the last code point of a run, every one or every other one, by a fixed difference. *)
Definition lower_ranges : list (Z * Z * Z * Z) :=
  [(0x0041, 0x005A, 1, 32); (0x00C0, 0x00D6, 1, 32); (0x00D8, 0x00DE, 1, 32);
   (0x0100, 0x012E, 2, 1); (0x0132, 0x0136, 2, 1); (0x0139, 0x0147, 2, 1);
   (0x014A, 0x0176, 2, 1); (0x0178, 0x0178, 1, (-121));
   (0x0179, 0x017D, 2, 1); (0x0181, 0x0181, 1, 210); (0x0182, 0x0184, 2, 1);
   (0x0186, 0x0186, 1, 206); (0x0187, 0x0187, 1, 1);
   (0x0189, 0x018A, 1, 205); (0x018B, 0x018B, 1, 1); (0x018E, 0x018E, 1, 79);
   (0x018F, 0x018F, 1, 202); (0x0190, 0x0190, 1, 203);
   (0x0191, 0x0191, 1, 1); (0x0193, 0x0193, 1, 205);
   (0x0194, 0x0194, 1, 207); (0x0196, 0x0196, 1, 211);
   (0x0197, 0x0197, 1, 209); (0x0198, 0x0198, 1, 1);
   (0x019C, 0x019C, 1, 211); (0x019D, 0x019D, 1, 213);
   (0x019F, 0x019F, 1, 214); (0x01A0, 0x01A4, 2, 1);
   (0x01A6, 0x01A6, 1, 218); (0x01A7, 0x01A7, 1, 1);
   (0x01A9, 0x01A9, 1, 218); (0x01AC, 0x01AC, 1, 1);
   (0x01AE, 0x01AE, 1, 218); (0x01AF, 0x01AF, 1, 1);
   (0x01B1, 0x01B2, 1, 217); (0x01B3, 0x01B5, 2, 1);
   (0x01B7, 0x01B7, 1, 219); (0x01B8, 0x01B8, 1, 1); (0x01BC, 0x01BC, 1, 1);
   (0x01C4, 0x01C4, 1, 2); (0x01C5, 0x01C5, 1, 1); (0x01C7, 0x01C7, 1, 2);
   (0x01C8, 0x01C8, 1, 1); (0x01CA, 0x01CA, 1, 2); (0x01CB, 0x01DB, 2, 1);
   (0x01DE, 0x01EE, 2, 1); (0x01F1, 0x01F1, 1, 2); (0x01F2, 0x01F4, 2, 1);
   (0x01F6, 0x01F6, 1, (-97)); (0x01F7, 0x01F7, 1, (-56));
   (0x01F8, 0x021E, 2, 1); (0x0220, 0x0220, 1, (-130));
   (0x0222, 0x0232, 2, 1); (0x023A, 0x023A, 1, 10795);
   (0x023B, 0x023B, 1, 1); (0x023D, 0x023D, 1, (-163));
   (0x023E, 0x023E, 1, 10792); (0x0241, 0x0241, 1, 1);
   (0x0243, 0x0243, 1, (-195)); (0x0244, 0x0244, 1, 69);
   (0x0245, 0x0245, 1, 71); (0x0246, 0x024E, 2, 1); (0x0370, 0x0372, 2, 1);
   (0x0376, 0x0376, 1, 1); (0x037F, 0x037F, 1, 116); (0x0386, 0x0386, 1, 38);
   (0x0388, 0x038A, 1, 37); (0x038C, 0x038C, 1, 64); (0x038E, 0x038F, 1, 63);
   (0x0391, 0x03A1, 1, 32); (0x03A3, 0x03AB, 1, 32); (0x03CF, 0x03CF, 1, 8);
   (0x03D8, 0x03EE, 2, 1); (0x03F4, 0x03F4, 1, (-60));
   (0x03F7, 0x03F7, 1, 1); (0x03F9, 0x03F9, 1, (-7)); (0x03FA, 0x03FA, 1, 1);
   (0x03FD, 0x03FF, 1, (-130)); (0x0400, 0x040F, 1, 80);
   (0x0410, 0x042F, 1, 32); (0x0460, 0x0480, 2, 1); (0x048A, 0x04BE, 2, 1);
   (0x04C0, 0x04C0, 1, 15); (0x04C1, 0x04CD, 2, 1); (0x04D0, 0x052E, 2, 1);
   (0x0531, 0x0556, 1, 48); (0x10A0, 0x10C5, 1, 7264);
   (0x10C7, 0x10C7, 1, 7264); (0x10CD, 0x10CD, 1, 7264);
   (0x13A0, 0x13EF, 1, 38864); (0x13F0, 0x13F5, 1, 8);
   (0x1C90, 0x1CBA, 1, (-3008)); (0x1CBD, 0x1CBF, 1, (-3008));
   (0x1E00, 0x1E94, 2, 1); (0x1E9E, 0x1E9E, 1, (-7615));
   (0x1EA0, 0x1EFE, 2, 1); (0x1F08, 0x1F0F, 1, (-8));
   (0x1F18, 0x1F1D, 1, (-8)); (0x1F28, 0x1F2F, 1, (-8));
   (0x1F38, 0x1F3F, 1, (-8)); (0x1F48, 0x1F4D, 1, (-8));
   (0x1F59, 0x1F5F, 2, (-8)); (0x1F68, 0x1F6F, 1, (-8));
   (0x1F88, 0x1F8F, 1, (-8)); (0x1F98, 0x1F9F, 1, (-8));
   (0x1FA8, 0x1FAF, 1, (-8)); (0x1FB8, 0x1FB9, 1, (-8));
   (0x1FBA, 0x1FBB, 1, (-74)); (0x1FBC, 0x1FBC, 1, (-9));
   (0x1FC8, 0x1FCB, 1, (-86)); (0x1FCC, 0x1FCC, 1, (-9));
   (0x1FD8, 0x1FD9, 1, (-8)); (0x1FDA, 0x1FDB, 1, (-100));
   (0x1FE8, 0x1FE9, 1, (-8)); (0x1FEA, 0x1FEB, 1, (-112));
   (0x1FEC, 0x1FEC, 1, (-7)); (0x1FF8, 0x1FF9, 1, (-128));
   (0x1FFA, 0x1FFB, 1, (-126)); (0x1FFC, 0x1FFC, 1, (-9));
   (0x2126, 0x2126, 1, (-7517)); (0x212A, 0x212A, 1, (-8383));
   (0x212B, 0x212B, 1, (-8262)); (0x2132, 0x2132, 1, 28);
   (0x2160, 0x216F, 1, 16); (0x2183, 0x2183, 1, 1); (0x24B6, 0x24CF, 1, 26);
   (0x2C00, 0x2C2F, 1, 48); (0x2C60, 0x2C60, 1, 1);
   (0x2C62, 0x2C62, 1, (-10743)); (0x2C63, 0x2C63, 1, (-3814));
   (0x2C64, 0x2C64, 1, (-10727)); (0x2C67, 0x2C6B, 2, 1);
   (0x2C6D, 0x2C6D, 1, (-10780)); (0x2C6E, 0x2C6E, 1, (-10749));
   (0x2C6F, 0x2C6F, 1, (-10783)); (0x2C70, 0x2C70, 1, (-10782));
   (0x2C72, 0x2C72, 1, 1); (0x2C75, 0x2C75, 1, 1);
   (0x2C7E, 0x2C7F, 1, (-10815)); (0x2C80, 0x2CE2, 2, 1);
   (0x2CEB, 0x2CED, 2, 1); (0x2CF2, 0x2CF2, 1, 1); (0xA640, 0xA66C, 2, 1);
   (0xA680, 0xA69A, 2, 1); (0xA722, 0xA72E, 2, 1); (0xA732, 0xA76E, 2, 1);
   (0xA779, 0xA77B, 2, 1); (0xA77D, 0xA77D, 1, (-35332));
   (0xA77E, 0xA786, 2, 1); (0xA78B, 0xA78B, 1, 1);
   (0xA78D, 0xA78D, 1, (-42280)); (0xA790, 0xA792, 2, 1);
   (0xA796, 0xA7A8, 2, 1); (0xA7AA, 0xA7AA, 1, (-42308));
   (0xA7AB, 0xA7AB, 1, (-42319)); (0xA7AC, 0xA7AC, 1, (-42315));
   (0xA7AD, 0xA7AD, 1, (-42305)); (0xA7AE, 0xA7AE, 1, (-42308));
   (0xA7B0, 0xA7B0, 1, (-42258)); (0xA7B1, 0xA7B1, 1, (-42282));
   (0xA7B2, 0xA7B2, 1, (-42261)); (0xA7B3, 0xA7B3, 1, 928);
   (0xA7B4, 0xA7C2, 2, 1); (0xA7C4, 0xA7C4, 1, (-48));
   (0xA7C5, 0xA7C5, 1, (-42307)); (0xA7C6, 0xA7C6, 1, (-35384));
   (0xA7C7, 0xA7C9, 2, 1); (0xA7D0, 0xA7D0, 1, 1); (0xA7D6, 0xA7D8, 2, 1);
   (0xA7F5, 0xA7F5, 1, 1); (0xFF21, 0xFF3A, 1, 32);
   (0x10400, 0x10427, 1, 40); (0x104B0, 0x104D3, 1, 40);
   (0x10570, 0x1057A, 1, 39); (0x1057C, 0x1058A, 1, 39);
   (0x1058C, 0x10592, 1, 39); (0x10594, 0x10595, 1, 39);
   (0x10C80, 0x10CB2, 1, 64); (0x118A0, 0x118BF, 1, 32);
   (0x16E40, 0x16E5F, 1, 32); (0x1E900, 0x1E921, 1, 34)].

(** The code points whose lower case is more than one code point. *)
Definition lower_special : list (Z * list Z) :=
  [(0x0130, [0x0069; 0x0307])].

(** The simple title-case mappings: from the first to the last code point of a run, every one or every other one, by a fixed difference. *)
Definition title_ranges : list (Z * Z * Z * Z) :=
  [(0x0061, 0x007A, 1, (-32)); (0x00B5, 0x00B5, 1, 743);
   (0x00E0, 0x00F6, 1, (-32)); (0x00F8, 0x00FE, 1, (-32));
   (0x00FF, 0x00FF, 1, 121); (0x0101, 0x012F, 2, (-1));
   (0x0131, 0x0131, 1, (-232)); (0x0133, 0x0137, 2, (-1));
   (0x013A, 0x0148, 2, (-1)); (0x014B, 0x0177, 2, (-1));
   (0x017A, 0x017E, 2, (-1)); (0x017F, 0x017F, 1, (-300));
   (0x0180, 0x0180, 1, 195); (0x0183, 0x0185, 2, (-1));
   (0x0188, 0x0188, 1, (-1)); (0x018C, 0x018C, 1, (-1));
   (0x0192, 0x0192, 1, (-1)); (0x0195, 0x0195, 1, 97);
   (0x0199, 0x0199, 1, (-1)); (0x019A, 0x019A, 1, 163);
   (0x019E, 0x019E, 1, 130); (0x01A1, 0x01A5, 2, (-1));
   (0x01A8, 0x01A8, 1, (-1)); (0x01AD, 0x01AD, 1, (-1));
   (0x01B0, 0x01B0, 1, (-1)); (0x01B4, 0x01B6, 2, (-1));
   (0x01B9, 0x01B9, 1, (-1)); (0x01BD, 0x01BD, 1, (-1));
   (0x01BF, 0x01BF, 1, 56); (0x01C4, 0x01C4, 1, 1);
   (0x01C6, 0x01C6, 1, (-1)); (0x01C7, 0x01C7, 1, 1);
   (0x01C9, 0x01C9, 1, (-1)); (0x01CA, 0x01CA, 1, 1);
   (0x01CC, 0x01DC, 2, (-1)); (0x01DD, 0x01DD, 1, (-79));
   (0x01DF, 0x01EF, 2, (-1)); (0x01F1, 0x01F1, 1, 1);
   (0x01F3, 0x01F5, 2, (-1)); (0x01F9, 0x021F, 2, (-1));
   (0x0223, 0x0233, 2, (-1)); (0x023C, 0x023C, 1, (-1));
   (0x023F, 0x0240, 1, 10815); (0x0242, 0x0242, 1, (-1));
   (0x0247, 0x024F, 2, (-1)); (0x0250, 0x0250, 1, 10783);
   (0x0251, 0x0251, 1, 10780); (0x0252, 0x0252, 1, 10782);
   (0x0253, 0x0253, 1, (-210)); (0x0254, 0x0254, 1, (-206));
   (0x0256, 0x0257, 1, (-205)); (0x0259, 0x0259, 1, (-202));
   (0x025B, 0x025B, 1, (-203)); (0x025C, 0x025C, 1, 42319);
   (0x0260, 0x0260, 1, (-205)); (0x0261, 0x0261, 1, 42315);
   (0x0263, 0x0263, 1, (-207)); (0x0265, 0x0265, 1, 42280);
   (0x0266, 0x0266, 1, 42308); (0x0268, 0x0268, 1, (-209));
   (0x0269, 0x0269, 1, (-211)); (0x026A, 0x026A, 1, 42308);
   (0x026B, 0x026B, 1, 10743); (0x026C, 0x026C, 1, 42305);
   (0x026F, 0x026F, 1, (-211)); (0x0271, 0x0271, 1, 10749);
   (0x0272, 0x0272, 1, (-213)); (0x0275, 0x0275, 1, (-214));
   (0x027D, 0x027D, 1, 10727); (0x0280, 0x0280, 1, (-218));
   (0x0282, 0x0282, 1, 42307); (0x0283, 0x0283, 1, (-218));
   (0x0287, 0x0287, 1, 42282); (0x0288, 0x0288, 1, (-218));
   (0x0289, 0x0289, 1, (-69)); (0x028A, 0x028B, 1, (-217));
   (0x028C, 0x028C, 1, (-71)); (0x0292, 0x0292, 1, (-219));
   (0x029D, 0x029D, 1, 42261); (0x029E, 0x029E, 1, 42258);
   (0x0345, 0x0345, 1, 84); (0x0371, 0x0373, 2, (-1));
   (0x0377, 0x0377, 1, (-1)); (0x037B, 0x037D, 1, 130);
   (0x03AC, 0x03AC, 1, (-38)); (0x03AD, 0x03AF, 1, (-37));
   (0x03B1, 0x03C1, 1, (-32)); (0x03C2, 0x03C2, 1, (-31));
   (0x03C3, 0x03CB, 1, (-32)); (0x03CC, 0x03CC, 1, (-64));
   (0x03CD, 0x03CE, 1, (-63)); (0x03D0, 0x03D0, 1, (-62));
   (0x03D1, 0x03D1, 1, (-57)); (0x03D5, 0x03D5, 1, (-47));
   (0x03D6, 0x03D6, 1, (-54)); (0x03D7, 0x03D7, 1, (-8));
   (0x03D9, 0x03EF, 2, (-1)); (0x03F0, 0x03F0, 1, (-86));
   (0x03F1, 0x03F1, 1, (-80)); (0x03F2, 0x03F2, 1, 7);
   (0x03F3, 0x03F3, 1, (-116)); (0x03F5, 0x03F5, 1, (-96));
   (0x03F8, 0x03F8, 1, (-1)); (0x03FB, 0x03FB, 1, (-1));
   (0x0430, 0x044F, 1, (-32)); (0x0450, 0x045F, 1, (-80));
   (0x0461, 0x0481, 2, (-1)); (0x048B, 0x04BF, 2, (-1));
   (0x04C2, 0x04CE, 2, (-1)); (0x04CF, 0x04CF, 1, (-15));
   (0x04D1, 0x052F, 2, (-1)); (0x0561, 0x0586, 1, (-48));
   (0x13F8, 0x13FD, 1, (-8)); (0x1C80, 0x1C80, 1, (-6254));
   (0x1C81, 0x1C81, 1, (-6253)); (0x1C82, 0x1C82, 1, (-6244));
   (0x1C83, 0x1C84, 1, (-6242)); (0x1C85, 0x1C85, 1, (-6243));
   (0x1C86, 0x1C86, 1, (-6236)); (0x1C87, 0x1C87, 1, (-6181));
   (0x1C88, 0x1C88, 1, 35266); (0x1D79, 0x1D79, 1, 35332);
   (0x1D7D, 0x1D7D, 1, 3814); (0x1D8E, 0x1D8E, 1, 35384);
   (0x1E01, 0x1E95, 2, (-1)); (0x1E9B, 0x1E9B, 1, (-59));
   (0x1EA1, 0x1EFF, 2, (-1)); (0x1F00, 0x1F07, 1, 8); (0x1F10, 0x1F15, 1, 8);
   (0x1F20, 0x1F27, 1, 8); (0x1F30, 0x1F37, 1, 8); (0x1F40, 0x1F45, 1, 8);
   (0x1F51, 0x1F57, 2, 8); (0x1F60, 0x1F67, 1, 8); (0x1F70, 0x1F71, 1, 74);
   (0x1F72, 0x1F75, 1, 86); (0x1F76, 0x1F77, 1, 100);
   (0x1F78, 0x1F79, 1, 128); (0x1F7A, 0x1F7B, 1, 112);
   (0x1F7C, 0x1F7D, 1, 126); (0x1F80, 0x1F87, 1, 8); (0x1F90, 0x1F97, 1, 8);
   (0x1FA0, 0x1FA7, 1, 8); (0x1FB0, 0x1FB1, 1, 8); (0x1FB3, 0x1FB3, 1, 9);
   (0x1FBE, 0x1FBE, 1, (-7205)); (0x1FC3, 0x1FC3, 1, 9);
   (0x1FD0, 0x1FD1, 1, 8); (0x1FE0, 0x1FE1, 1, 8); (0x1FE5, 0x1FE5, 1, 7);
   (0x1FF3, 0x1FF3, 1, 9); (0x214E, 0x214E, 1, (-28));
   (0x2170, 0x217F, 1, (-16)); (0x2184, 0x2184, 1, (-1));
   (0x24D0, 0x24E9, 1, (-26)); (0x2C30, 0x2C5F, 1, (-48));
   (0x2C61, 0x2C61, 1, (-1)); (0x2C65, 0x2C65, 1, (-10795));
   (0x2C66, 0x2C66, 1, (-10792)); (0x2C68, 0x2C6C, 2, (-1));
   (0x2C73, 0x2C73, 1, (-1)); (0x2C76, 0x2C76, 1, (-1));
   (0x2C81, 0x2CE3, 2, (-1)); (0x2CEC, 0x2CEE, 2, (-1));
   (0x2CF3, 0x2CF3, 1, (-1)); (0x2D00, 0x2D25, 1, (-7264));
   (0x2D27, 0x2D27, 1, (-7264)); (0x2D2D, 0x2D2D, 1, (-7264));
   (0xA641, 0xA66D, 2, (-1)); (0xA681, 0xA69B, 2, (-1));
   (0xA723, 0xA72F, 2, (-1)); (0xA733, 0xA76F, 2, (-1));
   (0xA77A, 0xA77C, 2, (-1)); (0xA77F, 0xA787, 2, (-1));
   (0xA78C, 0xA78C, 1, (-1)); (0xA791, 0xA793, 2, (-1));
   (0xA794, 0xA794, 1, 48); (0xA797, 0xA7A9, 2, (-1));
   (0xA7B5, 0xA7C3, 2, (-1)); (0xA7C8, 0xA7CA, 2, (-1));
   (0xA7D1, 0xA7D1, 1, (-1)); (0xA7D7, 0xA7D9, 2, (-1));
   (0xA7F6, 0xA7F6, 1, (-1)); (0xAB53, 0xAB53, 1, (-928));
   (0xAB70, 0xABBF, 1, (-38864)); (0xFF41, 0xFF5A, 1, (-32));
   (0x10428, 0x1044F, 1, (-40)); (0x104D8, 0x104FB, 1, (-40));
   (0x10597, 0x105A1, 1, (-39)); (0x105A3, 0x105B1, 1, (-39));
   (0x105B3, 0x105B9, 1, (-39)); (0x105BB, 0x105BC, 1, (-39));
   (0x10CC0, 0x10CF2, 1, (-64)); (0x118C0, 0x118DF, 1, (-32));
   (0x16E60, 0x16E7F, 1, (-32)); (0x1E922, 0x1E943, 1, (-34))].

(** The code points whose title case is more than one code point. *)
Definition title_special : list (Z * list Z) :=
  [(0x00DF, [0x0053; 0x0073]); (0x0149, [0x02BC; 0x004E]);
   (0x01F0, [0x004A; 0x030C]); (0x0390, [0x0399; 0x0308; 0x0301]);
   (0x03B0, [0x03A5; 0x0308; 0x0301]); (0x0587, [0x0535; 0x0582]);
   (0x1E96, [0x0048; 0x0331]); (0x1E97, [0x0054; 0x0308]);
   (0x1E98, [0x0057; 0x030A]); (0x1E99, [0x0059; 0x030A]);
   (0x1E9A, [0x0041; 0x02BE]); (0x1F50, [0x03A5; 0x0313]);
   (0x1F52, [0x03A5; 0x0313; 0x0300]); (0x1F54, [0x03A5; 0x0313; 0x0301]);
   (0x1F56, [0x03A5; 0x0313; 0x0342]); (0x1FB2, [0x1FBA; 0x0345]);
   (0x1FB4, [0x0386; 0x0345]); (0x1FB6, [0x0391; 0x0342]);
   (0x1FB7, [0x0391; 0x0342; 0x0345]); (0x1FC2, [0x1FCA; 0x0345]);
   (0x1FC4, [0x0389; 0x0345]); (0x1FC6, [0x0397; 0x0342]);
   (0x1FC7, [0x0397; 0x0342; 0x0345]); (0x1FD2, [0x0399; 0x0308; 0x0300]);
   (0x1FD3, [0x0399; 0x0308; 0x0301]); (0x1FD6, [0x0399; 0x0342]);
   (0x1FD7, [0x0399; 0x0308; 0x0342]); (0x1FE2, [0x03A5; 0x0308; 0x0300]);
   (0x1FE3, [0x03A5; 0x0308; 0x0301]); (0x1FE4, [0x03A1; 0x0313]);
   (0x1FE6, [0x03A5; 0x0342]); (0x1FE7, [0x03A5; 0x0308; 0x0342]);
   (0x1FF2, [0x1FFA; 0x0345]); (0x1FF4, [0x038F; 0x0345]);
   (0x1FF6, [0x03A9; 0x0342]); (0x1FF7, [0x03A9; 0x0342; 0x0345]);
   (0xFB00, [0x0046; 0x0066]); (0xFB01, [0x0046; 0x0069]);
   (0xFB02, [0x0046; 0x006C]); (0xFB03, [0x0046; 0x0066; 0x0069]);
   (0xFB04, [0x0046; 0x0066; 0x006C]); (0xFB05, [0x0053; 0x0074]);
   (0xFB06, [0x0053; 0x0074]); (0xFB13, [0x0544; 0x0576]);
   (0xFB14, [0x0544; 0x0565]); (0xFB15, [0x0544; 0x056B]);
   (0xFB16, [0x054E; 0x0576]); (0xFB17, [0x0544; 0x056D])].

(** The property [Cased]. *)
Definition cased_ranges : list (Z * Z) :=
  [(0x0041, 0x005A); (0x0061, 0x007A); (0x00AA, 0x00AA); (0x00B5, 0x00B5);
   (0x00BA, 0x00BA); (0x00C0, 0x00D6); (0x00D8, 0x00F6); (0x00F8, 0x01BA);
   (0x01BC, 0x01BF); (0x01C4, 0x0293); (0x0295, 0x02B8); (0x02C0, 0x02C1);
   (0x02E0, 0x02E4); (0x0345, 0x0345); (0x0370, 0x0373); (0x0376, 0x0377);
   (0x037A, 0x037D); (0x037F, 0x037F); (0x0386, 0x0386); (0x0388, 0x038A);
   (0x038C, 0x038C); (0x038E, 0x03A1); (0x03A3, 0x03F5); (0x03F7, 0x0481);
   (0x048A, 0x052F); (0x0531, 0x0556); (0x0560, 0x0588); (0x10A0, 0x10C5);
   (0x10C7, 0x10C7); (0x10CD, 0x10CD); (0x10D0, 0x10FA); (0x10FD, 0x10FF);
   (0x13A0, 0x13F5); (0x13F8, 0x13FD); (0x1C80, 0x1C88); (0x1C90, 0x1CBA);
   (0x1CBD, 0x1CBF); (0x1D00, 0x1DBF); (0x1E00, 0x1F15); (0x1F18, 0x1F1D);
   (0x1F20, 0x1F45); (0x1F48, 0x1F4D); (0x1F50, 0x1F57); (0x1F59, 0x1F59);
   (0x1F5B, 0x1F5B); (0x1F5D, 0x1F5D); (0x1F5F, 0x1F7D); (0x1F80, 0x1FB4);
   (0x1FB6, 0x1FBC); (0x1FBE, 0x1FBE); (0x1FC2, 0x1FC4); (0x1FC6, 0x1FCC);
   (0x1FD0, 0x1FD3); (0x1FD6, 0x1FDB); (0x1FE0, 0x1FEC); (0x1FF2, 0x1FF4);
   (0x1FF6, 0x1FFC); (0x2071, 0x2071); (0x207F, 0x207F); (0x2090, 0x209C);
   (0x2102, 0x2102); (0x2107, 0x2107); (0x210A, 0x2113); (0x2115, 0x2115);
   (0x2119, 0x211D); (0x2124, 0x2124); (0x2126, 0x2126); (0x2128, 0x2128);
   (0x212A, 0x212D); (0x212F, 0x2134); (0x2139, 0x2139); (0x213C, 0x213F);
   (0x2145, 0x2149); (0x214E, 0x214E); (0x2160, 0x217F); (0x2183, 0x2184);
   (0x24B6, 0x24E9); (0x2C00, 0x2CE4); (0x2CEB, 0x2CEE); (0x2CF2, 0x2CF3);
   (0x2D00, 0x2D25); (0x2D27, 0x2D27); (0x2D2D, 0x2D2D); (0xA640, 0xA66D);
   (0xA680, 0xA69D); (0xA722, 0xA787); (0xA78B, 0xA78E); (0xA790, 0xA7CA);
   (0xA7D0, 0xA7D1); (0xA7D3, 0xA7D3); (0xA7D5, 0xA7D9); (0xA7F5, 0xA7F6);
   (0xA7F8, 0xA7FA); (0xAB30, 0xAB5A); (0xAB5C, 0xAB68); (0xAB70, 0xABBF);
   (0xFB00, 0xFB06); (0xFB13, 0xFB17); (0xFF21, 0xFF3A); (0xFF41, 0xFF5A);
   (0x10400, 0x1044F); (0x104B0, 0x104D3); (0x104D8, 0x104FB);
   (0x10570, 0x1057A); (0x1057C, 0x1058A); (0x1058C, 0x10592);
   (0x10594, 0x10595); (0x10597, 0x105A1); (0x105A3, 0x105B1);
   (0x105B3, 0x105B9); (0x105BB, 0x105BC); (0x10780, 0x10780);
   (0x10783, 0x10785); (0x10787, 0x107B0); (0x107B2, 0x107BA);
   (0x10C80, 0x10CB2); (0x10CC0, 0x10CF2); (0x118A0, 0x118DF);
   (0x16E40, 0x16E7F); (0x1D400, 0x1D454); (0x1D456, 0x1D49C);
   (0x1D49E, 0x1D49F); (0x1D4A2, 0x1D4A2); (0x1D4A5, 0x1D4A6);
   (0x1D4A9, 0x1D4AC); (0x1D4AE, 0x1D4B9); (0x1D4BB, 0x1D4BB);
   (0x1D4BD, 0x1D4C3); (0x1D4C5, 0x1D505); (0x1D507, 0x1D50A);
   (0x1D50D, 0x1D514); (0x1D516, 0x1D51C); (0x1D51E, 0x1D539);
   (0x1D53B, 0x1D53E); (0x1D540, 0x1D544); (0x1D546, 0x1D546);
   (0x1D54A, 0x1D550); (0x1D552, 0x1D6A5); (0x1D6A8, 0x1D6C0);
   (0x1D6C2, 0x1D6DA); (0x1D6DC, 0x1D6FA); (0x1D6FC, 0x1D714);
   (0x1D716, 0x1D734); (0x1D736, 0x1D74E); (0x1D750, 0x1D76E);
   (0x1D770, 0x1D788); (0x1D78A, 0x1D7A8); (0x1D7AA, 0x1D7C2);
   (0x1D7C4, 0x1D7CB); (0x1DF00, 0x1DF09); (0x1DF0B, 0x1DF1E);
   (0x1E900, 0x1E943); (0x1F130, 0x1F149); (0x1F150, 0x1F169);
   (0x1F170, 0x1F189)].

(** The property [Case_Ignorable]. *)
Definition case_ignorable_ranges : list (Z * Z) :=
  [(0x0027, 0x0027); (0x002E, 0x002E); (0x003A, 0x003A); (0x005E, 0x005E);
   (0x0060, 0x0060); (0x00A8, 0x00A8); (0x00AD, 0x00AD); (0x00AF, 0x00AF);
   (0x00B4, 0x00B4); (0x00B7, 0x00B8); (0x02B0, 0x036F); (0x0374, 0x0375);
   (0x037A, 0x037A); (0x0384, 0x0385); (0x0387, 0x0387); (0x0483, 0x0489);
   (0x0559, 0x0559); (0x055F, 0x055F); (0x0591, 0x05BD); (0x05BF, 0x05BF);
   (0x05C1, 0x05C2); (0x05C4, 0x05C5); (0x05C7, 0x05C7); (0x05F4, 0x05F4);
   (0x0600, 0x0605); (0x0610, 0x061A); (0x061C, 0x061C); (0x0640, 0x0640);
   (0x064B, 0x065F); (0x0670, 0x0670); (0x06D6, 0x06DD); (0x06DF, 0x06E8);
   (0x06EA, 0x06ED); (0x070F, 0x070F); (0x0711, 0x0711); (0x0730, 0x074A);
   (0x07A6, 0x07B0); (0x07EB, 0x07F5); (0x07FA, 0x07FA); (0x07FD, 0x07FD);
   (0x0816, 0x082D); (0x0859, 0x085B); (0x0888, 0x0888); (0x0890, 0x0891);
   (0x0898, 0x089F); (0x08C9, 0x0902); (0x093A, 0x093A); (0x093C, 0x093C);
   (0x0941, 0x0948); (0x094D, 0x094D); (0x0951, 0x0957); (0x0962, 0x0963);
   (0x0971, 0x0971); (0x0981, 0x0981); (0x09BC, 0x09BC); (0x09C1, 0x09C4);
   (0x09CD, 0x09CD); (0x09E2, 0x09E3); (0x09FE, 0x09FE); (0x0A01, 0x0A02);
   (0x0A3C, 0x0A3C); (0x0A41, 0x0A42); (0x0A47, 0x0A48); (0x0A4B, 0x0A4D);
   (0x0A51, 0x0A51); (0x0A70, 0x0A71); (0x0A75, 0x0A75); (0x0A81, 0x0A82);
   (0x0ABC, 0x0ABC); (0x0AC1, 0x0AC5); (0x0AC7, 0x0AC8); (0x0ACD, 0x0ACD);
   (0x0AE2, 0x0AE3); (0x0AFA, 0x0AFF); (0x0B01, 0x0B01); (0x0B3C, 0x0B3C);
   (0x0B3F, 0x0B3F); (0x0B41, 0x0B44); (0x0B4D, 0x0B4D); (0x0B55, 0x0B56);
   (0x0B62, 0x0B63); (0x0B82, 0x0B82); (0x0BC0, 0x0BC0); (0x0BCD, 0x0BCD);
   (0x0C00, 0x0C00); (0x0C04, 0x0C04); (0x0C3C, 0x0C3C); (0x0C3E, 0x0C40);
   (0x0C46, 0x0C48); (0x0C4A, 0x0C4D); (0x0C55, 0x0C56); (0x0C62, 0x0C63);
   (0x0C81, 0x0C81); (0x0CBC, 0x0CBC); (0x0CBF, 0x0CBF); (0x0CC6, 0x0CC6);
   (0x0CCC, 0x0CCD); (0x0CE2, 0x0CE3); (0x0D00, 0x0D01); (0x0D3B, 0x0D3C);
   (0x0D41, 0x0D44); (0x0D4D, 0x0D4D); (0x0D62, 0x0D63); (0x0D81, 0x0D81);
   (0x0DCA, 0x0DCA); (0x0DD2, 0x0DD4); (0x0DD6, 0x0DD6); (0x0E31, 0x0E31);
   (0x0E34, 0x0E3A); (0x0E46, 0x0E4E); (0x0EB1, 0x0EB1); (0x0EB4, 0x0EBC);
   (0x0EC6, 0x0EC6); (0x0EC8, 0x0ECD); (0x0F18, 0x0F19); (0x0F35, 0x0F35);
   (0x0F37, 0x0F37); (0x0F39, 0x0F39); (0x0F71, 0x0F7E); (0x0F80, 0x0F84);
   (0x0F86, 0x0F87); (0x0F8D, 0x0F97); (0x0F99, 0x0FBC); (0x0FC6, 0x0FC6);
   (0x102D, 0x1030); (0x1032, 0x1037); (0x1039, 0x103A); (0x103D, 0x103E);
   (0x1058, 0x1059); (0x105E, 0x1060); (0x1071, 0x1074); (0x1082, 0x1082);
   (0x1085, 0x1086); (0x108D, 0x108D); (0x109D, 0x109D); (0x10FC, 0x10FC);
   (0x135D, 0x135F); (0x1712, 0x1714); (0x1732, 0x1733); (0x1752, 0x1753);
   (0x1772, 0x1773); (0x17B4, 0x17B5); (0x17B7, 0x17BD); (0x17C6, 0x17C6);
   (0x17C9, 0x17D3); (0x17D7, 0x17D7); (0x17DD, 0x17DD); (0x180B, 0x180F);
   (0x1843, 0x1843); (0x1885, 0x1886); (0x18A9, 0x18A9); (0x1920, 0x1922);
   (0x1927, 0x1928); (0x1932, 0x1932); (0x1939, 0x193B); (0x1A17, 0x1A18);
   (0x1A1B, 0x1A1B); (0x1A56, 0x1A56); (0x1A58, 0x1A5E); (0x1A60, 0x1A60);
   (0x1A62, 0x1A62); (0x1A65, 0x1A6C); (0x1A73, 0x1A7C); (0x1A7F, 0x1A7F);
   (0x1AA7, 0x1AA7); (0x1AB0, 0x1ACE); (0x1B00, 0x1B03); (0x1B34, 0x1B34);
   (0x1B36, 0x1B3A); (0x1B3C, 0x1B3C); (0x1B42, 0x1B42); (0x1B6B, 0x1B73);
   (0x1B80, 0x1B81); (0x1BA2, 0x1BA5); (0x1BA8, 0x1BA9); (0x1BAB, 0x1BAD);
   (0x1BE6, 0x1BE6); (0x1BE8, 0x1BE9); (0x1BED, 0x1BED); (0x1BEF, 0x1BF1);
   (0x1C2C, 0x1C33); (0x1C36, 0x1C37); (0x1C78, 0x1C7D); (0x1CD0, 0x1CD2);
   (0x1CD4, 0x1CE0); (0x1CE2, 0x1CE8); (0x1CED, 0x1CED); (0x1CF4, 0x1CF4);
   (0x1CF8, 0x1CF9); (0x1D2C, 0x1D6A); (0x1D78, 0x1D78); (0x1D9B, 0x1DFF);
   (0x1FBD, 0x1FBD); (0x1FBF, 0x1FC1); (0x1FCD, 0x1FCF); (0x1FDD, 0x1FDF);
   (0x1FED, 0x1FEF); (0x1FFD, 0x1FFE); (0x200B, 0x200F); (0x2018, 0x2019);
   (0x2024, 0x2024); (0x2027, 0x2027); (0x202A, 0x202E); (0x2060, 0x2064);
   (0x2066, 0x206F); (0x2071, 0x2071); (0x207F, 0x207F); (0x2090, 0x209C);
   (0x20D0, 0x20F0); (0x2C7C, 0x2C7D); (0x2CEF, 0x2CF1); (0x2D6F, 0x2D6F);
   (0x2D7F, 0x2D7F); (0x2DE0, 0x2DFF); (0x2E2F, 0x2E2F); (0x3005, 0x3005);
   (0x302A, 0x302D); (0x3031, 0x3035); (0x303B, 0x303B); (0x3099, 0x309E);
   (0x30FC, 0x30FE); (0xA015, 0xA015); (0xA4F8, 0xA4FD); (0xA60C, 0xA60C);
   (0xA66F, 0xA672); (0xA674, 0xA67D); (0xA67F, 0xA67F); (0xA69C, 0xA69F);
   (0xA6F0, 0xA6F1); (0xA700, 0xA721); (0xA770, 0xA770); (0xA788, 0xA78A);
   (0xA7F2, 0xA7F4); (0xA7F8, 0xA7F9); (0xA802, 0xA802); (0xA806, 0xA806);
   (0xA80B, 0xA80B); (0xA825, 0xA826); (0xA82C, 0xA82C); (0xA8C4, 0xA8C5);
   (0xA8E0, 0xA8F1); (0xA8FF, 0xA8FF); (0xA926, 0xA92D); (0xA947, 0xA951);
   (0xA980, 0xA982); (0xA9B3, 0xA9B3); (0xA9B6, 0xA9B9); (0xA9BC, 0xA9BD);
   (0xA9CF, 0xA9CF); (0xA9E5, 0xA9E6); (0xAA29, 0xAA2E); (0xAA31, 0xAA32);
   (0xAA35, 0xAA36); (0xAA43, 0xAA43); (0xAA4C, 0xAA4C); (0xAA70, 0xAA70);
   (0xAA7C, 0xAA7C); (0xAAB0, 0xAAB0); (0xAAB2, 0xAAB4); (0xAAB7, 0xAAB8);
   (0xAABE, 0xAABF); (0xAAC1, 0xAAC1); (0xAADD, 0xAADD); (0xAAEC, 0xAAED);
   (0xAAF3, 0xAAF4); (0xAAF6, 0xAAF6); (0xAB5B, 0xAB5F); (0xAB69, 0xAB6B);
   (0xABE5, 0xABE5); (0xABE8, 0xABE8); (0xABED, 0xABED); (0xFB1E, 0xFB1E);
   (0xFBB2, 0xFBC2); (0xFE00, 0xFE0F); (0xFE13, 0xFE13); (0xFE20, 0xFE2F);
   (0xFE52, 0xFE52); (0xFE55, 0xFE55); (0xFEFF, 0xFEFF); (0xFF07, 0xFF07);
   (0xFF0E, 0xFF0E); (0xFF1A, 0xFF1A); (0xFF3E, 0xFF3E); (0xFF40, 0xFF40);
   (0xFF70, 0xFF70); (0xFF9E, 0xFF9F); (0xFFE3, 0xFFE3); (0xFFF9, 0xFFFB);
   (0x101FD, 0x101FD); (0x102E0, 0x102E0); (0x10376, 0x1037A);
   (0x10780, 0x10785); (0x10787, 0x107B0); (0x107B2, 0x107BA);
   (0x10A01, 0x10A03); (0x10A05, 0x10A06); (0x10A0C, 0x10A0F);
   (0x10A38, 0x10A3A); (0x10A3F, 0x10A3F); (0x10AE5, 0x10AE6);
   (0x10D24, 0x10D27); (0x10EAB, 0x10EAC); (0x10F46, 0x10F50);
   (0x10F82, 0x10F85); (0x11001, 0x11001); (0x11038, 0x11046);
   (0x11070, 0x11070); (0x11073, 0x11074); (0x1107F, 0x11081);
   (0x110B3, 0x110B6); (0x110B9, 0x110BA); (0x110BD, 0x110BD);
   (0x110C2, 0x110C2); (0x110CD, 0x110CD); (0x11100, 0x11102);
   (0x11127, 0x1112B); (0x1112D, 0x11134); (0x11173, 0x11173);
   (0x11180, 0x11181); (0x111B6, 0x111BE); (0x111C9, 0x111CC);
   (0x111CF, 0x111CF); (0x1122F, 0x11231); (0x11234, 0x11234);
   (0x11236, 0x11237); (0x1123E, 0x1123E); (0x112DF, 0x112DF);
   (0x112E3, 0x112EA); (0x11300, 0x11301); (0x1133B, 0x1133C);
   (0x11340, 0x11340); (0x11366, 0x1136C); (0x11370, 0x11374);
   (0x11438, 0x1143F); (0x11442, 0x11444); (0x11446, 0x11446);
   (0x1145E, 0x1145E); (0x114B3, 0x114B8); (0x114BA, 0x114BA);
   (0x114BF, 0x114C0); (0x114C2, 0x114C3); (0x115B2, 0x115B5);
   (0x115BC, 0x115BD); (0x115BF, 0x115C0); (0x115DC, 0x115DD);
   (0x11633, 0x1163A); (0x1163D, 0x1163D); (0x1163F, 0x11640);
   (0x116AB, 0x116AB); (0x116AD, 0x116AD); (0x116B0, 0x116B5);
   (0x116B7, 0x116B7); (0x1171D, 0x1171F); (0x11722, 0x11725);
   (0x11727, 0x1172B); (0x1182F, 0x11837); (0x11839, 0x1183A);
   (0x1193B, 0x1193C); (0x1193E, 0x1193E); (0x11943, 0x11943);
   (0x119D4, 0x119D7); (0x119DA, 0x119DB); (0x119E0, 0x119E0);
   (0x11A01, 0x11A0A); (0x11A33, 0x11A38); (0x11A3B, 0x11A3E);
   (0x11A47, 0x11A47); (0x11A51, 0x11A56); (0x11A59, 0x11A5B);
   (0x11A8A, 0x11A96); (0x11A98, 0x11A99); (0x11C30, 0x11C36);
   (0x11C38, 0x11C3D); (0x11C3F, 0x11C3F); (0x11C92, 0x11CA7);
   (0x11CAA, 0x11CB0); (0x11CB2, 0x11CB3); (0x11CB5, 0x11CB6);
   (0x11D31, 0x11D36); (0x11D3A, 0x11D3A); (0x11D3C, 0x11D3D);
   (0x11D3F, 0x11D45); (0x11D47, 0x11D47); (0x11D90, 0x11D91);
   (0x11D95, 0x11D95); (0x11D97, 0x11D97); (0x11EF3, 0x11EF4);
   (0x13430, 0x13438); (0x16AF0, 0x16AF4); (0x16B30, 0x16B36);
   (0x16B40, 0x16B43); (0x16F4F, 0x16F4F); (0x16F8F, 0x16F9F);
   (0x16FE0, 0x16FE1); (0x16FE3, 0x16FE4); (0x1AFF0, 0x1AFF3);
   (0x1AFF5, 0x1AFFB); (0x1AFFD, 0x1AFFE); (0x1BC9D, 0x1BC9E);
   (0x1BCA0, 0x1BCA3); (0x1CF00, 0x1CF2D); (0x1CF30, 0x1CF46);
   (0x1D167, 0x1D169); (0x1D173, 0x1D182); (0x1D185, 0x1D18B);
   (0x1D1AA, 0x1D1AD); (0x1D242, 0x1D244); (0x1DA00, 0x1DA36);
   (0x1DA3B, 0x1DA6C); (0x1DA75, 0x1DA75); (0x1DA84, 0x1DA84);
   (0x1DA9B, 0x1DA9F); (0x1DAA1, 0x1DAAF); (0x1E000, 0x1E006);
   (0x1E008, 0x1E018); (0x1E01B, 0x1E021); (0x1E023, 0x1E024);
   (0x1E026, 0x1E02A); (0x1E130, 0x1E13D); (0x1E2AE, 0x1E2AE);
   (0x1E2EC, 0x1E2EF); (0x1E8D0, 0x1E8D6); (0x1E944, 0x1E94B);
   (0x1F3FB, 0x1F3FF); (0xE0001, 0xE0001); (0xE0020, 0xE007F);
   (0xE0100, 0xE01EF)].

(** The difference a table of runs gives for [c], if it has one. *)
Fixpoint find_range (c : Z) (l : list (Z * Z * Z * Z)) : option Z :=
  match l with
  | [] => None
  | (first, last, step, diff) :: tl =>
      if c <? first then None
      else if (c <=? last) && ((c - first) mod step =? 0) then Some diff
      else find_range c tl
  end.

Fixpoint find_special (c : Z) (l : list (Z * list Z)) : option (list Z) :=
  match l with
  | [] => None
  | (k, v) :: tl =>
      if c <? k then None else if c =? k then Some v else find_special c tl
  end.

Fixpoint in_ranges (c : Z) (l : list (Z * Z)) : bool :=
  match l with
  | [] => false
  | (first, last) :: tl =>
      if c <? first then false else if c <=? last then true else in_ranges c tl
  end.

(** The full case mapping of a code point: itself when the tables have
    none. *)
Definition case_mapping (ranges : list (Z * Z * Z * Z)) (special : list (Z * list Z))
           (c : Z) : list Z :=
  match find_range c ranges with
  | Some diff => [c + diff]
  | None =>
      match find_special c special with
      | Some v => v
      | None => [c]
      end
  end.

Definition toupper : Z -> list Z := case_mapping upper_ranges upper_special.
Definition tolower : Z -> list Z := case_mapping lower_ranges lower_special.
Definition totitle : Z -> list Z := case_mapping title_ranges title_special.

Definition cased (c : Z) : bool := in_ranges c cased_ranges.
Definition case_ignorable (c : Z) : bool := in_ranges c case_ignorable_ranges.

(** [str.upper()]: every code point by its full upper-case mapping. *)
Definition upper (s : string) : string := encode (flat_map toupper (decode s)).

(** The code points from the first one that is not [Case_Ignorable]. *)
Fixpoint skip_ignorable (l : list Z) : list Z :=
  match l with
  | c :: tl => if case_ignorable c then skip_ignorable tl else l
  | [] => []
  end.

(** Whether a capital sigma is in final position: after a cased letter and
    not before one, code points that are [Case_Ignorable] apart.  [before]
    holds the code points that precede it, the nearest first. *)
Definition final_sigma (before after : list Z) : bool :=
  match skip_ignorable before with
  | c :: _ => cased c
  | [] => false
  end
  && match skip_ignorable after with
     | c :: _ => negb (cased c)
     | [] => true
     end.

(** The lower case of the code points [l] that follow [before] in a
    [str]. *)
Fixpoint lower_after (before l : list Z) : list Z :=
  match l with
  | [] => []
  | c :: tl =>
      (if c =? 0x3A3
       then [if final_sigma before tl then 0x3C2 else 0x3C3]
       else tolower c)
      ++ lower_after (c :: before) tl
  end.

(** [str.capitalize()]: the first code point in title case, the others in
    lower case. *)
Definition capitalize (s : string) : string :=
  match decode s with
  | [] => s
  | c :: tl => encode (totitle c ++ lower_after [c] tl)
  end.

(** ** Dictionaries (insertion-ordered) *)

Definition dict (V : Type) : Type := list (string * V).

Fixpoint lookup {V : Type} (d : dict V) (k : string) : option V :=
  match d with
  | [] => None
  | (k', v) :: tl => if String.eqb k' k then Some v else lookup tl k
  end.

(** [d[k]] *)
Definition getitem {V : Type} (d : dict V) (k : string) : result V :=
  match lookup d k with
  | Some v => Ok v
  | None => Raise (KeyError k)
  end.

Definition keys {V : Type} (d : dict V) : list string := map fst d.
Definition values {V : Type} (d : dict V) : list V := map snd d.

(** ** The calendar of [datetime] *)

Definition datetime : Type := Z.

Definition is_leap (year : Z) : bool :=
  (year mod 4 =? 0) && (negb (year mod 100 =? 0) || (year mod 400 =? 0)).

Definition days_before_year (year : Z) : Z :=
  let y := year - 1 in y * 365 + y / 4 - y / 100 + y / 400.

Definition days_in_month (year month : Z) : Z :=
  if (month =? 2) && is_leap year then 29
  else nth (Z.to_nat month) [0; 31; 28; 31; 30; 31; 30; 31; 31; 30; 31; 30; 31] 0.

Definition days_before_month (year month : Z) : Z :=
  nth (Z.to_nat month) [0; 0; 31; 59; 90; 120; 151; 181; 212; 243; 273; 304; 334] 0
  + (if (2 <? month) && is_leap year then 1 else 0).

Definition ymd2ord (year month day : Z) : Z :=
  days_before_year year + days_before_month year month + day.

Definition SECONDS_PER_DAY : Z := 86400.

(** [datetime(year, month, day)]: midnight of a calendar day, or
    [ValueError] when the fields do not name a day of years 1..9999. *)
Definition datetime_ymd (year month day : Z) : result datetime :=
  if (1 <=? year) && (year <=? 9999) && (1 <=? month) && (month <=? 12)
     && (1 <=? day) && (day <=? days_in_month year month)
  then Ok ((ymd2ord year month day - 1) * SECONDS_PER_DAY)
  else Raise ValueError.

(** 1970-01-01T00:00:00 and the first instant after 9999-12-31. *)
Definition EPOCH : datetime := 719162 * SECONDS_PER_DAY.
Definition MAX_DATETIME : datetime := 3652059 * SECONDS_PER_DAY.

(** [(a - b).days]: a timedelta keeps [0 <= seconds < 86400], so its
    [days] field is the floor of the quotient. *)
Definition timedelta_days (td : Z) : Z := td / SECONDS_PER_DAY.

(** [d + timedelta(days=n)] *)
Definition add_days (d : datetime) (n : Z) : datetime := d + n * SECONDS_PER_DAY.

(** ** [datetime.strptime] for the two formats of the program

    [_strptime] turns the format into a regular expression, matches it at
    the start of the text with backtracking, refuses text left over, and
    builds the date from the captured groups.  A directive is modelled as
    the list of its matches in the order the regular expression tries
    them. *)

Definition chars : Type := list ascii.

Definition digit (c : ascii) : option Z :=
  let n := Z.of_nat (nat_of_ascii c) in
  if (48 <=? n) && (n <=? 57) then Some (n - 48) else None.

Definition matcher : Type := chars -> list (Z * chars).

Definition digit_in (lo hi : Z) (s : chars) : list (Z * chars) :=
  match s with
  | c :: tl =>
      match digit c with
      | Some v => if (lo <=? v) && (v <=? hi) then [(v, tl)] else []
      | None => []
      end
  | [] => []
  end.

Definition seq2 (p q : matcher) : matcher :=
  fun s => flat_map (fun '(a, r) => map (fun '(b, r') => (10 * a + b, r')) (q r)) (p s).

Definition alt (ps : list matcher) : matcher :=
  fun s => flat_map (fun p => p s) ps.

Definition lit (c : ascii) (s : chars) : list (Z * chars) :=
  match s with
  | c' :: tl => if Ascii.eqb c c' then [(0, tl)] else []
  | [] => []
  end.

(** [%Y] is [\d\d\d\d]. *)
Definition re_Y : matcher :=
  seq2 (seq2 (seq2 (digit_in 0 9) (digit_in 0 9)) (digit_in 0 9)) (digit_in 0 9).

(** [%m] is [1[0-2]|0[1-9]|[1-9]]. *)
Definition re_m : matcher :=
  alt [seq2 (digit_in 1 1) (digit_in 0 2);
       seq2 (digit_in 0 0) (digit_in 1 9);
       digit_in 1 9].

(** [%d] is [3[0-1]|[1-2]\d|0[1-9]|[1-9]| [1-9]]. *)
Definition re_d : matcher :=
  alt [seq2 (digit_in 3 3) (digit_in 0 1);
       seq2 (digit_in 1 2) (digit_in 0 9);
       seq2 (digit_in 0 0) (digit_in 1 9);
       digit_in 1 9;
       seq2 (lit " ") (digit_in 1 9)].

(** Three directives separated by ["-"]; the first match in backtracking
    order is the one [re.match] returns. *)
Definition match3 (p q r : matcher) (s : chars) : option (Z * Z * Z * chars) :=
  hd_error
    (flat_map (fun '(a, s1) =>
       flat_map (fun '(_, s2) =>
         flat_map (fun '(b, s3) =>
           flat_map (fun '(_, s4) =>
             map (fun '(c, s5) => (a, b, c, s5)) (r s4))
           (lit "-" s3))
         (q s2))
       (lit "-" s1))
     (p s)).

(** [datetime.strptime(s, '%Y-%m-%d')] *)
Definition strptime_Ymd (s : string) : result datetime :=
  match match3 re_Y re_m re_d (list_ascii_of_string s) with
  | Some (y, m, d, []) => datetime_ymd y m d
  | _ => Raise ValueError
  end.

(** [datetime.strptime(s, '%d-%m-%Y')] *)
Definition strptime_dmY (s : string) : result datetime :=
  match match3 re_d re_m re_Y (list_ascii_of_string s) with
  | Some (d, m, y, []) => datetime_ymd y m d
  | _ => Raise ValueError
  end.

(** ** The host's local time

    [datetime.timestamp] and [datetime.fromtimestamp] convert between a
    naive local datetime and a POSIX instant through the time zone of the
    machine the program runs on. *)

Class TimeZone : Type := {
  (** seconds east of UTC of local time at a POSIX instant *)
  utcoffset : Z -> Z
}.

Section LocalTime.
Context {tz : TimeZone}.

Definition max_fold_seconds : Z := 24 * 3600.

(** The local time at instant [u], as naive seconds since
    1970-01-01T00:00:00; [ValueError] when its year is outside 1..9999. *)
Definition local (u : Z) : result Z :=
  let t := u + utcoffset u in
  if (0 <=? EPOCH + t) && (EPOCH + t <? MAX_DATETIME) then Ok t
  else Raise ValueError.

(** [datetime.timestamp()] of a naive datetime with [fold = 0] and no
    microseconds: the search for an instant whose local time is the
    given one, probing the offset in force a day earlier. *)
Definition timestamp (d : datetime) : result Z :=
  let t := d - EPOCH in
  lt <- local t ;;
  let a := lt - t in
  let u1 := t - a in
  t1 <- local u1 ;;
  let with_offset (b : Z) : result Z :=
    let u2 := t - b in
    t2 <- local u2 ;;
    Ok (if t2 =? t then u2 else if t1 =? t then u1 else Z.max u1 u2) in
  if t1 =? t then
    lt <- local (u1 - max_fold_seconds) ;;
    let b := lt - (u1 - max_fold_seconds) in
    if a =? b then Ok u1 else with_offset b
  else with_offset (t1 - u1).

(** [datetime.fromtimestamp(u)]: the local datetime at instant [u]; the
    local time a day earlier is probed to detect a repeated hour. *)
Definition fromtimestamp (u : Z) : result datetime :=
  t <- local u ;;
  probe <- local (u - max_fold_seconds) ;;
  let transition := t - probe - max_fold_seconds in
  _ <- (if transition <? 0 then local (u + transition) else Ok 0) ;;
  Ok (EPOCH + t).
End LocalTime.

(** ** Lists, ranges and numpy arrays of integers *)

(** [range(start, stop, step)] for a positive [step]. *)
Definition py_range (start stop step : Z) : list Z :=
  let n := if start <? stop then (stop - start - 1) / step + 1 else 0 in
  map (fun k => start + Z.of_nat k * step) (seq 0 (Z.to_nat n)).

(** The bound of a slice, clipped to [0..len] as [slice.indices] does. *)
Definition clip (len : Z) (i : option Z) (default : Z) : Z :=
  match i with
  | None => default
  | Some i => if i <? 0 then Z.max (i + len) 0 else Z.min i len
  end.

(** [l[start:stop]] *)
Definition slice {A : Type} (l : list A) (start stop : option Z) : list A :=
  let len := Z.of_nat (List.length l) in
  let lo := clip len start 0 in
  let hi := clip len stop len in
  firstn (Z.to_nat (hi - lo)) (skipn (Z.to_nat lo) l).

(** [l[::3]] *)
Fixpoint every_third {A : Type} (l : list A) : list A :=
  match l with
  | [] => []
  | a :: tl =>
      a :: match tl with
           | _ :: _ :: tl' => every_third tl'
           | _ => []
           end
  end.

(** [dates[-1]] *)
Definition last_item {A : Type} (l : list A) : result A :=
  match rev l with
  | a :: _ => Ok a
  | [] => Raise IndexError
  end.

(** [np.diff] of an array of datetimes: the timedeltas between neighbours. *)
Fixpoint np_diff (l : list datetime) : list Z :=
  match l with
  | a :: (b :: _) as tl => (b - a) :: np_diff tl
  | _ => []
  end.

Fixpoint cumsum_from (acc : Z) (l : list Z) : list Z :=
  match l with
  | [] => []
  | v :: tl => (acc + v) :: cumsum_from (acc + v) tl
  end.

(** [ndarray.cumsum()]; the day offsets of datetimes stay far below
    [2^63], so the 64-bit sums of numpy are the sums of [Z]. *)
Definition cumsum (l : list Z) : list Z := cumsum_from 0 l.

(** The mean of a group, as the exact quotient of the sum by the count;
    the table holds the float nearest to it.  [None] is the [nan] of an
    empty group. *)
Definition np_mean (l : list Z) : option Q :=
  match l with
  | [] => None
  | _ => Some (Qred (Qmake (fold_right Z.add 0 l) (Pos.of_nat (List.length l))))
  end.

(** A cell of the store: a float, [None] being [nan]. *)
Definition cell : Type := option Q.

(** [astype(int)] on a float: truncation toward zero; [nan], and a value
    that 64 bits do not hold, become the least 64-bit integer. *)
Definition astype_int (c : cell) : Z :=
  match c with
  | Some q =>
      let t := Z.quot (Qnum q) (Z.pos (Qden q)) in
      if (- 2 ^ 63 <=? t) && (t <? 2 ^ 63) then t else - 2 ^ 63
  | None => - 2 ^ 63
  end.

(** ** numpy's polynomial fit

    The least-squares solver works in floating point and is left abstract:
    [lstsq x y deg] is what [numpy.linalg.lstsq] returns for the
    Vandermonde system of [x], [y] and [deg], [None] when it raises
    [LinAlgError]; [polyval] evaluates the polynomial. *)

Class Numpy : Type := {
  poly1d : Type;
  float : Type;
  lstsq : list Z -> list Z -> Z -> option poly1d;
  polyval : poly1d -> Z -> float
}.

Section Polyfit.
Context {np : Numpy}.

(** [np.polyfit(x, y, deg)] on one-dimensional integer arrays: the
    argument checks, then the solver.  A system of deficient rank only
    emits a [RankWarning]. *)
Definition np_polyfit (x y : list Z) (deg : Z) : result poly1d :=
  if deg <? 0 then Raise ValueError
  else if (List.length x =? 0)%nat then Raise TypeError
  else if negb (List.length x =? List.length y)%nat then Raise TypeError
  else match lstsq x y deg with
       | Some z => Ok z
       | None => Raise LinAlgError
       end.
End Polyfit.

(** ** The application object *)

Record App : Type := {
  start_date : string;
  end_date : string;
  district : string;
  (** county -> date ['YYYY-MM-DD'] -> daily cases *)
  data : dict (dict cell)
}.

(** What a call of [plotData] hands to matplotlib. *)
Record figure {np : Numpy} : Type := {
  (** [dates]: the observed dates followed by the generated ones *)
  fig_dates : list datetime;
  (** [x] and [y] as arrays of integers *)
  fig_x : list Z;
  fig_y : list Z;
  (** the first argument of [np.polyfit], also the abscissae of the
      ['o-'] curve of confirmed cases *)
  fig_fit_x : list Z;
  (** [z], the coefficients *)
  fig_z : poly1d;
  (** the slice of [x] whose mean is where [plt.axvline] draws the split *)
  fig_axvline : option (list Z);
  (** [x.min()] and [x.max()], the ends of the polynomial curve *)
  fig_curve : Z * Z;
  (** the ['*'] markers: [x[-predictions:]] and the polynomial there *)
  fig_predicted : option (list Z * list float);
  (** the ticks and the dates their labels are formatted from *)
  fig_xticks : list Z;
  fig_xtick_dates : list datetime
}.

Definition month_diff : Z := 1 * 30 * 24 * 60 * 60.

Section PlotData.
Context {tz : TimeZone} {np : Numpy}.

(** Lines 133-141: the new dates for future predictions. *)
Definition new_dates (dates : list datetime) (predictions : Z)
  : result (list datetime) :=
  last_date <- last_item dates ;;
  last_date_ts <- timestamp last_date ;;
  let new_dates_ts :=
    py_range (last_date_ts + month_diff)
             (last_date_ts + (predictions + 1) * month_diff)
             month_diff in
  mapM fromtimestamp new_dates_ts.

(** Lines 144-145: the dates as cumulated day differences. *)
Definition day_offsets (dates : list datetime) : list Z :=
  cumsum (0 :: map timedelta_days (np_diff dates)).

(** Lines 161-165: where the split between confirmed and predicted cases
    is drawn. *)
Definition split_slice (x : list Z) (predictions : Z) : option (list Z) :=
  if 1 <? predictions
  then Some (slice x (Some (- predictions - 1)) (Some (- predictions + 1)))
  else if predictions =? 1 then Some (slice x (Some (-2)) None)
  else None.

Definition plotData (self : App) (county : string) (degree predictions : Z)
  : result figure :=
  series <- getitem (data self) (upper county) ;;
  dates <- mapM strptime_Ymd (keys series) ;;
  dates <- (if 0 <? predictions
            then added <- new_dates dates predictions ;; Ok (dates ++ added)
            else Ok dates) ;;
  let x := day_offsets dates in
  cases <- getitem (data self) county ;;
  let y := map astype_int (values cases) in
  let fit_x := if 0 <? predictions
               then slice x None (Some (- predictions)) else x in
  z <- np_polyfit fit_x y degree ;;
  Ok {| fig_dates := dates;
        fig_x := x;
        fig_y := y;
        fig_fit_x := fit_x;
        fig_z := z;
        fig_axvline := split_slice x predictions;
        fig_curve := (fold_right Z.min (hd 0 x) x, fold_right Z.max (hd 0 x) x);
        fig_predicted :=
          if 0 <? predictions
          then let px := slice x (Some (- predictions)) None in
               Some (px, map (polyval z) px)
          else None;
        fig_xticks :=
          if 0 <? predictions
          then every_third (slice x None (Some (- predictions)))
               ++ slice x (Some (- predictions)) None
          else every_third x;
        fig_xtick_dates :=
          if 0 <? predictions
          then every_third (slice dates None (Some (- predictions)))
               ++ slice dates (Some (- predictions)) None
          else every_third dates |}.

(** The steps of lines 127-158 behind a figure: the series read under
    the upper-cased name, its dates, the generated dates and the series
    read under the name as given. *)
Record run (self : App) (county : string) (degree predictions : Z)
       (fig : figure) (series : dict cell) (observed added : list datetime)
       (cases : dict cell) : Prop := {
  run_lookup_upper : lookup (data self) (upper county) = Some series;
  run_parsed : mapM strptime_Ymd (keys series) = Ok observed;
  run_new_dates :
    if 0 <? predictions then new_dates observed predictions = Ok added
    else added = [];
  run_lookup : lookup (data self) county = Some cases;
  run_dates : fig_dates fig = observed ++ added;
  run_x : fig_x fig = day_offsets (fig_dates fig);
  run_y : fig_y fig = map astype_int (values cases);
  run_fit_x :
    fig_fit_x fig
    = if 0 <? predictions then slice (fig_x fig) None (Some (- predictions))
      else fig_x fig;
  run_fit : np_polyfit (fig_fit_x fig) (fig_y fig) degree = Ok (fig_z fig);
  run_axvline : fig_axvline fig = split_slice (fig_x fig) predictions;
  run_predicted :
    fig_predicted fig
    = if 0 <? predictions
      then Some (slice (fig_x fig) (Some (- predictions)) None,
                 map (polyval (fig_z fig))
                     (slice (fig_x fig) (Some (- predictions)) None))
      else None
}.
End PlotData.

Arguments run_lookup_upper {tz np self county degree predictions fig series observed added cases} _.
Arguments run_parsed {tz np self county degree predictions fig series observed added cases} _.
Arguments run_new_dates {tz np self county degree predictions fig series observed added cases} _.
Arguments run_lookup {tz np self county degree predictions fig series observed added cases} _.
Arguments run_dates {tz np self county degree predictions fig series observed added cases} _.
Arguments run_x {tz np self county degree predictions fig series observed added cases} _.
Arguments run_y {tz np self county degree predictions fig series observed added cases} _.
Arguments run_fit_x {tz np self county degree predictions fig series observed added cases} _.
Arguments run_fit {tz np self county degree predictions fig series observed added cases} _.
Arguments run_axvline {tz np self county degree predictions fig series observed added cases} _.
Arguments run_predicted {tz np self county degree predictions fig series observed added cases} _.

(** ** Dates back to text *)

Definition ord2ymd (ordinal : Z) : Z * Z * Z :=
  let n := ordinal - 1 in
  let n400 := n / 146097 in
  let n := n mod 146097 in
  let n100 := n / 36524 in
  let n := n mod 36524 in
  let n4 := n / 1461 in
  let n := n mod 1461 in
  let n1 := n / 365 in
  let n := n mod 365 in
  let year := n400 * 400 + 1 + n100 * 100 + n4 * 4 + n1 in
  if (n1 =? 4) || (n100 =? 4) then (year - 1, 12, 31)
  else
    let leapyear := (n1 =? 3) && (negb (n4 =? 24) || (n100 =? 3)) in
    let leap_after (m : Z) := if (2 <? m) && leapyear then 1 else 0 in
    let before (m : Z) :=
      nth (Z.to_nat m) [0; 0; 31; 59; 90; 120; 151; 181; 212; 243; 273; 304; 334] 0
      + leap_after m in
    let month := Z.shiftr (n + 50) 5 in
    if n <? before month
    then (year, month - 1, n - before (month - 1) + 1)
    else (year, month, n - before month + 1).

Definition digit_char (n : Z) : ascii := ascii_of_nat (Z.to_nat (48 + n mod 10)).

(** The text of a midnight [Timestamp]: ['YYYY-MM-DD']. *)
Definition isoformat (d : datetime) : string :=
  let '(y, m, dd) := ord2ymd (d / SECONDS_PER_DAY + 1) in
  string_of_list_ascii
    [digit_char (y / 1000); digit_char (y / 100); digit_char (y / 10); digit_char y;
     "-"%char; digit_char (m / 10); digit_char m;
     "-"%char; digit_char (dd / 10); digit_char dd].

(** ** [getInfo]: from the API records to the store *)

(** One entry of the API's JSON answer, with the columns the program reads. *)
Record record : Type := {
  rec_data : string;
  rec_distrito : string;
  rec_concelho : string;
  rec_confirmados_1 : Z
}.

(** The answer of [requests.get]. *)
Record response : Type := {
  status_code : Z;
  json : list record
}.

(** How pandas reads a text it is asked to compare with a datetime column:
    [Timestamp(text)] takes the first field of a [dd-mm-yyyy] text for the
    month, and for the day only when it cannot be a month.  A date outside
    the range of a nanosecond [Timestamp] makes the comparison a
    [TypeError], as it does up to pandas 1.5; from pandas 2.0 such a bound
    is compared like any other, so what is proved of a bound that is read
    holds of both. *)
Definition to_timestamp (s : string) : result datetime :=
  match match3 re_d re_m re_Y (list_ascii_of_string s) with
  | Some (a, b, y, []) =>
      d <- (if a <=? 12 then datetime_ymd y a b else datetime_ymd y b a) ;;
      if (612411 <=? d / SECONDS_PER_DAY) && (d / SECONDS_PER_DAY <=? 825913)
      then Ok d else Raise TypeError
  | _ => Raise TypeError
  end.

Section SortedUnique.
Context {A : Type} (cmp : A -> A -> comparison).

Fixpoint insert_unique (a : A) (l : list A) : list A :=
  match l with
  | [] => [a]
  | b :: tl =>
      match cmp a b with
      | Lt => a :: l
      | Eq => l
      | Gt => b :: insert_unique a tl
      end
  end.

(** The distinct values of a column, ascending. *)
Definition sorted_unique (l : list A) : list A :=
  fold_right insert_unique [] l.
End SortedUnique.

(** A row after lines 85-94: [(date, county, daily_cases)]. *)
Definition row : Type := datetime * string * Z.

(** The [daily_cases] of the rows of one date and one county. *)
Definition group (rows : list row) (date : datetime) (county : string) : list Z :=
  map (fun '(_, _, v) => v)
      (filter (fun '(d, c, _) => (d =? date) && String.eqb c county) rows).

(** [df.pivot_table(index=['date'], columns='county', values='daily_cases')]
    followed by [to_dict()]: one entry per county in ascending order, each
    with one entry per date of the index in ascending order; a cell is the
    mean (the default [aggfunc]) of the group, [nan] for an empty group. *)
Definition pivot_table (rows : list row) : list (string * list (datetime * cell)) :=
  let index := sorted_unique Z.compare (map (fun '(d, _, _) => d) rows) in
  let columns := sorted_unique String.compare (map (fun '(_, c, _) => c) rows) in
  map (fun c => (c, map (fun d => (d, np_mean (group rows d c))) index)) columns.

(** Lines 101 and 108: the index as text, and the table as nested dicts. *)
Definition to_dict (table : list (string * list (datetime * cell))) : dict (dict cell) :=
  map (fun '(c, col) => (c, map (fun '(d, v) => (isoformat d, v)) col)) table.

(** Lines 77-94: the rows of the district within the requested range,
    reduced to date, county and daily cases. *)
Definition select_rows (district : string) (lo hi : datetime)
           (df : list (datetime * record)) : list row :=
  let df := filter (fun '(_, rc) => String.eqb (rec_distrito rc) (upper district)) df in
  let df := filter (fun '(d, _) => (lo <=? d) && (d <=? hi)) df in
  map (fun '(d, rc) => (d, rec_concelho rc, rec_confirmados_1 rc)) df.

(** Line 74: the [data] column parsed; an answer without entries gives a
    frame without columns. *)
Definition parse_data (recs : list record) : result (list (datetime * record)) :=
  match recs with
  | [] => Raise (KeyError "data")
  | _ => mapM (fun rc => d <- strptime_dmY (rec_data rc) ;; Ok (d, rc)) recs
  end.

(** Lines 63-108, the value assigned to [self.data]. *)
Definition build (self : App) (r : response) (district : string)
  : result (dict (dict cell)) :=
  if negb (status_code r =? 200) then Raise (Exception (status_code r))
  else
    _ <- strptime_dmY (start_date self) ;;
    _ <- strptime_dmY (end_date self) ;;
    df <- parse_data (json r) ;;
    lo <- to_timestamp (start_date self) ;;
    hi <- to_timestamp (end_date self) ;;
    Ok (to_dict (pivot_table (select_rows district lo hi df))).

(** [getInfo(save_json, district)] with the answer of the API as an
    argument: the object after the call, and the exception if one is
    raised.  [self.district] is assigned before anything can fail.  The
    machine is one on which [data.json] can be written: writing it then
    changes nothing of the object, whatever [save_json] is. *)
Definition getInfo (self : App) (r : response) (save_json : bool) (district : string)
  : App * option exn :=
  let self := {| start_date := start_date self; end_date := end_date self;
                 district := district; data := data self |} in
  match build self r district with
  | Ok d =>
      ({| start_date := start_date self; end_date := end_date self;
          district := district; data := d |}, None)
  | Raise e => (self, Some e)
  end.

(** ** Concrete hosts

    Two time zones and one instance of the numeric library, for running
    the program on given inputs. *)

(** A machine on UTC. *)
Definition utc : TimeZone := {| utcoffset := fun _ => 0 |}.

(** A machine on Lisbon time during 2021: one hour ahead of UTC from
    2021-03-28T01:00Z to 2021-10-31T01:00Z. *)
Definition lisbon : TimeZone :=
  {| utcoffset := fun u =>
       if (1616893200 <=? u) && (u <? 1635642000) then 3600 else 0 |}.

(** The fit and its values kept as terms: the coefficients are named by
    the least-squares problem they solve. *)
Inductive fit_term : Type :=
| LeastSquares (x y : list Z) (deg : Z).

Inductive value_term : Type :=
| ValueAt (z : fit_term) (x : Z).

Definition symbolic : Numpy :=
  {| poly1d := fit_term;
     float := value_term;
     lstsq := fun x y deg => Some (LeastSquares x y deg);
     polyval := ValueAt |}.

(** An application object holding a given store. *)
Definition app_of (store : dict (dict cell)) : App :=
  {| start_date := "01-01-2021"; end_date := "31-12-2021";
     district := "Braga"; data := store |}.

(** A series with the given date keys and the values 1, 2, 3, ... *)
Definition series_of (dates : list string) : dict cell :=
  combine dates (map (fun k => Some (inject_Z (Z.of_nat k))) (seq 1 (List.length dates))).

(** ** Inputs used in the examples *)

(** Three observations with gaps of two and seven days. *)
Definition app_january : App :=
  app_of [("BRAGA", series_of ["2021-01-01"; "2021-01-03"; "2021-01-10"])].

(** What [plotData('BRAGA', 2, 2)] draws for it on a UTC machine. *)
Definition figure_january : @figure symbolic :=
  @Build_figure symbolic
    (* dates *) [63745056000; 63745228800; 63745833600; 63748425600; 63751017600]
    (* x *) [0; 2; 9; 39; 69]
    (* y *) [1; 2; 3]
    (* fit x *) [0; 2; 9]
    (* z *) (LeastSquares [0; 2; 9] [1; 2; 3] 2)
    (* axvline *) (Some [9; 39])
    (* curve *) (0, 69)
    (* predicted *)
    (Some ([39; 69],
           [ValueAt (LeastSquares [0; 2; 9] [1; 2; 3] 2) 39;
            ValueAt (LeastSquares [0; 2; 9] [1; 2; 3] 2) 69]))
    (* ticks *) [0; 39; 69]
    (* tick dates *) [63745056000; 63748425600; 63751017600].

(** Two observations in October, the second one sixteen days before the
    clocks of Lisbon go back. *)
Definition app_october : App :=
  app_of [("BRAGA", series_of ["2021-10-01"; "2021-10-15"])].

(** Two observations in June. *)
Definition app_june : App :=
  app_of [("BRAGA", series_of ["2021-06-01"; "2021-06-15"])].

(** The dates of a figure, as text. *)
Definition dates_drawn {np : Numpy} (r : result figure) : list string :=
  match r with
  | Ok fig => map isoformat (fig_dates fig)
  | Raise _ => []
  end.

(** The axis of a figure. *)
Definition x_drawn {np : Numpy} (r : result figure) : list Z :=
  match r with
  | Ok fig => fig_x fig
  | Raise _ => []
  end.

(** The split index of the specification, read off a figure: the index in
    [x] of the first point drawn as predicted, the boundary coming right
    after the last observed point; when no point is drawn as predicted
    there is no boundary, the entire series is observed, and the index is
    that of the last point of [x]. *)
Definition split_index {np : Numpy} (fig : figure) : Z :=
  match fig_predicted fig with
  | Some (px, _) => Z.of_nat (List.length (fig_x fig)) - Z.of_nat (List.length px)
  | None => Z.of_nat (List.length (fig_x fig)) - 1
  end.

(** What [plotData('BRAGA', degree, 0)] draws for the January series. *)
Definition figure_january_observed (degree : Z) : @figure symbolic :=
  @Build_figure symbolic
    (* dates *) [63745056000; 63745228800; 63745833600]
    (* x *) [0; 2; 9]
    (* y *) [1; 2; 3]
    (* fit x *) [0; 2; 9]
    (* z *) (LeastSquares [0; 2; 9] [1; 2; 3] degree)
    (* axvline *) None
    (* curve *) (0, 9)
    (* predicted *) None
    (* ticks *) [0]
    (* tick dates *) [63745056000].

(** An answer of the API with two entries for Braga on 2021-01-05. *)
Definition answer_january : response :=
  {| status_code := 200;
     json :=
       [ {| rec_data := "05-01-2021"; rec_distrito := "BRAGA";
            rec_concelho := "BRAGA"; rec_confirmados_1 := 3 |};
         {| rec_data := "05-01-2021"; rec_distrito := "BRAGA";
            rec_concelho := "BRAGA"; rec_confirmados_1 := 4 |};
         {| rec_data := "04-01-2021"; rec_distrito := "BRAGA";
            rec_concelho := "AMARES"; rec_confirmados_1 := 1 |};
         {| rec_data := "04-01-2021"; rec_distrito := "PORTO";
            rec_concelho := "PORTO"; rec_confirmados_1 := 9 |} ] |}.

(** The object after [getInfo] stored [store] for [district]. *)
Definition app_after (district : string) (store : dict (dict cell)) : App :=
  {| start_date := "01-01-2021"; end_date := "31-12-2021";
     district := district; data := store |}.

(** ** Months and days of a year

    The second half of [ord2ymd] on its own, and the table of the valid
    days of a year it is checked on. *)

(** The month and day [ord2ymd] finds for day [n] (from 0) of a year. *)
Definition month_and_day (leapyear : bool) (n : Z) : Z * Z :=
  let before (x : Z) :=
    nth (Z.to_nat x) [0; 0; 31; 59; 90; 120; 151; 181; 212; 243; 273; 304; 334] 0
    + (if (2 <? x) && leapyear then 1 else 0) in
  let month := Z.shiftr (n + 50) 5 in
  if n <? before month
  then (month - 1, n - before (month - 1) + 1)
  else (month, n - before month + 1).

(** The day of the year (from 0) of day [d] of month [m], as [ymd2ord]
    counts it. *)
Definition day_of_year (leapyear : bool) (m d : Z) : Z :=
  nth (Z.to_nat m) [0; 0; 31; 59; 90; 120; 151; 181; 212; 243; 273; 304; 334] 0
  + (if (2 <? m) && leapyear then 1 else 0) + d - 1.

Definition month_length (leapyear : bool) (m : Z) : Z :=
  if (m =? 2) && leapyear then 29
  else nth (Z.to_nat m) [0; 31; 28; 31; 30; 31; 30; 31; 31; 30; 31; 30; 31] 0.

Definition month_checked (leapyear : bool) (m d : Z) : bool :=
  let k := day_of_year leapyear m d in
  (0 <=? k) && (k <? 365 + (if leapyear then 1 else 0))
  && implb (k =? 365) ((m =? 12) && (d =? 31))
  && (let '(m', d') := month_and_day leapyear k in (m' =? m) && (d' =? d)).

(** [1, 2, ..., n] *)
Definition upto (n : nat) : list Z := map Z.of_nat (seq 1 n).

(** A datetime at 00:00:00. *)
Definition midnight (d : datetime) : Prop := d mod SECONDS_PER_DAY = 0.

(** ** The labels, the default end date and the menus *)

(** [%Y] as the C library writes it: without padding. *)
Definition year_text (y : Z) : list ascii :=
  (if 1000 <=? y then [digit_char (y / 1000)] else [])
  ++ (if 100 <=? y then [digit_char (y / 100)] else [])
  ++ (if 10 <=? y then [digit_char (y / 10)] else [])
  ++ [digit_char y].

(** [d.strftime('%d-%m-%Y')], lines 20 and 182. *)
Definition strftime_dmY (d : datetime) : string :=
  let '(y, m, dd) := ord2ymd (d / SECONDS_PER_DAY + 1) in
  string_of_list_ascii
    ([digit_char (dd / 10); digit_char dd; "-"%char;
      digit_char (m / 10); digit_char m; "-"%char] ++ year_text y).

(** Lines 182-189: the labels of the ticks. *)
Definition x_labels {np : Numpy} (fig : figure) : list string :=
  map strftime_dmY (fig_xtick_dates fig).

(** The county menu of [startGUI]: the entry shown and the entries offered. *)
Record county_menu : Type := {
  menu_selected : string;
  menu_options : list string
}.

(** [list(self.data.keys())[0]] *)
Definition first_key {V : Type} (d : dict V) : result string :=
  match keys d with
  | k :: _ => Ok k
  | [] => Raise IndexError
  end.

(** Lines 231-233 and 282-284: the county menu built from the store. *)
Definition make_county_menu (self : App) : result county_menu :=
  first <- first_key (data self) ;;
  Ok {| menu_selected := capitalize first;
        menu_options := map capitalize (keys (data self)) |}.

(** Lines 226-233 for the district shown at start, and lines 280-285 when
    another district is selected: [getInfo], then the county menu. *)
Definition district_menu_change (self : App) (r : response) (district : string)
  : App * result county_menu :=
  let '(self', e) := getInfo self r true district in
  match e with
  | Some e => (self', Raise e)
  | None => (self', make_county_menu self')
  end.

(** Lines 251-255, the command of the plot button, once [int] has read
    the two entries. *)
Definition plot_button {tz : TimeZone} {np : Numpy}
           (self : App) (selection : string) (degree predictions : Z)
  : result figure :=
  plotData self (upper selection) degree predictions.

(** A datetime that is midnight of a day of the calendar. *)
Definition calendar_day (d : datetime) : Prop :=
  exists y m dd, datetime_ymd y m dd = Ok d.

(** Strictly before, in the order of [str]. *)
Definition string_lt (a b : string) : Prop := String.compare a b = Lt.

(** The figure a call returned, or a default one. *)
Definition drawn {np : Numpy} (default : figure) (r : result figure) : figure :=
  match r with
  | Ok fig => fig
  | Raise _ => default
  end.



(** What [plotData('BRAGA', 1, 2)] draws for the June series on a UTC
    machine. *)
Definition figure_june : @figure symbolic :=
  Eval vm_compute in
    drawn (figure_january_observed 0) (@plotData utc symbolic app_june "BRAGA" 1 2).

(** ** The legend *)

(** [f'{degree}']: an integer in decimal. *)
Definition str_int (n : Z) : string := NilZero.string_of_int (Z.to_int n).

(** The lines that [plotData] draws, lines 160-178. *)
Inductive artist : Type :=
| SplitLine | ConfirmedCurve | PolynomialCurve | PredictedMarkers.

(** The lines of the axes in the order of their drawing: [plt.axvline]
    when there is a split, the two curves, the ['*'] markers when there
    are predictions. *)
Definition artists (predictions : Z) : list artist :=
  (if 1 <? predictions then [SplitLine]
   else if predictions =? 1 then [SplitLine] else [])
  ++ [ConfirmedCurve]
  ++ [PolynomialCurve]
  ++ (if 0 <? predictions then [PredictedMarkers] else []).

(** Lines 192-195. *)
Definition legend_labels (degree : Z) : list string :=
  ["confirmed vs predicted split"]
  ++ ["confirmed covid-19 cases"]
  ++ [String.append (str_int degree) " order polinomial graph "]
  ++ ["next 3 month prediction"].

(** Line 196: [plt.legend(labels)] gives the labels to the lines of the
    axes in their order, as many as there are of both. *)
Definition legend (degree predictions : Z) : list (artist * string) :=
  combine (artists predictions) (legend_labels degree).

(** A county whose name has a letter outside ASCII. *)
Definition app_guimaraes : App :=
  app_of [("GUIMARÃES", series_of ["2021-01-01"; "2021-01-03"; "2021-01-10"])].

(** A county stored without any date, and one stored with the last day of
    the calendar. *)
Definition app_empty_series : App := app_of [("BRAGA", [])].

Definition app_last_day : App := app_of [("BRAGA", series_of ["9999-12-31"])].

(** ** The code points of the case tables *)

(** The code points of a run. *)
Definition range_points (r : Z * Z * Z * Z) : list Z :=
  let '(first, last, step, _) := r in
  map (fun k => first + Z.of_nat k * step)
      (seq 0 (Z.to_nat ((last - first) / step + 1))).

(** The code points for which a pair of tables has a mapping. *)
Definition table_points (ranges : list (Z * Z * Z * Z)) (special : list (Z * list Z))
  : list Z :=
  flat_map range_points ranges ++ map fst special.

Definition positive_steps (ranges : list (Z * Z * Z * Z)) : bool :=
  forallb (fun '(_, _, step, _) => 0 <? step) ranges.

Fixpoint same_points (l1 l2 : list Z) : bool :=
  match l1, l2 with
  | [], [] => true
  | a :: tl1, b :: tl2 => (a =? b) && same_points tl1 tl2
  | _, _ => false
  end.

(** The capital letters whose lower case has another capital letter:
    I with dot above, the theta symbol, capital sharp s, the ohm, kelvin
    and angstrom signs. *)
Definition lower_not_back : list Z :=
  [0x0130; 0x03F4; 0x1E9E; 0x2126; 0x212A; 0x212B].

(** A code point is its own upper case. *)
Definition own_upper (c : Z) : bool := same_points (toupper c) [c].

(** What the case tables are checked for, code point by code point. *)
Definition upper_checked (c : Z) : bool :=
  forallb scalar (toupper c)
  && same_points (flat_map toupper (toupper c)) (toupper c)
  && negb (same_points (toupper c) []).

Definition title_checked (c : Z) : bool :=
  forallb scalar (totitle c)
  && implb (own_upper c) (same_points (flat_map toupper (totitle c)) [c]).

Definition lower_checked (c : Z) : bool :=
  forallb scalar (tolower c)
  && implb (own_upper c && negb (existsb (Z.eqb c) lower_not_back))
           (same_points (flat_map toupper (tolower c)) [c]).

(** An answer of the API with the same district written in upper case and
    as the program lists it. *)
Definition answer_braganca : response :=
  {| status_code := 200;
     json :=
       [ {| rec_data := "05-01-2021"; rec_distrito := "BRAGANÇA";
            rec_concelho := "MIRANDELA"; rec_confirmados_1 := 3 |};
         {| rec_data := "05-01-2021"; rec_distrito := "Bragança";
            rec_concelho := "VINHAIS"; rec_confirmados_1 := 4 |} ] |}.

(** The entries of an answer with their dates, when all of them parse. *)
Definition frame_of (r : response) : list (datetime * record) :=
  match parse_data (json r) with
  | Ok df => df
  | Raise _ => []
  end.

(** A county whose name has the kelvin sign for its second letter. *)
Definition app_kelvin : App :=
  app_of [("AK", series_of ["2021-01-01"; "2021-01-03"; "2021-01-10"])].

(** * Properties *)

(** ** The library functions on given inputs *)

Example strptime_Ymd_padded : strptime_Ymd "2021-01-03" = Ok (737792 * 86400).
Proof. reflexivity. Qed.

Example strptime_Ymd_unpadded : strptime_Ymd "2021-1-3" = strptime_Ymd "2021-01-03".
Proof. reflexivity. Qed.

Example strptime_Ymd_leftover : strptime_Ymd "2021-01-45" = Raise ValueError.
Proof. reflexivity. Qed.

Example strptime_Ymd_no_such_day : strptime_Ymd "2021-02-30" = Raise ValueError.
Proof. reflexivity. Qed.

Example strptime_dmY_day_first : strptime_dmY "03-01-2021" = strptime_Ymd "2021-01-03".
Proof. reflexivity. Qed.

Example isoformat_leap_day :
  option_map isoformat
    (match strptime_Ymd "2020-02-29" with Ok d => Some d | Raise _ => None end)
  = Some "2020-02-29".
Proof. reflexivity. Qed.

Example isoformat_last_day :
  option_map isoformat
    (match strptime_dmY "31-12-2021" with Ok d => Some d | Raise _ => None end)
  = Some "2021-12-31".
Proof. reflexivity. Qed.

Example timestamp_first_day_utc : @timestamp utc 0 = Raise ValueError.
Proof. reflexivity. Qed.

Example timestamp_lisbon_summer :
  @timestamp lisbon 63769852800 = Ok 1634252400.
Proof. reflexivity. Qed.

Example to_timestamp_month_first :
  to_timestamp "04-11-2026" = strptime_dmY "11-04-2026".
Proof. reflexivity. Qed.

(** ** The error monad *)

Lemma bind_Ok {A B : Type} (c : result A) (k : A -> result B) (b : B) :
  bind c k = Ok b -> exists a, c = Ok a /\ k a = Ok b.
Proof.
  destruct c as [a|e]; simpl; intros H; [ exists a; split; auto | discriminate ].
Qed.

Lemma bind_Ok_l {A B : Type} (a : A) (k : A -> result B) : bind (Ok a) k = k a.
Proof. reflexivity. Qed.

(** Run a computation one step after its first part is known to return. *)
Ltac step := rewrite bind_Ok_l; cbv beta.

Lemma mapM_length {A B : Type} (f : A -> result B) (l : list A) (l' : list B) :
  mapM f l = Ok l' -> List.length l' = List.length l.
Proof.
  revert l'; induction l as [|a tl IH]; simpl; intros l' H.
  - injection H as <-. reflexivity.
  - apply bind_Ok in H as (b & _ & H).
    apply bind_Ok in H as (bs & Hbs & H).
    injection H as <-. simpl. f_equal. apply IH, Hbs.
Qed.

Lemma mapM_nth {A B : Type} (f : A -> result B) (l : list A) (l' : list B)
      (k : nat) (da : A) (db : B) :
  mapM f l = Ok l' -> (k < List.length l)%nat -> f (nth k l da) = Ok (nth k l' db).
Proof.
  revert l' k; induction l as [|a tl IH]; simpl; intros l' k H Hk.
  - inversion Hk.
  - apply bind_Ok in H as (b & Hb & H).
    apply bind_Ok in H as (bs & Hbs & H).
    injection H as <-. destruct k as [|k]; simpl; [ exact Hb | ].
    apply IH; [ exact Hbs | apply PeanoNat.lt_S_n, Hk ].
Qed.

(** ** Ranges and slices *)

Lemma py_range_length (start step n : Z) :
  0 < step -> 0 <= n ->
  List.length (py_range start (start + n * step) step) = Z.to_nat n.
Proof.
  intros Hstep Hn. unfold py_range. rewrite length_map, length_seq.
  destruct (Z.ltb_spec start (start + n * step)) as [Hlt|Hge].
  - assert (0 < n) by nia.
    replace (start + n * step - start - 1) with ((n - 1) * step + (step - 1)) by ring.
    rewrite Z.div_add_l by lia. rewrite Z.div_small by lia. f_equal. lia.
  - assert (n = 0) by nia. subst n. reflexivity.
Qed.

Lemma py_range_nth (start stop step : Z) (k : nat) :
  (k < List.length (py_range start stop step))%nat ->
  nth k (py_range start stop step) 0 = start + Z.of_nat k * step.
Proof.
  unfold py_range. rewrite length_map, length_seq. intros Hk.
  rewrite nth_indep with (d' := (fun k => start + Z.of_nat k * step) 0%nat)
    by (rewrite length_map, length_seq; exact Hk).
  rewrite (map_nth (fun k => start + Z.of_nat k * step)).
  rewrite seq_nth by exact Hk. reflexivity.
Qed.

Lemma slice_to_neg {A : Type} (l : list A) (p : Z) :
  0 < p ->
  slice l None (Some (- p)) = firstn (List.length l - Z.to_nat p) l.
Proof.
  intros Hp. unfold slice, clip. simpl skipn.
  destruct (Z.ltb_spec (- p) 0); [ | lia ].
  f_equal. lia.
Qed.

Lemma slice_from_neg {A : Type} (l : list A) (p : Z) :
  0 < p ->
  slice l (Some (- p)) None = skipn (List.length l - Z.to_nat p) l.
Proof.
  intros Hp. unfold slice, clip.
  destruct (Z.ltb_spec (- p) 0); [ | lia ].
  replace (Z.to_nat (Z.max (- p + Z.of_nat (List.length l)) 0))
    with (List.length l - Z.to_nat p)%nat by lia.
  apply firstn_all2. rewrite length_skipn. lia.
Qed.

Lemma slice_window {A : Type} (l : list A) (lo hi : Z) :
  lo < 0 -> hi < 0 ->
  slice l (Some lo) (Some hi)
  = firstn (Z.to_nat (Z.max (hi + Z.of_nat (List.length l)) 0
                      - Z.max (lo + Z.of_nat (List.length l)) 0))
           (skipn (Z.to_nat (Z.max (lo + Z.of_nat (List.length l)) 0)) l).
Proof.
  intros Hlo Hhi. unfold slice, clip.
  destruct (Z.ltb_spec lo 0); [ | lia ].
  destruct (Z.ltb_spec hi 0); [ | lia ].
  reflexivity.
Qed.

Lemma skipn_two {A : Type} (l : list A) (n : nat) (d : A) :
  (S n < List.length l)%nat ->
  firstn 2 (skipn n l) = [nth n l d; nth (S n) l d].
Proof.
  revert l; induction n as [|n IH]; intros l Hn.
  - destruct l as [|a [|b tl]]; simpl in *; try lia. reflexivity.
  - destruct l as [|a tl]; simpl in *; [ lia | ].
    apply IH. lia.
Qed.

(** ** The day-offset axis *)

Lemma day_offsets_unfold (dates : list datetime) :
  day_offsets dates = 0 :: cumsum_from 0 (map timedelta_days (np_diff dates)).
Proof. reflexivity. Qed.

Lemma offsets_tail_length (acc : Z) (dates : list datetime) :
  List.length (cumsum_from acc (map timedelta_days (np_diff dates)))
  = pred (List.length dates).
Proof.
  revert acc; induction dates as [|a [|b tl] IH]; intros acc; try reflexivity.
  change (S (List.length
               (cumsum_from (acc + timedelta_days (b - a))
                  (map timedelta_days (np_diff (b :: tl)))))
          = S (List.length tl)).
  rewrite IH. reflexivity.
Qed.

Lemma day_offsets_length (dates : list datetime) :
  dates <> [] -> List.length (day_offsets dates) = List.length dates.
Proof.
  intros Hne. rewrite day_offsets_unfold. simpl List.length.
  rewrite offsets_tail_length. destruct dates; [ contradiction | reflexivity ].
Qed.

Lemma offsets_tail_prefix (acc : Z) (l1 l2 : list datetime) :
  l1 <> [] ->
  firstn (pred (List.length l1))
         (cumsum_from acc (map timedelta_days (np_diff (l1 ++ l2))))
  = cumsum_from acc (map timedelta_days (np_diff l1)).
Proof.
  revert acc; induction l1 as [|a [|b tl] IH]; intros acc Hne.
  - contradiction.
  - reflexivity.
  - change (firstn (S (pred (List.length (b :: tl))))
              ((acc + timedelta_days (b - a))
               :: cumsum_from (acc + timedelta_days (b - a))
                    (map timedelta_days (np_diff ((b :: tl) ++ l2))))
            = (acc + timedelta_days (b - a))
              :: cumsum_from (acc + timedelta_days (b - a))
                   (map timedelta_days (np_diff (b :: tl)))).
    rewrite firstn_cons. f_equal. apply IH. discriminate.
Qed.

(** The offsets of a prefix of the dates are a prefix of the offsets. *)
Lemma day_offsets_prefix (l1 l2 : list datetime) :
  l1 <> [] ->
  firstn (List.length l1) (day_offsets (l1 ++ l2)) = day_offsets l1.
Proof.
  intros Hne. rewrite !day_offsets_unfold.
  destruct l1 as [|a tl] eqn:E; [ contradiction | ].
  rewrite <- E in *. replace (List.length l1) with (S (pred (List.length l1)))
    by (subst l1; reflexivity).
  rewrite firstn_cons. f_equal. apply offsets_tail_prefix. subst l1; discriminate.
Qed.

Lemma offsets_step (acc : Z) (dates : list datetime) (i : nat) :
  (S i < List.length dates)%nat ->
  nth (S i) (acc :: cumsum_from acc (map timedelta_days (np_diff dates))) 0
  = nth i (acc :: cumsum_from acc (map timedelta_days (np_diff dates))) 0
    + timedelta_days (nth (S i) dates 0 - nth i dates 0).
Proof.
  revert acc dates; induction i as [|i IH]; intros acc dates Hi.
  - destruct dates as [|a [|b tl]]; simpl in Hi; try lia. reflexivity.
  - destruct dates as [|a [|b tl]]; simpl in Hi; try lia.
    change (nth (S i)
              ((acc + timedelta_days (b - a))
               :: cumsum_from (acc + timedelta_days (b - a))
                    (map timedelta_days (np_diff (b :: tl)))) 0
            = nth i
                ((acc + timedelta_days (b - a))
                 :: cumsum_from (acc + timedelta_days (b - a))
                      (map timedelta_days (np_diff (b :: tl)))) 0
              + timedelta_days (nth (S i) (b :: tl) 0 - nth i (b :: tl) 0)).
    apply IH. simpl. lia.
Qed.

Lemma day_offsets_step (dates : list datetime) (i : nat) :
  (S i < List.length dates)%nat ->
  nth (S i) (day_offsets dates) 0
  = nth i (day_offsets dates) 0
    + timedelta_days (nth (S i) dates 0 - nth i dates 0).
Proof. rewrite day_offsets_unfold. apply offsets_step. Qed.

(** ** What a successful call of [plotData] went through *)

Lemma last_item_Ok {A : Type} (l : list A) (a : A) :
  last_item l = Ok a -> l <> [] /\ forall d, last l d = a.
Proof.
  unfold last_item. destruct (rev l) as [|b tl] eqn:E; [ discriminate | ].
  intros H; injection H as <-.
  assert (Hl : l = rev tl ++ [b]).
  { rewrite <- (rev_involutive l), E. reflexivity. }
  split.
  - rewrite Hl. destruct (rev tl); discriminate.
  - intros d. rewrite Hl. apply last_last.
Qed.

Section PlotDataFacts.
Context {tz : TimeZone} {np : Numpy}.

Lemma new_dates_Ok (dates added : list datetime) (predictions : Z) :
  0 < predictions ->
  new_dates dates predictions = Ok added ->
  dates <> [] /\ List.length added = Z.to_nat predictions.
Proof.
  intros Hp H. unfold new_dates in H.
  apply bind_Ok in H as (d & Hd & H).
  apply bind_Ok in H as (ts & _ & H).
  apply mapM_length in H. split.
  - apply (last_item_Ok _ _ Hd).
  - rewrite H.
    replace (ts + (predictions + 1) * month_diff)
      with (ts + month_diff + predictions * month_diff) by ring.
    apply py_range_length; [ reflexivity | lia ].
Qed.

Lemma getitem_Ok {V : Type} (d : dict V) (k : string) (v : V) :
  getitem d k = Ok v -> lookup d k = Some v.
Proof.
  unfold getitem. destruct (lookup d k); intros H; [ | discriminate ].
  injection H as <-. reflexivity.
Qed.

Lemma plotData_Ok (self : App) (county : string) (degree predictions : Z)
      (fig : figure) :
  plotData self county degree predictions = Ok fig ->
  exists series observed added cases,
    run self county degree predictions fig series observed added cases.
Proof.
  unfold plotData. intros H.
  apply bind_Ok in H as (series & Hs & H). apply getitem_Ok in Hs.
  apply bind_Ok in H as (observed & Hobs & H).
  apply bind_Ok in H as (dates & Hdates & H).
  apply bind_Ok in H as (cases & Hc & H). apply getitem_Ok in Hc.
  apply bind_Ok in H as (z & Hz & H).
  injection H as <-.
  destruct (0 <? predictions) eqn:Hp.
  - apply bind_Ok in Hdates as (added & Hadd & Hdates).
    injection Hdates as <-.
    exists series, observed, added, cases.
    constructor; simpl; rewrite ?Hp; auto.
  - injection Hdates as <-.
    exists series, observed, [], cases.
    constructor; simpl; rewrite ?Hp, ?app_nil_r; auto.
Qed.
End PlotDataFacts.

(** ** What the fit is computed from *)

Section FitFacts.
Context {tz : TimeZone} {np : Numpy}.

Lemma np_polyfit_Ok (x y : list Z) (deg : Z) (z : poly1d) :
  np_polyfit x y deg = Ok z ->
  0 <= deg /\ List.length x <> 0%nat /\ List.length x = List.length y
  /\ lstsq x y deg = Some z.
Proof.
  unfold np_polyfit.
  destruct (Z.ltb_spec deg 0) as [|Hdeg]; [ discriminate | ].
  destruct (Nat.eqb_spec (List.length x) 0) as [|Hx]; [ discriminate | ].
  destruct (Nat.eqb_spec (List.length x) (List.length y)) as [Hxy|];
    [ | discriminate ].
  destruct (lstsq x y deg); [ | discriminate ].
  intros Hz; injection Hz as <-. auto.
Qed.

Context {self : App} {county : string} {degree predictions : Z}.
Context {fig : figure} {series : dict cell} {observed added : list datetime}.
Context {cases : dict cell}.
Hypothesis R : run self county degree predictions fig series observed added cases.

Lemma run_added_length : List.length added = Z.to_nat predictions.
Proof.
  pose proof (run_new_dates R) as Hadd.
  destruct (Z.ltb_spec 0 predictions) as [Hp|Hp].
  - apply (new_dates_Ok _ _ _ Hp Hadd).
  - subst added. simpl. lia.
Qed.

Lemma run_observed_nonempty : 0 < predictions -> observed <> [].
Proof.
  intros Hp. pose proof (run_new_dates R) as Hadd.
  destruct (Z.ltb_spec 0 predictions) as [_|Hp']; [ | lia ].
  apply (new_dates_Ok _ _ _ Hp Hadd).
Qed.

(** The abscissae handed to [np.polyfit] are the offsets of the observed
    dates, whatever was appended to [dates]. *)
Lemma run_fit_x_observed : fig_fit_x fig = day_offsets observed.
Proof.
  rewrite (run_fit_x R), (run_x R),
          (run_dates R).
  destruct (Z.ltb_spec 0 predictions) as [Hp|Hp].
  - pose proof (run_observed_nonempty Hp) as Hne.
    rewrite slice_to_neg by exact Hp.
    rewrite day_offsets_length by (destruct observed; [ contradiction | discriminate ]).
    rewrite length_app, run_added_length.
    replace (List.length observed + Z.to_nat predictions - Z.to_nat predictions)%nat
      with (List.length observed) by lia.
    apply day_offsets_prefix, Hne.
  - pose proof (run_new_dates R) as Hadd.
    destruct (Z.ltb_spec 0 predictions) as [Hp'|_]; [ lia | ].
    subst added. rewrite app_nil_r. reflexivity.
Qed.

Lemma run_lengths :
  List.length (fig_fit_x fig) = List.length (fig_y fig)
  /\ List.length (fig_y fig) <> 0%nat.
Proof.
  destruct (np_polyfit_Ok _ _ _ _ (run_fit R)) as (_ & Hx & Hxy & _).
  split; [ exact Hxy | rewrite <- Hxy; exact Hx ].
Qed.

Lemma run_x_length :
  List.length (fig_x fig) = (List.length (fig_y fig) + Z.to_nat predictions)%nat.
Proof.
  destruct run_lengths as [Hxy _]. rewrite <- Hxy.
  destruct (Z.ltb_spec 0 predictions) as [Hp|Hp].
  - pose proof (run_observed_nonempty Hp) as Hne.
    rewrite run_fit_x_observed, (run_x R),
            (run_dates R).
    rewrite !day_offsets_length;
      [ | exact Hne | destruct observed; [ contradiction | discriminate ] ].
    rewrite length_app, run_added_length. reflexivity.
  - rewrite (run_fit_x R).
    destruct (Z.ltb_spec 0 predictions) as [Hp'|_]; [ lia | ].
    replace (Z.to_nat predictions) with 0%nat by lia. lia.
Qed.
End FitFacts.

(** C1.  Whatever the degree (in particular [degree >= 1]) and the number
    of predictions (in particular [predictions >= 0]), a call of [plotData]
    that draws a figure fitted the polynomial to the observed points only:
    the abscissae given to [np.polyfit] are the day offsets of the dates
    stored for the county, as many as there are values [y], and the
    coefficients are the solver's answer for exactly these points; the
    dates generated for the predictions appear in [x] and not in the fit. *)
Theorem plotData_fits_observed_points_only
        {tz : TimeZone} {np : Numpy}
        (self : App) (county : string) (degree predictions : Z) (fig : figure) :
  1 <= degree -> 0 <= predictions ->
  plotData self county degree predictions = Ok fig ->
  exists series observed added,
    lookup (data self) (upper county) = Some series /\
    mapM strptime_Ymd (keys series) = Ok observed /\
    List.length added = Z.to_nat predictions /\
    fig_x fig = day_offsets (observed ++ added) /\
    fig_fit_x fig = day_offsets observed /\
    List.length (fig_fit_x fig) = List.length (fig_y fig) /\
    lstsq (day_offsets observed) (fig_y fig) degree = Some (fig_z fig).
Proof.
  intros _ _ H.
  apply plotData_Ok in H as (series & observed & added & cases & R).
  exists series, observed, added.
  pose proof (run_fit_x_observed R) as Hfit.
  pose proof (run_fit R) as Hz.
  apply np_polyfit_Ok in Hz as (_ & _ & Hlen & Hz).
  repeat split.
  - apply (run_lookup_upper R).
  - apply (run_parsed R).
  - apply (run_added_length R).
  - rewrite (run_x R), (run_dates R).
    reflexivity.
  - exact Hfit.
  - exact Hlen.
  - rewrite <- Hfit. exact Hz.
Qed.

Lemma plotData_fits_observed_points_only_january :
  @plotData utc symbolic app_january "BRAGA" 2 2 = Ok figure_january
  /\ exists series observed added,
       lookup (data app_january) (upper "BRAGA") = Some series /\
       mapM strptime_Ymd (keys series) = Ok observed /\
       List.length added = Z.to_nat 2 /\
       fig_x figure_january = day_offsets (observed ++ added) /\
       fig_fit_x figure_january = day_offsets observed /\
       List.length (fig_fit_x figure_january) = List.length (fig_y figure_january) /\
       @lstsq symbolic (day_offsets observed) (fig_y figure_january) 2
       = Some (fig_z figure_january).
Proof.
  split; [ reflexivity | ].
  apply (@plotData_fits_observed_points_only utc symbolic app_january "BRAGA" 2 2);
    [ lia | lia | reflexivity ].
Defined.

(** C2.  For every non-empty sequence of dates the axis computed at lines
    144-145 has one offset per date, starts at 0, and each further offset
    adds to the previous one the [days] of the difference between the date
    and the date before it; the [x] of every figure is this axis of its
    dates.  For 2021-01-01, 2021-01-03 and 2021-01-10 the axis is
    [0, 2, 9]. *)
Theorem day_offsets_cumulative (dates : list datetime) :
  dates <> [] ->
  List.length (day_offsets dates) = List.length dates
  /\ nth 0 (day_offsets dates) 0 = 0
  /\ (forall i, (1 <= i < List.length dates)%nat ->
        nth i (day_offsets dates) 0
        = nth (i - 1) (day_offsets dates) 0
          + timedelta_days (nth i dates 0 - nth (i - 1) dates 0))
  /\ (forall (tz : TimeZone) (np : Numpy) self county degree predictions fig,
        plotData self county degree predictions = Ok fig ->
        fig_x fig = day_offsets (fig_dates fig))
  /\ (exists d0 d1 d2,
        mapM strptime_Ymd ["2021-01-01"; "2021-01-03"; "2021-01-10"] = Ok [d0; d1; d2]
        /\ day_offsets [d0; d1; d2] = [0; 2; 9]).
Proof.
  intros Hne. repeat split.
  - apply day_offsets_length, Hne.
  - intros i [Hi Hlt]. destruct i as [|i]; [ lia | ].
    replace (S i - 1)%nat with i by lia.
    apply day_offsets_step, Hlt.
  - intros tz np self county degree predictions fig H.
    apply plotData_Ok in H as (series & observed & added & cases & R).
    apply (run_x R).
  - exists 63745056000, 63745228800, 63745833600. split; reflexivity.
Qed.

Lemma day_offsets_cumulative_january :
  [63745056000; 63745228800; 63745833600] <> []
  /\ day_offsets [63745056000; 63745228800; 63745833600] = [0; 2; 9]
  /\ nth 2 (day_offsets [63745056000; 63745228800; 63745833600]) 0
     = nth 1 (day_offsets [63745056000; 63745228800; 63745833600]) 0
       + timedelta_days (63745833600 - 63745228800).
Proof.
  assert (Hne : [63745056000; 63745228800; 63745833600] <> []) by discriminate.
  split; [ exact Hne | split; [ reflexivity | ] ].
  destruct (day_offsets_cumulative _ Hne) as (_ & _ & Hstep & _).
  apply (Hstep 2%nat). simpl. lia.
Defined.

(** C4.  For every number of predictions [>= 0], a figure's [x] has as
    many entries as the county's series has observations plus the number
    of predictions. *)
Theorem plotData_x_length
        {tz : TimeZone} {np : Numpy}
        (self : App) (county : string) (degree predictions : Z) (fig : figure) :
  0 <= predictions ->
  plotData self county degree predictions = Ok fig ->
  exists cases,
    lookup (data self) county = Some cases
    /\ fig_y fig = map astype_int (values cases)
    /\ Z.of_nat (List.length (fig_x fig)) = Z.of_nat (List.length cases) + predictions.
Proof.
  intros Hp H.
  apply plotData_Ok in H as (series & observed & added & cases & R).
  exists cases. split; [ apply (run_lookup R) | ].
  split; [ apply (run_y R) | ].
  rewrite (run_x_length R), (run_y R).
  unfold values. rewrite !length_map. lia.
Qed.

Lemma plotData_x_length_january :
  0 <= 2
  /\ @plotData utc symbolic app_january "BRAGA" 2 2 = Ok figure_january
  /\ exists cases,
       lookup (data app_january) "BRAGA" = Some cases
       /\ fig_y figure_january = map astype_int (values cases)
       /\ Z.of_nat (List.length (fig_x figure_january))
          = Z.of_nat (List.length cases) + 2.
Proof.
  split; [ lia | split; [ reflexivity | ] ].
  apply (@plotData_x_length utc symbolic app_january "BRAGA" 2 2);
    [ lia | reflexivity ].
Defined.

(** ** The generated dates *)

Lemma last_item_nonempty {A : Type} (l : list A) (d : A) :
  l <> [] -> last_item l = Ok (last l d).
Proof.
  intros Hne. destruct (exists_last Hne) as (l' & a & ->).
  unfold last_item. rewrite rev_app_distr, last_last. reflexivity.
Qed.

Lemma mapM_map_Ok {A B C : Type} (f : B -> result C) (g : A -> B) (h : A -> C)
      (l : list A) :
  (forall a, In a l -> f (g a) = Ok (h a)) ->
  mapM f (map g l) = Ok (map h l).
Proof.
  induction l as [|a tl IH]; intros H; simpl; [ reflexivity | ].
  rewrite (H a) by (left; reflexivity). simpl.
  rewrite IH by (intros a' Ha'; apply H; right; exact Ha'). reflexivity.
Qed.

Section FixedOffset.
Context {tz : TimeZone}.
Variable c : Z.
Hypothesis fixed : forall u, utcoffset u = c.

Lemma local_fixed (u : Z) :
  0 <= EPOCH + u + c < MAX_DATETIME -> local u = Ok (u + c).
Proof.
  intros Hr. unfold local. rewrite fixed.
  destruct (Z.leb_spec 0 (EPOCH + (u + c))); [ | lia ].
  destruct (Z.ltb_spec (EPOCH + (u + c)) MAX_DATETIME); [ | lia ].
  reflexivity.
Qed.

Lemma timestamp_fixed (d : datetime) :
  SECONDS_PER_DAY <= d < MAX_DATETIME -> 0 <= d + c < MAX_DATETIME ->
  timestamp d = Ok (d - EPOCH - c).
Proof.
  intros Hd Hdc. unfold timestamp.
  assert (HS : SECONDS_PER_DAY = 86400) by reflexivity.
  assert (HF : max_fold_seconds = 86400) by reflexivity.
  rewrite local_fixed by lia. step.
  replace (d - EPOCH + c - (d - EPOCH)) with c by ring.
  rewrite local_fixed by lia. step.
  replace (d - EPOCH - c + c) with (d - EPOCH) by ring.
  rewrite Z.eqb_refl.
  rewrite local_fixed by lia. step.
  replace (d - EPOCH - c - max_fold_seconds + c - (d - EPOCH - c - max_fold_seconds))
    with c by ring.
  rewrite Z.eqb_refl. reflexivity.
Qed.

Lemma fromtimestamp_fixed (u : Z) :
  SECONDS_PER_DAY <= EPOCH + u + c < MAX_DATETIME ->
  fromtimestamp u = Ok (EPOCH + u + c).
Proof.
  intros Hr. unfold fromtimestamp.
  assert (HS : SECONDS_PER_DAY = 86400) by reflexivity.
  assert (HF : max_fold_seconds = 86400) by reflexivity.
  rewrite local_fixed by lia. step.
  rewrite local_fixed by lia. step.
  replace (u + c - (u - max_fold_seconds + c) - max_fold_seconds) with 0 by ring.
  rewrite Z.ltb_irrefl. unfold bind. f_equal. ring.
Qed.

(** On a machine whose offset from UTC never changes, the generated dates
    are the last date plus 30, 60, ... days, as long as they stay within
    the years a [datetime] can hold. *)
Lemma new_dates_fixed_offset (dates : list datetime) (predictions : Z) :
  dates <> [] -> 0 < predictions ->
  SECONDS_PER_DAY <= last dates 0 ->
  0 <= last dates 0 + c < MAX_DATETIME ->
  add_days (last dates 0) (30 * predictions) < MAX_DATETIME ->
  new_dates dates predictions
  = Ok (map (fun k => add_days (last dates 0) (30 * Z.of_nat k))
            (seq 1 (Z.to_nat predictions))).
Proof.
  intros Hne Hp Hlo Hc Hhi. unfold new_dates.
  rewrite (@last_item_nonempty datetime dates 0 Hne). step.
  unfold add_days in Hhi.
  assert (HS : SECONDS_PER_DAY = 86400) by reflexivity.
  assert (HM : month_diff = 2592000) by reflexivity.
  rewrite timestamp_fixed by lia. step.
  set (d := last dates 0) in *.
  unfold py_range.
  destruct (Z.ltb_spec (d - EPOCH - c + month_diff)
                       (d - EPOCH - c + (predictions + 1) * month_diff)) as [_|Hge];
    [ | lia ].
  replace ((d - EPOCH - c + (predictions + 1) * month_diff
            - (d - EPOCH - c + month_diff) - 1) / month_diff + 1)
    with predictions.
  2:{ replace (d - EPOCH - c + (predictions + 1) * month_diff
               - (d - EPOCH - c + month_diff) - 1)
        with ((predictions - 1) * month_diff + (month_diff - 1)) by ring.
      rewrite Z.div_add_l by lia. rewrite Z.div_small by lia. ring. }
  rewrite <- seq_shift, map_map.
  apply mapM_map_Ok. intros k Hk. apply in_seq in Hk.
  clearbody d. unfold add_days. rewrite HM, HS in *.
  rewrite fromtimestamp_fixed by (rewrite HS; lia).
  apply (f_equal (@Ok datetime)). lia.
Qed.
End FixedOffset.

(** On any machine, the [k]-th generated date is the local time at the
    instant of the last date plus [k] times 2592000 seconds. *)
Lemma new_dates_instants {tz : TimeZone} (dates added : list datetime)
      (predictions : Z) (k : nat) :
  new_dates dates predictions = Ok added ->
  (k < List.length added)%nat ->
  exists last_date_ts,
    timestamp (last dates 0) = Ok last_date_ts
    /\ fromtimestamp (last_date_ts + Z.of_nat (S k) * month_diff)
       = Ok (nth k added 0).
Proof.
  intros H Hk. unfold new_dates in H.
  apply bind_Ok in H as (d & Hd & H).
  apply bind_Ok in H as (ts & Hts & H).
  destruct (last_item_Ok _ _ Hd) as [_ Hlast].
  exists ts. split; [ rewrite (Hlast 0); exact Hts | ].
  pose proof (mapM_length _ _ _ H) as Hlen. rewrite Hlen in Hk.
  pose proof (mapM_nth _ _ _ k 0 0 H Hk) as Hn.
  rewrite py_range_nth in Hn by exact Hk.
  replace (ts + Z.of_nat (S k) * month_diff)
    with (ts + month_diff + Z.of_nat k * month_diff) by lia.
  exact Hn.
Qed.

(** C3.  On a machine on Lisbon time, with 2021-10-15 as the last
    observed date and two predictions, the generated datetimes are
    2021-11-13 23:00 and 2021-12-13 23:00: one hour short of the last date
    plus 30 and 60 days, because the clocks go back on 2021-10-31 and the
    dates are stepped as POSIX instants.  The labels read 13-11 and 13-12
    and the axis advances by 29 days, then 30.  On a UTC machine the same
    call yields the last date plus 30 and 60 days, and for 2021-06-15 both
    machines yield 2021-07-15 and 2021-08-14. *)
Theorem new_dates_lisbon_autumn :
  @new_dates lisbon [63768643200; 63769852800] 2
  = Ok [add_days 63769852800 30 - 3600; add_days 63769852800 60 - 3600]
  /\ dates_drawn (@plotData lisbon symbolic app_october "BRAGA" 1 2)
     = ["2021-10-01"; "2021-10-15"; "2021-11-13"; "2021-12-13"]
  /\ x_drawn (@plotData lisbon symbolic app_october "BRAGA" 1 2) = [0; 14; 43; 73]
  /\ dates_drawn (@plotData utc symbolic app_october "BRAGA" 1 2)
     = ["2021-10-01"; "2021-10-15"; "2021-11-14"; "2021-12-14"]
  /\ x_drawn (@plotData utc symbolic app_october "BRAGA" 1 2) = [0; 14; 44; 74]
  /\ dates_drawn (@plotData lisbon symbolic app_june "BRAGA" 1 2)
     = ["2021-06-01"; "2021-06-15"; "2021-07-15"; "2021-08-14"]
  /\ x_drawn (@plotData lisbon symbolic app_june "BRAGA" 1 2) = [0; 14; 44; 74].
Proof. repeat split; vm_compute; reflexivity. Qed.

(** ** The split between confirmed and predicted cases *)

Lemma split_slice_two (x : list Z) (predictions : Z) (n : nat) :
  0 < predictions -> (0 < n)%nat ->
  List.length x = (n + Z.to_nat predictions)%nat ->
  split_slice x predictions = Some [nth (n - 1) x 0; nth n x 0].
Proof.
  intros Hp Hn Hlen. unfold split_slice.
  assert (Hsk : firstn 2 (skipn (n - 1) x) = [nth (n - 1) x 0; nth n x 0]).
  { rewrite (skipn_two x (n - 1) 0) by lia.
    replace (S (n - 1)) with n by lia. reflexivity. }
  destruct (Z.ltb_spec 1 predictions) as [H1|H1].
  - rewrite slice_window by lia. rewrite Hlen.
    replace (Z.to_nat (Z.max (- predictions - 1 + Z.of_nat (n + Z.to_nat predictions)) 0))
      with (n - 1)%nat by lia.
    replace (Z.to_nat (Z.max (- predictions + 1 + Z.of_nat (n + Z.to_nat predictions)) 0
                       - Z.max (- predictions - 1 + Z.of_nat (n + Z.to_nat predictions)) 0))
      with 2%nat by lia.
    rewrite Hsk. reflexivity.
  - assert (predictions = 1) by lia. subst predictions.
    rewrite Z.eqb_refl.
    change (slice x (Some (-2)) None) with (slice x (Some (- (2))) None).
    rewrite (slice_from_neg x 2) by lia. rewrite Hlen.
    replace (n + Z.to_nat 1 - Z.to_nat 2)%nat with (n - 1)%nat by lia.
    rewrite <- Hsk. rewrite firstn_all2; [ reflexivity | ].
    rewrite length_skipn. lia.
Qed.

(** C5.  For a series of [n] points the split index is [n] when
    predictions are asked for and [n - 1] when none is, whatever the
    degree.  With predictions the code draws the boundary at the mean of
    [x[n-1]] and [x[n]], fits the points before index [n] and draws those
    from index [n] on as predicted; without, it draws no boundary and
    nothing as predicted, fits all of [x], and [n - 1] is the index of the
    last point. *)
Theorem plotData_split
        {tz : TimeZone} {np : Numpy}
        (self : App) (county : string) (degree predictions : Z) (fig : figure) :
  plotData self county degree predictions = Ok fig ->
  let n := List.length (fig_y fig) in
  (exists cases, lookup (data self) county = Some cases /\ List.length cases = n)
  /\ split_index fig = (if 0 <? predictions then Z.of_nat n else Z.of_nat n - 1)
  /\ (0 < predictions ->
        fig_axvline fig = Some [nth (n - 1) (fig_x fig) 0; nth n (fig_x fig) 0]
        /\ fig_fit_x fig = firstn n (fig_x fig)
        /\ option_map fst (fig_predicted fig) = Some (skipn n (fig_x fig)))
  /\ (predictions <= 0 ->
        fig_axvline fig = None /\ fig_predicted fig = None
        /\ fig_fit_x fig = fig_x fig /\ List.length (fig_x fig) = n)
  /\ (forall degree' fig',
        plotData self county degree' predictions = Ok fig' ->
        fig_x fig' = fig_x fig /\ fig_axvline fig' = fig_axvline fig
        /\ split_index fig' = split_index fig).
Proof.
  intros H n.
  assert (Hidx : forall degree0 fig0,
            plotData self county degree0 predictions = Ok fig0 ->
            split_index fig0
            = (if 0 <? predictions then Z.of_nat (List.length (fig_y fig0))
               else Z.of_nat (List.length (fig_y fig0)) - 1)).
  { intros degree0 fig0 H0.
    apply plotData_Ok in H0 as (series0 & observed0 & added0 & cases0 & R0).
    pose proof (run_x_length R0) as Hx0.
    pose proof (run_predicted R0) as Hpred0.
    unfold split_index. rewrite Hpred0.
    destruct (Z.ltb_spec 0 predictions) as [Hp|Hp].
    - rewrite slice_from_neg by exact Hp. rewrite length_skipn. lia.
    - lia. }
  pose proof H as H0.
  apply plotData_Ok in H as (series & observed & added & cases & R).
  destruct (run_lengths R) as [Hxy Hy].
  pose proof (run_x_length R) as Hx.
  fold n in Hxy, Hy, Hx.
  split; [ | split; [ exact (Hidx _ _ H0) | split; [ | split ] ] ].
  - exists cases. split; [ apply (run_lookup R) | ].
    unfold n. rewrite (run_y R). unfold values. rewrite !length_map. reflexivity.
  - intros Hp. split.
    + rewrite (run_axvline R).
      apply split_slice_two; [ exact Hp | lia | exact Hx ].
    + pose proof (run_fit_x R) as Hfit.
      pose proof (run_predicted R) as Hpred.
      destruct (Z.ltb_spec 0 predictions) as [_|Hp']; [ | lia ].
      split.
      * rewrite Hfit, slice_to_neg by exact Hp. f_equal. lia.
      * rewrite Hpred. simpl. rewrite slice_from_neg by exact Hp.
        do 2 f_equal. lia.
  - intros Hp.
    pose proof (run_fit_x R) as Hfit.
    pose proof (run_predicted R) as Hpred.
    pose proof (run_axvline R) as Hax.
    unfold split_slice in Hax.
    destruct (Z.ltb_spec 0 predictions) as [Hp'|_]; [ lia | ].
    destruct (Z.ltb_spec 1 predictions) as [Hp'|_]; [ lia | ].
    destruct (Z.eqb_spec predictions 1) as [Hp'|_]; [ lia | ].
    repeat split; try assumption. lia.
  - intros degree' fig' H'.
    pose proof H' as H0'.
    apply plotData_Ok in H' as (series' & observed' & added' & cases' & R').
    assert (Hs : series' = series).
    { pose proof (run_lookup_upper R) as E.
      pose proof (run_lookup_upper R') as E'. congruence. }
    subst series'.
    assert (Ho : observed' = observed).
    { pose proof (run_parsed R) as E.
      pose proof (run_parsed R') as E'. congruence. }
    subst observed'.
    assert (Ha : added' = added).
    { pose proof (run_new_dates R) as E.
      pose proof (run_new_dates R') as E'.
      destruct (0 <? predictions); congruence. }
    subst added'.
    assert (Hc : cases' = cases).
    { pose proof (run_lookup R) as E.
      pose proof (run_lookup R') as E'. congruence. }
    subst cases'.
    assert (Hxx : fig_x fig' = fig_x fig).
    { rewrite (run_x R), (run_x R'),
              (run_dates R), (run_dates R').
      reflexivity. }
    split; [ exact Hxx | split ].
    + rewrite (run_axvline R), (run_axvline R'), Hxx. reflexivity.
    + rewrite (Hidx _ _ H0), (Hidx _ _ H0'), (run_y R), (run_y R'). reflexivity.
Qed.

Lemma plotData_split_january :
  (@plotData utc symbolic app_january "BRAGA" 2 2 = Ok figure_january
   /\ List.length (fig_y figure_january) = 3%nat
   /\ split_index figure_january = 3
   /\ fig_axvline figure_january = Some [9; 39]
   /\ fig_fit_x figure_january = [0; 2; 9])
  /\ (@plotData utc symbolic app_january "BRAGA" 2 0 = Ok (figure_january_observed 2)
      /\ List.length (fig_y (figure_january_observed 2)) = 3%nat
      /\ split_index (figure_january_observed 2) = 3 - 1
      /\ fig_axvline (figure_january_observed 2) = None).
Proof.
  assert (H : @plotData utc symbolic app_january "BRAGA" 2 2 = Ok figure_january)
    by reflexivity.
  assert (H0 : @plotData utc symbolic app_january "BRAGA" 2 0
               = Ok (figure_january_observed 2)) by reflexivity.
  split.
  - split; [ exact H | split; [ reflexivity | ] ].
    destruct (plotData_split _ _ _ _ _ H) as (_ & Hidx & Hsplit & _).
    destruct Hsplit as (Hax & Hfit & _); [ lia | ].
    split; [ exact Hidx | split; [ exact Hax | exact Hfit ] ].
  - split; [ exact H0 | split; [ reflexivity | ] ].
    destruct (plotData_split _ _ _ _ _ H0) as (_ & Hidx & _ & Hnone & _).
    destruct Hnone as (Hax & _); [ lia | ].
    split; [ exact Hidx | exact Hax ].
Defined.

(** ** Fewer points than coefficients *)

Lemma getitem_Some {V : Type} (d : dict V) (k : string) (v : V) :
  lookup d k = Some v -> getitem d k = Ok v.
Proof. unfold getitem. intros ->. reflexivity. Qed.

(** C6 as the code has it.  For a series of [n >= 1] observed points and a
    degree with [n < degree + 1], the call does not fail for want of
    points: [np.polyfit] is run on the [n] observed points, and the figure
    is drawn with the coefficients the solver returns; the only failure
    left is the solver's own [LinAlgError]. *)
Theorem plotData_underdetermined
        {tz : TimeZone} {np : Numpy}
        (self : App) (county : string) (degree predictions : Z)
        (series cases : dict cell) (observed added : list datetime) :
  lookup (data self) (upper county) = Some series ->
  mapM strptime_Ymd (keys series) = Ok observed ->
  (if 0 <? predictions then new_dates observed predictions = Ok added
   else added = []) ->
  lookup (data self) county = Some cases ->
  List.length cases = List.length observed ->
  (1 <= List.length observed)%nat ->
  Z.of_nat (List.length observed) < degree + 1 ->
  match lstsq (day_offsets observed) (map astype_int (values cases)) degree with
  | Some z =>
      exists fig,
        plotData self county degree predictions = Ok fig
        /\ fig_z fig = z
        /\ fig_fit_x fig = day_offsets observed
        /\ List.length (fig_fit_x fig) = List.length observed
  | None => plotData self county degree predictions = Raise LinAlgError
  end.
Proof.
  intros Hs Hobs Hadd Hc Hlen Hn Hdeg.
  assert (Hne : observed <> []) by (destruct observed; [ simpl in Hn; lia | discriminate ]).
  assert (Hfit : (if 0 <? predictions
                  then slice (day_offsets (observed ++ added)) None (Some (- predictions))
                  else day_offsets (observed ++ added)) = day_offsets observed).
  { destruct (Z.ltb_spec 0 predictions) as [Hp|Hp].
    - destruct (new_dates_Ok _ _ _ Hp Hadd) as [_ Hal].
      rewrite slice_to_neg by exact Hp.
      rewrite day_offsets_length by (destruct observed; [ contradiction | discriminate ]).
      rewrite length_app, Hal.
      replace (List.length observed + Z.to_nat predictions - Z.to_nat predictions)%nat
        with (List.length observed) by lia.
      apply day_offsets_prefix, Hne.
    - subst added. rewrite app_nil_r. reflexivity. }
  assert (Hpoly : np_polyfit (day_offsets observed) (map astype_int (values cases)) degree
                  = match lstsq (day_offsets observed) (map astype_int (values cases)) degree with
                    | Some z => Ok z
                    | None => Raise LinAlgError
                    end).
  { unfold np_polyfit.
    destruct (Z.ltb_spec degree 0) as [Hneg|_]; [ lia | ].
    rewrite day_offsets_length by exact Hne.
    unfold values. rewrite !length_map, Hlen.
    destruct (Nat.eqb_spec (List.length observed) 0) as [H0|_]; [ lia | ].
    rewrite Nat.eqb_refl. reflexivity. }
  unfold plotData.
  rewrite (getitem_Some _ _ _ Hs). step.
  rewrite Hobs. step.
  assert (Hdates : (if 0 <? predictions
                    then added0 <- new_dates observed predictions ;; Ok (observed ++ added0)
                    else Ok observed) = Ok (observed ++ added)).
  { destruct (0 <? predictions).
    - rewrite Hadd. reflexivity.
    - subst added. rewrite app_nil_r. reflexivity. }
  rewrite Hdates. step.
  rewrite (getitem_Some _ _ _ Hc). step.
  rewrite Hfit, Hpoly.
  destruct (lstsq (day_offsets observed) (map astype_int (values cases)) degree) as [z|].
  - step. eexists. split; [ reflexivity | ]. simpl.
    split; [ reflexivity | ]. split; [ reflexivity | ].
    apply day_offsets_length, Hne.
  - reflexivity.
Qed.

Lemma plotData_underdetermined_january :
  (Z.of_nat 3 < 5 + 1)
  /\ exists fig,
       @plotData utc symbolic app_january "BRAGA" 5 0 = Ok fig
       /\ fig_z fig = LeastSquares [0; 2; 9] [1; 2; 3] 5
       /\ fig_fit_x fig = [0; 2; 9]
       /\ List.length (fig_fit_x fig) = 3%nat.
Proof.
  split; [ lia | ].
  apply (@plotData_underdetermined utc symbolic app_january "BRAGA" 5 0
           (series_of ["2021-01-01"; "2021-01-03"; "2021-01-10"])
           (series_of ["2021-01-01"; "2021-01-03"; "2021-01-10"])
           [63745056000; 63745228800; 63745833600] []);
    try reflexivity; simpl; lia.
Defined.

(** C6 as stated fails: with three observations, degree 5 and no
    prediction, the call returns and draws the figure of the degree-5
    fit. *)
Lemma degree_five_on_three_points :
  @plotData utc symbolic app_january "BRAGA" 5 0 = Ok (figure_january_observed 5)
  /\ List.length (fig_y (figure_january_observed 5)) = 3%nat
  /\ Z.of_nat 3 < 5 + 1.
Proof. split; [ reflexivity | split; [ reflexivity | lia ] ]. Qed.

(** ** The name as given and the name in upper case *)

Lemma lookup_not_upper {V : Type} (d : dict V) (k : string) :
  (forall k', In k' (keys d) -> upper k' = k') -> upper k <> k ->
  lookup d k = None.
Proof.
  intros Hkeys Hk. induction d as [|[k' v] tl IH]; simpl; [ reflexivity | ].
  destruct (String.eqb_spec k' k) as [->|_].
  - exfalso. apply Hk, Hkeys. left. reflexivity.
  - apply IH. intros k'' Hin. apply Hkeys. right. exact Hin.
Qed.

(** C10 as the code has it.  The dates are read under the upper-cased
    name and the values under the name as given.  So for a store whose
    keys are in upper case and a name that is not, its upper-case form
    being a key, the call never draws a figure: it reads the dates of the
    stored series and extends them, failing there as any call does (a
    date that cannot be read, no date at all, a date beyond what the
    machine converts), and if it gets through it fails with [KeyError] on
    the name as given. *)
Theorem plotData_name_as_given
        {tz : TimeZone} {np : Numpy}
        (self : App) (county : string) (degree predictions : Z)
        (series : dict cell) :
  (forall k, In k (keys (data self)) -> upper k = k) ->
  lookup (data self) (upper county) = Some series ->
  upper county <> county ->
  plotData self county degree predictions
  = (observed <- mapM strptime_Ymd (keys series) ;;
     _ <- (if 0 <? predictions then new_dates observed predictions else Ok []) ;;
     Raise (KeyError county))
  /\ (exists e, plotData self county degree predictions = Raise e)
  /\ (forall observed,
        mapM strptime_Ymd (keys series) = Ok observed ->
        (0 < predictions -> exists added, new_dates observed predictions = Ok added) ->
        plotData self county degree predictions = Raise (KeyError county)).
Proof.
  intros Hkeys Hs Hne.
  pose proof (lookup_not_upper _ _ Hkeys Hne) as Hc.
  assert (Hget : getitem (data self) county = Raise (KeyError county))
    by (unfold getitem; rewrite Hc; reflexivity).
  assert (Heq : plotData self county degree predictions
                = (observed <- mapM strptime_Ymd (keys series) ;;
                   _ <- (if 0 <? predictions then new_dates observed predictions
                         else Ok []) ;;
                   Raise (KeyError county))).
  { unfold plotData. rewrite (getitem_Some _ _ _ Hs). step.
    destruct (mapM strptime_Ymd (keys series)) as [observed|e]; [ | reflexivity ].
    step. step.
    destruct (0 <? predictions).
    - destruct (new_dates observed predictions) as [added|e]; [ | reflexivity ].
      step. step. step. rewrite Hget. reflexivity.
    - step. step. rewrite Hget. reflexivity. }
  split; [ exact Heq | split ].
  - rewrite Heq.
    destruct (mapM strptime_Ymd (keys series)) as [observed|e]; [ | exists e; reflexivity ].
    step.
    destruct (if 0 <? predictions then new_dates observed predictions else Ok [])
      as [added|e]; [ | exists e; reflexivity ].
    step. exists (KeyError county). reflexivity.
  - intros observed Hobs Hadd. rewrite Heq, Hobs. step.
    destruct (Z.ltb_spec 0 predictions) as [Hp|Hp].
    + destruct (Hadd Hp) as [added ->]. reflexivity.
    + reflexivity.
Qed.

Lemma plotData_name_as_given_guimaraes :
  (forall k, In k (keys (data app_guimaraes)) -> upper k = k)
  /\ lookup (data app_guimaraes) (upper "Guimarães")
     = Some (series_of ["2021-01-01"; "2021-01-03"; "2021-01-10"])
  /\ upper "Guimarães" <> "Guimarães"
  /\ @plotData utc symbolic app_guimaraes "Guimarães" 2 2
     = Raise (KeyError "Guimarães").
Proof.
  assert (Hk : forall k, In k (keys (data app_guimaraes)) -> upper k = k).
  { intros k [<-|[]]. reflexivity. }
  assert (Hs : lookup (data app_guimaraes) (upper "Guimarães")
               = Some (series_of ["2021-01-01"; "2021-01-03"; "2021-01-10"]))
    by reflexivity.
  assert (Hne : upper "Guimarães" <> "Guimarães") by discriminate.
  split; [ exact Hk | split; [ exact Hs | split; [ exact Hne | ] ] ].
  destruct (@plotData_name_as_given utc symbolic app_guimaraes "Guimarães" 2 2 _
              Hk Hs Hne) as (_ & _ & Hkey).
  apply (Hkey [63745056000; 63745228800; 63745833600]); [ reflexivity | ].
  intros _. exists [63748425600; 63751017600]. reflexivity.
Defined.

(** C10 as stated fails where the call does not get as far as the second
    reading: with the key ['BRAGA'] in the store and the name ['braga'],
    a series without dates makes the call fail with [IndexError], and a
    series that ends on 9999-12-31 with [ValueError]; neither is a
    missing key. *)
Lemma name_as_given_fails_before_the_key :
  upper "BRAGA" = "BRAGA" /\ upper "braga" = "BRAGA" /\ "braga" <> "BRAGA"
  /\ lookup (data app_empty_series) "BRAGA" = Some []
  /\ @plotData utc symbolic app_empty_series "braga" 2 2 = Raise IndexError
  /\ lookup (data app_last_day) "BRAGA" = Some (series_of ["9999-12-31"])
  /\ @plotData utc symbolic app_last_day "braga" 2 1 = Raise ValueError.
Proof. repeat split. discriminate. Qed.

(** ** The pivot table *)

Section SortedUniqueFacts.
Context {A : Type} (cmp : A -> A -> comparison).
Hypothesis cmp_eq : forall a b, cmp a b = Eq -> a = b.

Lemma insert_unique_In (a x : A) (l : list A) :
  In x (insert_unique cmp a l) <-> x = a \/ In x l.
Proof.
  induction l as [|b tl IH]; simpl.
  - intuition.
  - destruct (cmp a b) eqn:E; simpl.
    + apply cmp_eq in E. subst b. intuition.
    + intuition.
    + rewrite IH. intuition.
Qed.

Lemma sorted_unique_In (x : A) (l : list A) :
  In x (sorted_unique cmp l) <-> In x l.
Proof.
  unfold sorted_unique. induction l as [|a tl IH]; simpl.
  - reflexivity.
  - rewrite insert_unique_In, IH. intuition.
Qed.
End SortedUniqueFacts.

Lemma string_compare_eq (a b : string) : String.compare a b = Eq -> a = b.
Proof. apply String.compare_eq_iff. Qed.

Lemma Z_compare_eq (a b : Z) : Z.compare a b = Eq -> a = b.
Proof. apply Z.compare_eq. Qed.

(** Every cell of the table is the mean of its group. *)
Lemma pivot_table_cell (rows : list row) (c : string)
      (col : list (datetime * cell)) (d : datetime) (v : cell) :
  In (c, col) (pivot_table rows) -> In (d, v) col ->
  v = np_mean (group rows d c).
Proof.
  unfold pivot_table. intros Hc Hd.
  apply in_map_iff in Hc as (c' & Hc & _).
  injection Hc as -> <-.
  apply in_map_iff in Hd as (d' & Hd & _).
  injection Hd as -> <-. reflexivity.
Qed.

(** Every row is accounted for in the cell of its county and date. *)
Lemma pivot_table_row (rows : list row) (d : datetime) (c : string) (v : Z) :
  In (d, c, v) rows ->
  In v (group rows d c)
  /\ exists col, In (c, col) (pivot_table rows)
                 /\ In (d, np_mean (group rows d c)) col.
Proof.
  intros Hin. split.
  - unfold group. apply in_map_iff. exists (d, c, v). split; [ reflexivity | ].
    apply filter_In. split; [ exact Hin | ].
    rewrite Z.eqb_refl, String.eqb_refl. reflexivity.
  - unfold pivot_table. eexists. split.
    + apply in_map_iff. exists c. split; [ reflexivity | ].
      apply (sorted_unique_In _ string_compare_eq).
      apply in_map_iff. exists (d, c, v). split; [ reflexivity | exact Hin ].
    + apply in_map_iff. exists d. split; [ reflexivity | ].
      apply (sorted_unique_In _ Z_compare_eq).
      apply in_map_iff. exists (d, c, v). split; [ reflexivity | exact Hin ].
Qed.

(** When the answer has entries and every text in it is a date, [build]
    returns the table of the selected rows. *)
Lemma build_Ok (self : App) (r : response) (district : string)
      (s0 e0 lo hi : datetime) (df : list (datetime * record)) :
  status_code r = 200 ->
  strptime_dmY (start_date self) = Ok s0 ->
  strptime_dmY (end_date self) = Ok e0 ->
  parse_data (json r) = Ok df ->
  to_timestamp (start_date self) = Ok lo ->
  to_timestamp (end_date self) = Ok hi ->
  build self r district = Ok (to_dict (pivot_table (select_rows district lo hi df))).
Proof.
  intros Hst Hs He Hdf Hlo Hhi. unfold build.
  rewrite Hst, Hs, He, Hdf, Hlo, Hhi. reflexivity.
Qed.

(** C7 as the code has it.  Entries of the same county and date are not
    refused: [getInfo] raises nothing on their account, and the cell it
    stores for a county and a date is the mean of the daily cases of all
    the selected entries of that county and date. *)
Theorem getInfo_averages_duplicates
        (self : App) (r : response) (save_json : bool) (district : string)
        (s0 e0 lo hi : datetime) (df : list (datetime * record)) :
  status_code r = 200 ->
  strptime_dmY (start_date self) = Ok s0 ->
  strptime_dmY (end_date self) = Ok e0 ->
  parse_data (json r) = Ok df ->
  to_timestamp (start_date self) = Ok lo ->
  to_timestamp (end_date self) = Ok hi ->
  let rows := select_rows district lo hi df in
  snd (getInfo self r save_json district) = None
  /\ data (fst (getInfo self r save_json district)) = to_dict (pivot_table rows)
  /\ (forall d c v, In (d, c, v) rows ->
        In v (group rows d c)
        /\ exists col, In (c, col) (pivot_table rows)
                       /\ In (d, np_mean (group rows d c)) col)
  /\ (forall c col d v, In (c, col) (pivot_table rows) -> In (d, v) col ->
        v = np_mean (group rows d c)).
Proof.
  intros Hst Hs He Hdf Hlo Hhi rows.
  assert (Hb : build {| start_date := start_date self; end_date := end_date self;
                        district := district; data := data self |} r district
               = Ok (to_dict (pivot_table rows)))
    by (apply (build_Ok _ _ _ s0 e0 lo hi df); assumption).
  unfold getInfo. rewrite Hb. simpl.
  split; [ reflexivity | split; [ reflexivity | split ] ].
  - intros d c v. apply pivot_table_row.
  - intros c col d v. apply pivot_table_cell.
Qed.

Lemma getInfo_averages_duplicates_january :
  snd (getInfo (app_of []) answer_january true "Braga") = None
  /\ data (fst (getInfo (app_of []) answer_january true "Braga"))
     = [("AMARES", [("2021-01-04", Some 1%Q); ("2021-01-05", None)]);
        ("BRAGA", [("2021-01-04", None); ("2021-01-05", Some (7 # 2))])]
  /\ np_mean [3; 4] = Some (7 # 2).
Proof.
  destruct (getInfo_averages_duplicates (app_of []) answer_january true "Braga"
              63745056000 63776505600 63745056000 63776505600
              [(63745401600, nth 0 (json answer_january) (Build_record "" "" "" 0));
               (63745401600, nth 1 (json answer_january) (Build_record "" "" "" 0));
               (63745315200, nth 2 (json answer_january) (Build_record "" "" "" 0));
               (63745315200, nth 3 (json answer_january) (Build_record "" "" "" 0))]
              eq_refl eq_refl eq_refl eq_refl eq_refl eq_refl)
    as (Hnone & Hdata & _ & _).
  split; [ exact Hnone | split; [ | reflexivity ] ].
  rewrite Hdata. reflexivity.
Defined.

(** C7 as stated fails: the answer holds two entries for Braga on
    2021-01-05, with 3 and 4 cases; [getInfo] raises nothing and stores
    their mean 7/2 for that day. *)
Lemma duplicates_are_averaged :
  getInfo (app_of []) answer_january true "Braga"
  = (app_after "Braga"
       [("AMARES", [("2021-01-04", Some 1%Q); ("2021-01-05", None)]);
        ("BRAGA", [("2021-01-04", None); ("2021-01-05", Some (7 # 2))])],
     None).
Proof. reflexivity. Qed.

(** ** No matching entry *)

(** C8 as the code has it.  When the answer has entries but none of them
    is of the requested district within the range, [getInfo] raises
    nothing and stores the empty mapping.  When the answer has no entry
    at all, the frame has no column and [getInfo] raises [KeyError] on
    ['data']. *)
Theorem getInfo_no_match
        (self : App) (r : response) (save_json : bool) (district : string)
        (s0 e0 lo hi : datetime) :
  status_code r = 200 ->
  strptime_dmY (start_date self) = Ok s0 ->
  strptime_dmY (end_date self) = Ok e0 ->
  to_timestamp (start_date self) = Ok lo ->
  to_timestamp (end_date self) = Ok hi ->
  (forall df,
     parse_data (json r) = Ok df ->
     select_rows district lo hi df = [] ->
     snd (getInfo self r save_json district) = None
     /\ data (fst (getInfo self r save_json district)) = [])
  /\ (json r = [] ->
      snd (getInfo self r save_json district) = Some (KeyError "data")
      /\ data (fst (getInfo self r save_json district)) = data self).
Proof.
  intros Hst Hs He Hlo Hhi. split.
  - intros df Hdf Hsel.
    assert (Hb : build {| start_date := start_date self; end_date := end_date self;
                          district := district; data := data self |} r district
                 = Ok (to_dict (pivot_table (select_rows district lo hi df))))
      by (apply (build_Ok _ _ _ s0 e0 lo hi df); assumption).
    unfold getInfo. rewrite Hb, Hsel. split; reflexivity.
  - intros Hjson. unfold getInfo, build. simpl start_date. simpl end_date.
    rewrite Hst, Hs, He, Hjson. split; reflexivity.
Qed.

Lemma getInfo_no_match_january :
  snd (getInfo (app_of []) answer_january true "Faro") = None
  /\ data (fst (getInfo (app_of []) answer_january true "Faro")) = [].
Proof.
  destruct (getInfo_no_match (app_of []) answer_january true "Faro"
              63745056000 63776505600 63745056000 63776505600
              eq_refl eq_refl eq_refl eq_refl eq_refl) as [Hnone _].
  apply (Hnone
           [(63745401600, nth 0 (json answer_january) (Build_record "" "" "" 0));
            (63745401600, nth 1 (json answer_january) (Build_record "" "" "" 0));
            (63745315200, nth 2 (json answer_january) (Build_record "" "" "" 0));
            (63745315200, nth 3 (json answer_january) (Build_record "" "" "" 0))]);
    reflexivity.
Defined.

(** C8 as stated fails: no entry of the answer is of the district of
    Faro, and [getInfo] returns with an empty store; on an answer without
    entries the exception is [KeyError]. *)
Lemma no_match_stores_nothing :
  getInfo (app_of []) answer_january true "Faro" = (app_after "Faro" [], None)
  /\ getInfo (app_of []) {| status_code := 200; json := [] |} true "Braga"
     = (app_after "Braga" [], Some (KeyError "data")).
Proof. split; reflexivity. Qed.

(** * Further properties *)

(** ** The calendar: [ord2ymd] undoes [ymd2ord] *)

Lemma divmod_at (x d q r : Z) :
  0 <= r < d -> x = d * q + r -> x / d = q /\ x mod d = r.
Proof.
  intros Hr Hx. split.
  - symmetry. apply (Z.div_unique x d q r); [ left; exact Hr | exact Hx ].
  - symmetry. apply (Z.mod_unique x d q r); [ left; exact Hr | exact Hx ].
Qed.

(** Every year is [400 a + 100 b + 4 c + e + 1] for digits [b], [c], [e]. *)
Lemma year_digits (y : Z) :
  1 <= y ->
  exists a b c e,
    y = 400 * a + 100 * b + 4 * c + e + 1
    /\ 0 <= a /\ 0 <= b < 4 /\ 0 <= c < 25 /\ 0 <= e < 4.
Proof.
  intros Hy.
  exists ((y - 1) / 400), ((y - 1) mod 400 / 100),
         ((y - 1) mod 400 mod 100 / 4), ((y - 1) mod 400 mod 100 mod 4).
  pose proof (Z.div_mod (y - 1) 400 ltac:(lia)) as H1.
  pose proof (Z.mod_pos_bound (y - 1) 400 ltac:(lia)) as B1.
  set (r1 := (y - 1) mod 400) in *.
  pose proof (Z.div_mod r1 100 ltac:(lia)) as H2.
  pose proof (Z.mod_pos_bound r1 100 ltac:(lia)) as B2.
  set (r2 := r1 mod 100) in *.
  pose proof (Z.div_mod r2 4 ltac:(lia)) as H3.
  pose proof (Z.mod_pos_bound r2 4 ltac:(lia)) as B3.
  pose proof (Z.div_pos (y - 1) 400 ltac:(lia) ltac:(lia)) as P1.
  pose proof (Z.div_pos r1 100 ltac:(lia) ltac:(lia)) as P2.
  pose proof (Z.div_pos r2 4 ltac:(lia) ltac:(lia)) as P3.
  pose proof (Z.div_lt_upper_bound r1 100 4 ltac:(lia) ltac:(lia)) as U2.
  pose proof (Z.div_lt_upper_bound r2 4 25 ltac:(lia) ltac:(lia)) as U3.
  repeat split; lia.
Qed.

Lemma is_leap_digits (a b c e : Z) :
  0 <= a -> 0 <= b < 4 -> 0 <= c < 25 -> 0 <= e < 4 ->
  is_leap (400 * a + 100 * b + 4 * c + e + 1)
  = (e =? 3) && (negb (c =? 24) || (b =? 3)).
Proof.
  intros Ha Hb Hc He. unfold is_leap.
  set (y := 400 * a + 100 * b + 4 * c + e + 1).
  assert (M4 : y mod 4 = (e + 1) mod 4).
  { unfold y. replace (400 * a + 100 * b + 4 * c + e + 1)
      with ((e + 1) + (100 * a + 25 * b + c) * 4) by ring.
    apply Z.mod_add. lia. }
  assert (M100 : y mod 100 = (4 * c + e + 1) mod 100).
  { unfold y. replace (400 * a + 100 * b + 4 * c + e + 1)
      with ((4 * c + e + 1) + (4 * a + b) * 100) by ring.
    apply Z.mod_add. lia. }
  assert (M400 : y mod 400 = (100 * b + 4 * c + e + 1) mod 400).
  { unfold y. replace (400 * a + 100 * b + 4 * c + e + 1)
      with ((100 * b + 4 * c + e + 1) + a * 400) by ring.
    apply Z.mod_add. lia. }
  assert (B4 : (y mod 4 =? 0) = (e =? 3)).
  { rewrite M4. destruct (Z.eqb_spec e 3) as [->|He3].
    - rewrite (proj2 (divmod_at (3 + 1) 4 1 0 ltac:(lia) ltac:(lia))). reflexivity.
    - rewrite (proj2 (divmod_at (e + 1) 4 0 (e + 1) ltac:(lia) ltac:(lia))).
      apply Z.eqb_neq. lia. }
  assert (B100 : (y mod 100 =? 0) = (e =? 3) && (c =? 24)).
  { rewrite M100.
    destruct (Z.eqb_spec e 3) as [->|He3]; destruct (Z.eqb_spec c 24) as [->|Hc24];
      cbv [andb].
    - rewrite (proj2 (divmod_at (4 * 24 + 3 + 1) 100 1 0 ltac:(lia) ltac:(lia))).
      reflexivity.
    - rewrite (proj2 (divmod_at (4 * c + 3 + 1) 100 0 (4 * c + 4) ltac:(lia) ltac:(lia))).
      apply Z.eqb_neq. lia.
    - rewrite (proj2 (divmod_at (4 * 24 + e + 1) 100 0 (e + 97) ltac:(lia) ltac:(lia))).
      apply Z.eqb_neq. lia.
    - rewrite (proj2 (divmod_at (4 * c + e + 1) 100 0 (4 * c + e + 1)
                        ltac:(lia) ltac:(lia))).
      apply Z.eqb_neq. lia. }
  assert (B400 : (y mod 400 =? 0) = (e =? 3) && (c =? 24) && (b =? 3)).
  { rewrite M400.
    destruct (Z.eqb_spec (100 * b + 4 * c + e + 1) 400) as [E|E].
    - rewrite E, Z.mod_same by lia.
      replace e with 3 by lia. replace c with 24 by lia. replace b with 3 by lia.
      reflexivity.
    - rewrite (proj2 (divmod_at (100 * b + 4 * c + e + 1) 400 0 (100 * b + 4 * c + e + 1)
                        ltac:(lia) ltac:(lia))).
      destruct (Z.eqb_spec e 3); destruct (Z.eqb_spec c 24); destruct (Z.eqb_spec b 3);
        cbv [andb]; apply Z.eqb_neq || (exfalso; lia); lia. }
  rewrite B4, B100, B400.
  destruct (e =? 3), (c =? 24), (b =? 3); reflexivity.
Qed.

Lemma days_before_year_digits (a b c e : Z) :
  0 <= a -> 0 <= b < 4 -> 0 <= c < 25 -> 0 <= e < 4 ->
  days_before_year (400 * a + 100 * b + 4 * c + e + 1)
  = 146097 * a + 36524 * b + 1461 * c + 365 * e.
Proof.
  intros Ha Hb Hc He. unfold days_before_year. cbv zeta.
  replace (400 * a + 100 * b + 4 * c + e + 1 - 1)
    with (400 * a + 100 * b + 4 * c + e) by ring.
  rewrite (proj1 (divmod_at (400 * a + 100 * b + 4 * c + e) 4 (100 * a + 25 * b + c) e
                    ltac:(lia) ltac:(lia))).
  rewrite (proj1 (divmod_at (400 * a + 100 * b + 4 * c + e) 100 (4 * a + b) (4 * c + e)
                    ltac:(lia) ltac:(lia))).
  rewrite (proj1 (divmod_at (400 * a + 100 * b + 4 * c + e) 400 a (100 * b + 4 * c + e)
                    ltac:(lia) ltac:(lia))).
  ring.
Qed.

Lemma upto_In (n : nat) (x : Z) : 1 <= x <= Z.of_nat n -> In x (upto n).
Proof.
  intros Hx. unfold upto. apply in_map_iff. exists (Z.to_nat x).
  split; [ lia | apply in_seq; lia ].
Qed.

Lemma months_checked :
  forallb (fun L =>
    forallb (fun m =>
      forallb (fun d => implb (d <=? month_length L m) (month_checked L m d)) (upto 31))
    (upto 12)) [true; false] = true.
Proof. vm_compute. reflexivity. Qed.

Lemma month_length_31 (L : bool) (m : Z) : 1 <= m <= 12 -> month_length L m <= 31.
Proof.
  intros Hm. pose proof (upto_In 12 m ltac:(simpl; lia)) as Hin.
  simpl in Hin. unfold month_length.
  destruct L; repeat (destruct Hin as [<-|Hin]); try contradiction; simpl; lia.
Qed.

Lemma month_of_day (L : bool) (m d : Z) :
  1 <= m <= 12 -> 1 <= d <= month_length L m ->
  0 <= day_of_year L m d < 365 + (if L then 1 else 0)
  /\ (day_of_year L m d = 365 -> m = 12 /\ d = 31)
  /\ month_and_day L (day_of_year L m d) = (m, d).
Proof.
  intros Hm Hd.
  pose proof (month_length_31 L m Hm) as H31.
  pose proof months_checked as H.
  rewrite forallb_forall in H.
  assert (HL : In L [true; false]) by (destruct L; simpl; auto).
  specialize (H L HL). rewrite forallb_forall in H.
  specialize (H m (upto_In 12 m ltac:(simpl; lia))). rewrite forallb_forall in H.
  specialize (H d (upto_In 31 d ltac:(simpl; lia))).
  destruct (Z.leb_spec d (month_length L m)) as [_|Hgt]; [ | lia ].
  simpl implb in H. unfold month_checked in H.
  destruct (month_and_day L (day_of_year L m d)) as [m' d'].
  rewrite !andb_true_iff in H. destruct H as (((H1 & H2) & H3) & (H4 & H5)).
  apply Z.leb_le in H1. apply Z.ltb_lt in H2.
  apply Z.eqb_eq in H4, H5. subst m' d'.
  split; [ lia | split; [ | reflexivity ] ].
  intros E. rewrite E in H3. simpl in H3.
  apply andb_true_iff in H3 as [E1 E2].
  apply Z.eqb_eq in E1, E2. auto.
Qed.

Lemma ord2ymd_cascade (ordinal : Z) :
  ord2ymd ordinal
  = let n := ordinal - 1 in
    let n400 := n / 146097 in
    let n := n mod 146097 in
    let n100 := n / 36524 in
    let n := n mod 36524 in
    let n4 := n / 1461 in
    let n := n mod 1461 in
    let n1 := n / 365 in
    let n := n mod 365 in
    let year := n400 * 400 + 1 + n100 * 100 + n4 * 4 + n1 in
    if (n1 =? 4) || (n100 =? 4) then (year - 1, 12, 31)
    else
      let '(m, d) :=
        month_and_day ((n1 =? 3) && (negb (n4 =? 24) || (n100 =? 3))) n in
      (year, m, d).
Proof.
  unfold ord2ymd, month_and_day. cbv zeta.
  destruct ((_ =? 4) || (_ =? 4)); [ reflexivity | ].
  destruct (_ <? _); reflexivity.
Qed.

Lemma days_in_month_length (y m : Z) : days_in_month y m = month_length (is_leap y) m.
Proof. reflexivity. Qed.

Lemma ymd2ord_day_of_year (y m d : Z) :
  ymd2ord y m d = days_before_year y + day_of_year (is_leap y) m d + 1.
Proof. unfold ymd2ord, days_before_month, day_of_year. ring. Qed.

(** [ord2ymd] undoes [ymd2ord] on every day of the calendar. *)
Lemma ord2ymd_ymd2ord (y m d : Z) :
  1 <= y -> 1 <= m <= 12 -> 1 <= d <= days_in_month y m ->
  ord2ymd (ymd2ord y m d) = (y, m, d).
Proof.
  intros Hy Hm Hd. rewrite days_in_month_length in Hd.
  destruct (year_digits y Hy) as (a & b & c & e & -> & Ha & Hb & Hc & He).
  rewrite ymd2ord_day_of_year, days_before_year_digits by assumption.
  destruct (month_of_day _ m d Hm Hd) as (Hk & H365 & Hmd).
  rewrite is_leap_digits in * by assumption.
  set (L := (e =? 3) && (negb (c =? 24) || (b =? 3))) in *.
  set (k := day_of_year L m d) in *.
  rewrite ord2ymd_cascade.
  replace (146097 * a + 36524 * b + 1461 * c + 365 * e + k + 1 - 1)
    with (146097 * a + (36524 * b + 1461 * c + 365 * e + k)) by ring.
  cbv zeta.
  assert (HL : L = true -> e = 3 /\ (c <> 24 \/ b = 3)).
  { unfold L. intros HL. apply andb_true_iff in HL as [E1 E2].
    apply Z.eqb_eq in E1. split; [ exact E1 | ].
    apply orb_true_iff in E2 as [E2|E2].
    - left. apply negb_true_iff, Z.eqb_neq in E2. exact E2.
    - right. apply Z.eqb_eq in E2. exact E2. }
  assert (Hk365 : k = 365 -> L = true) by (destruct L; [ auto | lia ]).
  assert (Hk' : 0 <= k <= 365) by (destruct L; lia).
  destruct (divmod_at (146097 * a + (36524 * b + 1461 * c + 365 * e + k)) 146097 a
              (36524 * b + 1461 * c + 365 * e + k)) as [-> ->];
    [ destruct L; [ destruct (HL eq_refl) | ]; lia | ring | ].
  destruct (Z.eq_dec k 365) as [E365|N365].
  - (* the last day of a leap year *)
    destruct (H365 E365) as [-> ->].
    destruct (HL (Hk365 E365)) as [-> Hcb]. rewrite E365.
    destruct (Z.eq_dec c 24) as [->|Hc24].
    + assert (b = 3) by lia. subst b.
      destruct (divmod_at (36524 * 3 + 1461 * 24 + 365 * 3 + 365) 36524 4 0)
        as [-> ->]; [ lia | ring | ].
      change (0 mod 1461) with 0. change (0 / 1461) with 0. change (0 / 365) with 0.
      change (4 =? 4) with true. rewrite orb_true_r.
      f_equal. f_equal. ring.
    + destruct (divmod_at (36524 * b + 1461 * c + 365 * 3 + 365) 36524 b
                  (1461 * c + 365 * 3 + 365)) as [-> ->]; [ lia | ring | ].
      destruct (divmod_at (1461 * c + 365 * 3 + 365) 1461 c (365 * 3 + 365))
        as [-> ->]; [ lia | ring | ].
      change ((365 * 3 + 365) / 365) with 4. change (4 =? 4) with true.
      cbv [orb]. f_equal. f_equal. ring.
  - destruct (divmod_at (36524 * b + 1461 * c + 365 * e + k) 36524 b
                (1461 * c + 365 * e + k)) as [-> ->]; [ lia | ring | ].
    destruct (divmod_at (1461 * c + 365 * e + k) 1461 c (365 * e + k))
      as [-> ->]; [ lia | ring | ].
    destruct (divmod_at (365 * e + k) 365 e k) as [-> ->]; [ lia | ring | ].
    destruct (Z.eqb_spec e 4) as [?|_]; [ lia | ].
    destruct (Z.eqb_spec b 4) as [?|_]; [ lia | ].
    change (false || false) with false. cbv iota.
    fold L. rewrite Hmd. f_equal. f_equal. ring.
Qed.

(** ** Dates as text *)

Lemma digit_digit_char (n : Z) : digit (digit_char n) = Some (n mod 10).
Proof.
  unfold digit_char.
  pose proof (Z.mod_pos_bound n 10 ltac:(lia)) as Hb.
  assert (Hc : In (n mod 10) (map Z.of_nat (seq 0 10))).
  { apply in_map_iff. exists (Z.to_nat (n mod 10)). split; [ lia | apply in_seq; lia ]. }
  simpl in Hc.
  repeat (destruct Hc as [<-|Hc]; [ reflexivity | ]). contradiction.
Qed.

Lemma digit_in_digit_char (n : Z) (rest : chars) :
  digit_in 0 9 (digit_char n :: rest) = [(n mod 10, rest)].
Proof.
  unfold digit_in. rewrite digit_digit_char.
  pose proof (Z.mod_pos_bound n 10 ltac:(lia)) as Hb.
  destruct (Z.leb_spec 0 (n mod 10)); [ | lia ].
  destruct (Z.leb_spec (n mod 10) 9); [ | lia ].
  reflexivity.
Qed.

Lemma re_Y_digits (y : Z) (rest : chars) :
  0 <= y <= 9999 ->
  re_Y (digit_char (y / 1000) :: digit_char (y / 100) :: digit_char (y / 10)
        :: digit_char y :: rest)
  = [(y, rest)].
Proof.
  intros Hy. unfold re_Y, seq2.
  rewrite digit_in_digit_char. cbn [flat_map map app].
  rewrite digit_in_digit_char. cbn [flat_map map app].
  rewrite digit_in_digit_char. cbn [flat_map map app].
  rewrite digit_in_digit_char. cbn [flat_map map app].
  f_equal. f_equal.
  pose proof (Z.div_mod y 10 ltac:(lia)).
  pose proof (Z.mod_pos_bound y 10 ltac:(lia)).
  pose proof (Z.div_mod (y / 10) 10 ltac:(lia)).
  pose proof (Z.mod_pos_bound (y / 10) 10 ltac:(lia)).
  pose proof (Z.div_mod (y / 100) 10 ltac:(lia)).
  pose proof (Z.mod_pos_bound (y / 100) 10 ltac:(lia)).
  pose proof (Z.div_mod (y / 1000) 10 ltac:(lia)).
  pose proof (Z.mod_pos_bound (y / 1000) 10 ltac:(lia)).
  assert (y / 100 = y / 10 / 10) by (rewrite Z.div_div by lia; reflexivity).
  assert (y / 1000 = y / 100 / 10) by (rewrite Z.div_div by lia; reflexivity).
  assert (y / 1000 / 10 = 0) by (rewrite Z.div_div by lia; apply Z.div_small; lia).
  lia.
Qed.

Lemma isoformat_parsed (y m d : Z) :
  0 <= y <= 9999 -> 1 <= m <= 12 -> 1 <= d <= 31 ->
  match3 re_Y re_m re_d
    [digit_char (y / 1000); digit_char (y / 100); digit_char (y / 10); digit_char y;
     "-"%char; digit_char (m / 10); digit_char m;
     "-"%char; digit_char (d / 10); digit_char d]
  = Some (y, m, d, []).
Proof.
  intros Hy Hm Hd.
  pose proof (upto_In 12 m ltac:(simpl; lia)) as Hmi.
  pose proof (upto_In 31 d ltac:(simpl; lia)) as Hdi.
  unfold match3. rewrite re_Y_digits by exact Hy.
  generalize y. clear y Hy. intros y.
  simpl in Hmi, Hdi.
  repeat (destruct Hmi as [<-|Hmi]; [ | ]); try contradiction;
    repeat (destruct Hdi as [<-|Hdi]; [ vm_compute; reflexivity | ]); contradiction.
Qed.

(** ** Date keys written and read back *)

Lemma datetime_ymd_Ok (y m dd : Z) (d : datetime) :
  datetime_ymd y m dd = Ok d ->
  1 <= y <= 9999 /\ 1 <= m <= 12 /\ 1 <= dd <= days_in_month y m
  /\ d = (ymd2ord y m dd - 1) * SECONDS_PER_DAY.
Proof.
  unfold datetime_ymd.
  destruct (Z.leb_spec 1 y) as [H1|_]; [ | discriminate ].
  destruct (Z.leb_spec y 9999) as [H2|_]; [ | discriminate ].
  destruct (Z.leb_spec 1 m) as [H3|_]; [ | discriminate ].
  destruct (Z.leb_spec m 12) as [H4|_]; [ | discriminate ].
  destruct (Z.leb_spec 1 dd) as [H5|_]; [ | discriminate ].
  destruct (Z.leb_spec dd (days_in_month y m)) as [H6|_]; [ | discriminate ].
  cbn [andb]. intros E. injection E as <-. repeat split; assumption.
Qed.

Lemma calendar_day_fields (y m dd : Z) (d : datetime) :
  datetime_ymd y m dd = Ok d ->
  ord2ymd (d / SECONDS_PER_DAY + 1) = (y, m, dd) /\ midnight d.
Proof.
  intros H. apply datetime_ymd_Ok in H as (Hy & Hm & Hd & ->).
  unfold midnight. rewrite Z.div_mul, Z.mod_mul by discriminate.
  split; [ | reflexivity ].
  replace (ymd2ord y m dd - 1 + 1) with (ymd2ord y m dd) by ring.
  apply ord2ymd_ymd2ord; lia.
Qed.

Lemma strptime_Ymd_calendar_day (s : string) (d : datetime) :
  strptime_Ymd s = Ok d -> calendar_day d.
Proof.
  unfold strptime_Ymd.
  destruct (match3 re_Y re_m re_d (list_ascii_of_string s)) as [[[[y m] dd] [|c rest]]|];
    try discriminate.
  intros H. exists y, m, dd. exact H.
Qed.

Lemma strptime_dmY_calendar_day (s : string) (d : datetime) :
  strptime_dmY s = Ok d -> calendar_day d.
Proof.
  unfold strptime_dmY.
  destruct (match3 re_d re_m re_Y (list_ascii_of_string s)) as [[[[dd m] y] [|c rest]]|];
    try discriminate.
  intros H. exists y, m, dd. exact H.
Qed.

(** X1.  The text pandas writes for a day of the calendar, ['YYYY-MM-DD'],
    is read back by [strptime] with ['%Y-%m-%d'] as that same day. *)
Theorem strptime_isoformat (d : datetime) :
  calendar_day d -> strptime_Ymd (isoformat d) = Ok d.
Proof.
  intros (y & m & dd & H).
  destruct (calendar_day_fields _ _ _ _ H) as [Hf _].
  pose proof (datetime_ymd_Ok _ _ _ _ H) as (Hy & Hm & Hd & _).
  rewrite days_in_month_length in Hd.
  pose proof (month_length_31 (is_leap y) m Hm) as H31.
  unfold isoformat, strptime_Ymd. rewrite Hf.
  rewrite list_ascii_of_string_of_list_ascii.
  rewrite isoformat_parsed by lia. exact H.
Qed.

Lemma strptime_isoformat_leap_day :
  calendar_day 63718531200
  /\ isoformat 63718531200 = "2020-02-29"
  /\ strptime_Ymd (isoformat 63718531200) = Ok 63718531200.
Proof.
  assert (H : calendar_day 63718531200) by (exists 2020, 2, 29; reflexivity).
  split; [ exact H | split; [ reflexivity | ] ].
  apply (strptime_isoformat _ H).
Defined.

(** ** The shape of the store *)

Section SortedUniqueSorted.
Context {A : Type} (cmp : A -> A -> comparison).
Hypothesis cmp_trans : forall a b c, cmp a b = Lt -> cmp b c = Lt -> cmp a c = Lt.
Hypothesis cmp_gt : forall a b, cmp a b = Gt -> cmp b a = Lt.
Hypothesis cmp_eq : forall a b, cmp a b = Eq -> a = b.

Lemma insert_unique_sorted (a : A) (l : list A) :
  StronglySorted (fun x y => cmp x y = Lt) l ->
  StronglySorted (fun x y => cmp x y = Lt) (insert_unique cmp a l).
Proof.
  induction 1 as [|b tl Hs IH Hb]; simpl.
  - constructor; constructor.
  - destruct (cmp a b) eqn:E.
    + constructor; assumption.
    + constructor; [ constructor; assumption | ].
      constructor; [ exact E | ].
      apply Forall_forall. intros x Hx.
      rewrite Forall_forall in Hb. apply (cmp_trans a b x E (Hb x Hx)).
    + constructor; [ exact IH | ].
      apply Forall_forall. intros x Hx.
      apply (insert_unique_In cmp cmp_eq) in Hx as [->|Hx].
      * apply cmp_gt, E.
      * rewrite Forall_forall in Hb. apply Hb, Hx.
Qed.

Lemma sorted_unique_sorted (l : list A) :
  StronglySorted (fun x y => cmp x y = Lt) (sorted_unique cmp l).
Proof.
  unfold sorted_unique. induction l as [|a tl IH]; simpl.
  - constructor.
  - apply insert_unique_sorted, IH.
Qed.
End SortedUniqueSorted.

Lemma ascii_compare_trans (a b c : ascii) :
  Ascii.compare a b = Lt -> Ascii.compare b c = Lt -> Ascii.compare a c = Lt.
Proof.
  unfold Ascii.compare. rewrite !N.compare_lt_iff. apply N.lt_trans.
Qed.

Lemma string_lt_trans (a b c : string) :
  string_lt a b -> string_lt b c -> string_lt a c.
Proof.
  unfold string_lt. revert b c.
  induction a as [|x a IH]; intros [|y b] [|z c]; simpl; try discriminate; auto.
  destruct (Ascii.compare x y) eqn:Exy; try discriminate.
  - apply Ascii.compare_eq_iff in Exy. subst y.
    destruct (Ascii.compare x z) eqn:Exz; auto. apply IH.
  - intros _. destruct (Ascii.compare y z) eqn:Eyz; try discriminate.
    + apply Ascii.compare_eq_iff in Eyz. subst z. rewrite Exy. reflexivity.
    + intros _. rewrite (ascii_compare_trans _ _ _ Exy Eyz). reflexivity.
Qed.

Lemma string_compare_gt (a b : string) :
  String.compare a b = Gt -> String.compare b a = Lt.
Proof. intros H. rewrite String.compare_antisym, H. reflexivity. Qed.

Lemma Z_compare_gt (a b : Z) : Z.compare a b = Gt -> Z.compare b a = Lt.
Proof. intros H. rewrite Z.compare_antisym, H. reflexivity. Qed.

Lemma Z_compare_trans (a b c : Z) :
  Z.compare a b = Lt -> Z.compare b c = Lt -> Z.compare a c = Lt.
Proof. rewrite !Z.compare_lt_iff. apply Z.lt_trans. Qed.

Lemma lookup_In {V : Type} (d : dict V) (k : string) (v : V) :
  lookup d k = Some v -> In (k, v) d.
Proof.
  induction d as [|[k' v'] tl IH]; simpl; [ discriminate | ].
  destruct (String.eqb_spec k' k) as [->|_].
  - intros H; injection H as <-. left. reflexivity.
  - intros H. right. apply IH, H.
Qed.

Lemma mapM_In {A B : Type} (f : A -> result B) (l : list A) (l' : list B) (b : B) :
  mapM f l = Ok l' -> In b l' -> exists a, In a l /\ f a = Ok b.
Proof.
  revert l'; induction l as [|a tl IH]; simpl; intros l' H Hb.
  - injection H as <-. contradiction.
  - apply bind_Ok in H as (b0 & Hb0 & H).
    apply bind_Ok in H as (bs & Hbs & H).
    injection H as <-. destruct Hb as [<-|Hb].
    + exists a. auto.
    + destruct (IH _ Hbs Hb) as (a' & Ha' & Hfa'). exists a'. auto.
Qed.

Lemma parse_data_calendar_day (recs : list record) (df : list (datetime * record))
      (d : datetime) (rc : record) :
  parse_data recs = Ok df -> In (d, rc) df ->
  strptime_dmY (rec_data rc) = Ok d /\ In rc recs.
Proof.
  unfold parse_data. destruct recs as [|r0 tl]; [ discriminate | ].
  intros H Hin. destruct (mapM_In _ _ _ _ H Hin) as (rc' & Hrc' & Hf).
  apply bind_Ok in Hf as (d' & Hd' & Hf). injection Hf as -> ->. auto.
Qed.

Lemma select_rows_In (district : string) (lo hi : datetime)
      (df : list (datetime * record)) (d : datetime) (c : string) (v : Z) :
  In (d, c, v) (select_rows district lo hi df) <->
  exists rc, In (d, rc) df /\ rec_concelho rc = c /\ rec_confirmados_1 rc = v
             /\ rec_distrito rc = upper district /\ lo <= d <= hi.
Proof.
  unfold select_rows. rewrite in_map_iff. split.
  - intros ([d' rc] & E & Hin). injection E as -> <- <-.
    apply filter_In in Hin as [Hin Hr]. apply filter_In in Hin as [Hin Hd].
    apply andb_true_iff in Hr as [H1 H2].
    apply Z.leb_le in H1, H2. apply String.eqb_eq in Hd.
    exists rc. repeat split; auto.
  - intros (rc & Hin & <- & <- & Hd & Hlo & Hhi).
    exists (d, rc). split; [ reflexivity | ].
    apply filter_In. split.
    + apply filter_In. split; [ exact Hin | apply String.eqb_eq, Hd ].
    + apply andb_true_iff. split; apply Z.leb_le; assumption.
Qed.

Lemma build_inv (self : App) (r : response) (district : string)
      (store : dict (dict cell)) :
  build self r district = Ok store ->
  exists df lo hi,
    status_code r = 200
    /\ parse_data (json r) = Ok df
    /\ to_timestamp (start_date self) = Ok lo
    /\ to_timestamp (end_date self) = Ok hi
    /\ store = to_dict (pivot_table (select_rows district lo hi df)).
Proof.
  unfold build. destruct (Z.eqb_spec (status_code r) 200) as [Hst|_]; [ | discriminate ].
  cbn [negb]. intros H.
  apply bind_Ok in H as (s0 & _ & H).
  apply bind_Ok in H as (e0 & _ & H).
  apply bind_Ok in H as (df & Hdf & H).
  apply bind_Ok in H as (lo & Hlo & H).
  apply bind_Ok in H as (hi & Hhi & H).
  injection H as <-. exists df, lo, hi. auto.
Qed.

Lemma pivot_index_calendar (recs : list record) (df : list (datetime * record))
      (district : string) (lo hi : datetime) :
  parse_data recs = Ok df ->
  Forall (fun d => calendar_day d /\ lo <= d <= hi)
         (sorted_unique Z.compare
            (map (fun '(d, _, _) => d) (select_rows district lo hi df))).
Proof.
  intros Hdf. apply Forall_forall. intros d Hd.
  apply (proj1 (sorted_unique_In Z.compare Z_compare_eq d _)) in Hd.
  apply in_map_iff in Hd as ([[d' c] v] & <- & Hin).
  apply select_rows_In in Hin as (rc & Hin & _ & _ & _ & Hr).
  destruct (parse_data_calendar_day _ _ _ _ Hdf Hin) as [Hp _].
  split; [ apply (strptime_dmY_calendar_day _ _ Hp) | exact Hr ].
Qed.

Lemma mapM_strptime_isoformat (index : list datetime) :
  Forall calendar_day index ->
  mapM strptime_Ymd (map isoformat index) = Ok index.
Proof.
  intros H. rewrite <- (map_id index) at 2.
  apply mapM_map_Ok. intros d Hd.
  rewrite Forall_forall in H. apply strptime_isoformat, H, Hd.
Qed.

(** X2.  The store [getInfo] builds has one entry per county, the
    counties in strictly ascending order; every county has the same date
    keys, the texts of the same strictly ascending days of the calendar,
    all within the bounds the range was read as; and [strptime] reads the
    keys of any county back as these days. *)
Theorem getInfo_store_shape
        (self : App) (r : response) (district : string) (store : dict (dict cell)) :
  build self r district = Ok store ->
  exists (index : list datetime) (lo hi : datetime),
    to_timestamp (start_date self) = Ok lo
    /\ to_timestamp (end_date self) = Ok hi
    /\ StronglySorted Z.lt index
    /\ Forall (fun d => calendar_day d /\ lo <= d <= hi) index
    /\ StronglySorted string_lt (keys store)
    /\ forall c series,
         lookup store c = Some series ->
         index <> []
         /\ keys series = map isoformat index
         /\ mapM strptime_Ymd (keys series) = Ok index.
Proof.
  intros H. apply build_inv in H as (df & lo & hi & _ & Hdf & Hlo & Hhi & ->).
  set (rows := select_rows district lo hi df).
  exists (sorted_unique Z.compare (map (fun '(d, _, _) => d) rows)), lo, hi.
  pose proof (pivot_index_calendar _ _ district lo hi Hdf) as Hcal. fold rows in Hcal.
  split; [ exact Hlo | split; [ exact Hhi | ] ].
  split.
  { apply (sorted_unique_sorted Z.compare Z_compare_trans Z_compare_gt Z_compare_eq). }
  split; [ exact Hcal | ].
  split.
  { unfold keys, to_dict, pivot_table. rewrite !map_map.
    erewrite map_ext; [ rewrite map_id | intros c; reflexivity ].
    apply (sorted_unique_sorted String.compare string_lt_trans string_compare_gt
             string_compare_eq). }
  intros c series Hl. apply lookup_In in Hl.
  unfold to_dict, pivot_table in Hl. rewrite map_map in Hl.
  apply in_map_iff in Hl as (c' & E & Hc'). injection E as _ E.
  assert (Hne : sorted_unique Z.compare (map (fun '(d, _, _) => d) rows) <> []).
  { apply (proj1 (sorted_unique_In String.compare string_compare_eq c' _)) in Hc'.
    apply in_map_iff in Hc' as ([[d0 c0] v0] & _ & Hrow).
    assert (Hd0 : In d0 (sorted_unique Z.compare (map (fun '(d, _, _) => d) rows))).
    { apply (sorted_unique_In Z.compare Z_compare_eq).
      apply in_map_iff. exists (d0, c0, v0). split; [ reflexivity | exact Hrow ]. }
    intros E0. rewrite E0 in Hd0. contradiction. }
  split; [ exact Hne | ].
  assert (Hk : keys series
               = map isoformat (sorted_unique Z.compare (map (fun '(d, _, _) => d) rows))).
  { rewrite <- E. unfold keys. rewrite !map_map. apply map_ext. intros d. reflexivity. }
  split; [ exact Hk | ].
  rewrite Hk. apply mapM_strptime_isoformat.
  eapply Forall_impl; [ | exact Hcal ]. intros d [Hd _]. exact Hd.
Qed.

Lemma getInfo_store_shape_january :
  exists index lo hi,
    to_timestamp "01-01-2021" = Ok lo
    /\ to_timestamp "31-12-2021" = Ok hi
    /\ StronglySorted Z.lt index
    /\ Forall (fun d => calendar_day d /\ lo <= d <= hi) index
    /\ StronglySorted string_lt ["AMARES"; "BRAGA"]
    /\ forall c series,
         lookup [("AMARES", [("2021-01-04", Some 1%Q); ("2021-01-05", None)]);
                 ("BRAGA", [("2021-01-04", None); ("2021-01-05", Some (7 # 2))])] c
         = Some series ->
         index <> []
         /\ keys series = map isoformat index
         /\ mapM strptime_Ymd (keys series) = Ok index.
Proof.
  exact (getInfo_store_shape (app_of []) answer_january "Braga"
           [("AMARES", [("2021-01-04", Some 1%Q); ("2021-01-05", None)]);
            ("BRAGA", [("2021-01-04", None); ("2021-01-05", Some (7 # 2))])]
           eq_refl).
Defined.

(** ** Days since the first date *)

Lemma midnight_diff (a b : datetime) :
  midnight a -> midnight b ->
  (a - b) / SECONDS_PER_DAY = a / SECONDS_PER_DAY - b / SECONDS_PER_DAY.
Proof.
  unfold midnight. intros Ha Hb.
  apply Z.div_exact in Ha; [ | discriminate ].
  apply Z.div_exact in Hb; [ | discriminate ].
  rewrite Ha at 1. rewrite Hb at 1.
  rewrite <- Z.mul_sub_distr_l, Z.mul_comm. apply Z.div_mul. discriminate.
Qed.

Lemma offsets_tail_midnights (d0 a : datetime) (l : list datetime) :
  midnight d0 -> midnight a -> Forall midnight l ->
  cumsum_from ((a - d0) / SECONDS_PER_DAY) (map timedelta_days (np_diff (a :: l)))
  = map (fun d => (d - d0) / SECONDS_PER_DAY) l.
Proof.
  intros H0 Ha Hl. revert a Ha.
  induction Hl as [|b tl Hb Htl IH]; intros a Ha; [ reflexivity | ].
  change (((a - d0) / SECONDS_PER_DAY + timedelta_days (b - a))
          :: cumsum_from ((a - d0) / SECONDS_PER_DAY + timedelta_days (b - a))
               (map timedelta_days (np_diff (b :: tl)))
          = (b - d0) / SECONDS_PER_DAY
            :: map (fun d => (d - d0) / SECONDS_PER_DAY) tl).
  assert (E : (a - d0) / SECONDS_PER_DAY + timedelta_days (b - a)
              = (b - d0) / SECONDS_PER_DAY).
  { unfold timedelta_days. rewrite !midnight_diff by assumption. ring. }
  rewrite E. f_equal. apply IH, Hb.
Qed.

(** X3.  When the dates are midnights, the offset computed at lines
    144-145 for each date is the number of days from the first date to
    it. *)
Theorem day_offsets_days_since_first (d0 : datetime) (dates : list datetime) :
  Forall midnight (d0 :: dates) ->
  day_offsets (d0 :: dates)
  = map (fun d => (d - d0) / SECONDS_PER_DAY) (d0 :: dates).
Proof.
  intros H. inversion H as [|? ? H0 Hl]; subst.
  rewrite day_offsets_unfold. cbn [map].
  rewrite Z.sub_diag. change (0 / SECONDS_PER_DAY) with 0. f_equal.
  rewrite <- (offsets_tail_midnights d0 d0 dates H0 H0 Hl).
  rewrite Z.sub_diag. reflexivity.
Qed.

Lemma day_offsets_days_since_first_january :
  Forall midnight [63745056000; 63745228800; 63745833600]
  /\ day_offsets [63745056000; 63745228800; 63745833600]
     = map (fun d => (d - 63745056000) / 86400)
           [63745056000; 63745228800; 63745833600].
Proof.
  assert (H : Forall midnight [63745056000; 63745228800; 63745833600])
    by (repeat constructor).
  split; [ exact H | ].
  apply (day_offsets_days_since_first _ _ H).
Defined.






(** ** Predictions on a machine with a fixed offset from UTC *)

Section FixedOffsetForecast.
Context {tz : TimeZone}.
Variable c : Z.
Hypothesis fixed : forall u, utcoffset u = c.

Lemma Ok_inj {A : Type} (a b : A) : Ok a = Ok b -> a = b.
Proof. intros H. congruence. Qed.

Lemma Ok_inj_Raise {A : Type} (e e' : exn) : @Raise A e = Raise e' -> e = e'.
Proof. intros H. congruence. Qed.

Lemma local_fixed_Ok (u t : Z) : local u = Ok t -> t = u + c.
Proof.
  unfold local. rewrite fixed.
  destruct ((0 <=? EPOCH + (u + c)) && (EPOCH + (u + c) <? MAX_DATETIME));
    [ | discriminate ].
  intros H. injection H as <-. reflexivity.
Qed.

Lemma timestamp_fixed_Ok (d : datetime) (ts : Z) :
  timestamp d = Ok ts -> ts = d - EPOCH - c.
Proof.
  unfold timestamp. intros H.
  apply bind_Ok in H as (lt & Hlt & H). apply local_fixed_Ok in Hlt. subst lt.
  apply bind_Ok in H as (t1 & Ht1 & H). apply local_fixed_Ok in Ht1. subst t1.
  replace (d - EPOCH + c - (d - EPOCH)) with c in H by ring.
  replace (d - EPOCH - c + c) with (d - EPOCH) in H by ring.
  rewrite Z.eqb_refl in H.
  apply bind_Ok in H as (lt & Hlt & H). apply local_fixed_Ok in Hlt. subst lt.
  replace (d - EPOCH - c - max_fold_seconds + c - (d - EPOCH - c - max_fold_seconds))
    with c in H by ring.
  rewrite Z.eqb_refl in H. injection H as <-. reflexivity.
Qed.

Lemma fromtimestamp_fixed_Ok (u : Z) (d : datetime) :
  fromtimestamp u = Ok d -> d = EPOCH + u + c.
Proof.
  unfold fromtimestamp. intros H.
  apply bind_Ok in H as (t & Ht & H). apply local_fixed_Ok in Ht. subst t.
  apply bind_Ok in H as (probe & _ & H).
  apply bind_Ok in H as (x & _ & H).
  apply Ok_inj in H. rewrite <- H. apply Z.add_assoc.
Qed.

Lemma new_dates_fixed_Ok (dates added : list datetime) (predictions : Z) (k : nat) :
  new_dates dates predictions = Ok added ->
  (k < List.length added)%nat ->
  nth k added 0 = add_days (last dates 0) (30 * Z.of_nat (S k)).
Proof.
  intros H Hk.
  destruct (new_dates_instants _ _ _ _ H Hk) as (ts & Hts & Hfrom).
  apply timestamp_fixed_Ok in Hts. apply fromtimestamp_fixed_Ok in Hfrom.
  rewrite Hfrom, Hts. unfold add_days.
  assert (HS : SECONDS_PER_DAY = 86400) by reflexivity.
  assert (HM : month_diff = 2592000) by reflexivity.
  rewrite HS, HM. lia.
Qed.
End FixedOffsetForecast.

Lemma nth_last {A : Type} (l : list A) (d : A) :
  nth (List.length l - 1) l d = last l d.
Proof.
  induction l as [|a tl _] using rev_ind; [ reflexivity | ].
  rewrite length_app, last_last. simpl List.length.
  replace (List.length tl + 1 - 1)%nat with (List.length tl) by lia.
  apply nth_middle.
Qed.

(** X5.  On a machine whose offset from UTC never changes, every figure
    with predictions has the [k]-th generated date exactly [30 k] days
    after the last observed date, and its offset exactly [30 k] above the
    offset of the last observed date. *)
Theorem plotData_forecast_fixed_offset
        {tz : TimeZone} {np : Numpy} (c : Z)
        (self : App) (county : string) (degree predictions : Z) (fig : figure) :
  (forall u, utcoffset u = c) ->
  plotData self county degree predictions = Ok fig ->
  let n := List.length (fig_y fig) in
  forall k, (k < Z.to_nat predictions)%nat ->
    nth (n + k) (fig_dates fig) 0
    = add_days (nth (n - 1) (fig_dates fig) 0) (30 * Z.of_nat (S k))
    /\ nth (n + k) (fig_x fig) 0
       = nth (n - 1) (fig_x fig) 0 + 30 * Z.of_nat (S k).
Proof.
  intros fixed H n. apply plotData_Ok in H as (series & observed & added & cases & R).
  intros k Hk. assert (Hp : 0 < predictions) by lia.
  pose proof (run_observed_nonempty R Hp) as Hne.
  pose proof (run_added_length R) as Hadded.
  destruct (run_lengths R) as [Hxy Hy]. fold n in Hxy, Hy.
  rewrite (run_fit_x_observed R), (day_offsets_length _ Hne) in Hxy.
  pose proof (run_new_dates R) as Hnew.
  destruct (Z.ltb_spec 0 predictions) as [_|?]; [ | lia ].
  assert (Hdate : forall j, (j < Z.to_nat predictions)%nat ->
            nth (n + j) (fig_dates fig) 0
            = add_days (nth (n - 1) (fig_dates fig) 0) (30 * Z.of_nat (S j))).
  { intros j Hj. rewrite (run_dates R), <- Hxy.
    rewrite app_nth2_plus, app_nth1 by lia.
    rewrite (@nth_last datetime observed 0).
    apply (new_dates_fixed_Ok c fixed _ _ _ _ Hnew). lia. }
  split; [ apply Hdate, Hk | ].
  assert (Hlen : List.length (fig_dates fig) = (n + Z.to_nat predictions)%nat)
    by (rewrite (run_dates R), length_app; lia).
  assert (Hdays : forall a b, timedelta_days (add_days (nth (n - 1) (fig_dates fig) 0) (30 * a)
                                - add_days (nth (n - 1) (fig_dates fig) 0) (30 * b))
                              = 30 * (a - b)).
  { intros a b. unfold timedelta_days, add_days.
    replace (nth (n - 1) (fig_dates fig) 0 + 30 * a * SECONDS_PER_DAY
             - (nth (n - 1) (fig_dates fig) 0 + 30 * b * SECONDS_PER_DAY))
      with (30 * (a - b) * SECONDS_PER_DAY) by ring.
    apply Z.div_mul. discriminate. }
  rewrite (run_x R).
  induction k as [|k IH].
  - replace (n + 0)%nat with (S (n - 1)) by lia.
    rewrite day_offsets_step by lia.
    replace (S (n - 1)) with (n + 0)%nat by lia.
    rewrite (Hdate 0%nat Hk).
    replace (nth (n - 1) (fig_dates fig) 0)
      with (add_days (nth (n - 1) (fig_dates fig) 0) (30 * 0)) at 2
      by (unfold add_days; rewrite Z.mul_0_r, Z.mul_0_l; apply Z.add_0_r).
    rewrite Hdays. lia.
  - replace (n + S k)%nat with (S (n + k)) by lia.
    rewrite day_offsets_step by lia.
    rewrite IH by lia.
    replace (S (n + k)) with (n + S k)%nat by lia.
    rewrite (Hdate (S k) Hk), (Hdate k ltac:(lia)), Hdays. lia.
Qed.

Lemma plotData_forecast_fixed_offset_june :
  @plotData utc symbolic app_june "BRAGA" 1 2 = Ok figure_june
  /\ fig_x figure_june = [0; 14; 44; 74]
  /\ nth (2 + 1) (fig_x figure_june) 0 = nth (2 - 1) (fig_x figure_june) 0 + 30 * 2.
Proof.
  assert (Hp : @plotData utc symbolic app_june "BRAGA" 1 2 = Ok figure_june)
    by (vm_compute; reflexivity).
  split; [ exact Hp | split; [ reflexivity | ] ].
  apply (@plotData_forecast_fixed_offset utc symbolic 0 _ _ _ _ _
           (fun _ => eq_refl) Hp 1%nat).
  simpl. lia.
Defined.

(** ** Text and code points *)

Lemma code_byte (n : Z) : 0 <= n < 256 -> code (byte n) = n.
Proof.
  intros H. unfold code, byte. rewrite nat_ascii_embedding by lia. lia.
Qed.

Lemma byte_code (a : ascii) : byte (code a) = a.
Proof. unfold code, byte. rewrite Nat2Z.id. apply ascii_nat_embedding. Qed.

Lemma code_range (a : ascii) : 0 <= code a < 256.
Proof. unfold code. pose proof (nat_ascii_bounded (a)). lia. Qed.

Ltac bool_lia :=
  repeat match goal with
         | |- _ && _ = true => apply andb_true_iff; split
         | |- negb _ = true => apply negb_true_iff
         | |- _ && _ = false => apply andb_false_iff
         | |- (_ <=? _) = true => apply Z.leb_le
         | |- (_ <? _) = true => apply Z.ltb_lt
         | |- (_ <=? _) = false => apply Z.leb_gt
         | |- (_ <? _) = false => apply Z.ltb_ge
         end.

(** The text of a code point is read back as that code point. *)
Lemma decode_encode_point (c : Z) (rest : string) :
  scalar c = true -> decode (encode_point c rest) = c :: decode rest.
Proof.
  unfold scalar. intros H.
  apply andb_true_iff in H as [H Hs]. apply andb_true_iff in H as [H0 H1].
  apply Z.leb_le in H0. apply Z.ltb_lt in H1. apply negb_true_iff in Hs.
  unfold encode_point.
  destruct (Z.ltb_spec c 0x80) as [L1|L1].
  { cbn [decode]. rewrite code_byte by lia.
    destruct (Z.ltb_spec c 0x80); [ reflexivity | lia ]. }
  destruct (Z.ltb_spec c 0x800) as [L2|L2].
  { cbn [decode]. rewrite !code_byte by (Z.div_mod_to_equations; lia).
    destruct (Z.ltb_spec (0xC0 + c / 64) 0x80) as [?|_];
      [ Z.div_mod_to_equations; lia | ].
    replace ((0xC0 + c / 64 - 0xC0) * 64 + (0x80 + c mod 64 - 0x80)) with c
      by (Z.div_mod_to_equations; lia).
    assert (E : (0xC0 <=? 0xC0 + c / 64) && (0xC0 + c / 64 <? 0xE0)
                && continuation (0x80 + c mod 64) && (0x80 <=? c) = true).
    { unfold continuation. bool_lia; Z.div_mod_to_equations; lia. }
    rewrite E. reflexivity. }
  destruct (Z.ltb_spec c 0x10000) as [L3|L3].
  { cbn [decode]. rewrite !code_byte by (Z.div_mod_to_equations; lia).
    destruct (Z.ltb_spec (0xE0 + c / 4096) 0x80) as [?|_];
      [ Z.div_mod_to_equations; lia | ].
    assert (E2 : (0xC0 <=? 0xE0 + c / 4096) && (0xE0 + c / 4096 <? 0xE0) = false).
    { apply andb_false_iff. right. apply Z.ltb_ge. Z.div_mod_to_equations; lia. }
    rewrite E2. cbn [andb].
    replace ((0xE0 + c / 4096 - 0xE0) * 4096 + (0x80 + c / 64 mod 64 - 0x80) * 64
             + (0x80 + c mod 64 - 0x80)) with c
      by (Z.div_mod_to_equations; lia).
    assert (E : (0xE0 <=? 0xE0 + c / 4096) && (0xE0 + c / 4096 <? 0xF0)
                && continuation (0x80 + c / 64 mod 64)
                && continuation (0x80 + c mod 64) && (0x800 <=? c) && scalar c = true).
    { unfold continuation, scalar. rewrite Hs.
      bool_lia; try reflexivity; Z.div_mod_to_equations; lia. }
    rewrite E. reflexivity. }
  destruct (Z.ltb_spec c 0x110000) as [_|?]; [ | lia ].
  cbn [decode]. rewrite !code_byte by (Z.div_mod_to_equations; lia).
  destruct (Z.ltb_spec (0xF0 + c / 262144) 0x80) as [?|_];
    [ Z.div_mod_to_equations; lia | ].
  assert (E2 : (0xC0 <=? 0xF0 + c / 262144) && (0xF0 + c / 262144 <? 0xE0) = false).
  { apply andb_false_iff. right. apply Z.ltb_ge. Z.div_mod_to_equations; lia. }
  rewrite E2. cbn [andb].
  assert (E3 : (0xE0 <=? 0xF0 + c / 262144) && (0xF0 + c / 262144 <? 0xF0) = false).
  { apply andb_false_iff. right. apply Z.ltb_ge. Z.div_mod_to_equations; lia. }
  rewrite E3. cbn [andb].
  replace ((0xF0 + c / 262144 - 0xF0) * 262144 + (0x80 + c / 4096 mod 64 - 0x80) * 4096
           + (0x80 + c / 64 mod 64 - 0x80) * 64 + (0x80 + c mod 64 - 0x80)) with c
    by (Z.div_mod_to_equations; lia).
  assert (E : (0xF0 <=? 0xF0 + c / 262144) && (0xF0 + c / 262144 <? 0xF8)
              && continuation (0x80 + c / 4096 mod 64)
              && continuation (0x80 + c / 64 mod 64)
              && continuation (0x80 + c mod 64)
              && (0x10000 <=? c) && (c <? 0x110000) = true).
  { unfold continuation. bool_lia; Z.div_mod_to_equations; lia. }
  rewrite E. reflexivity.
Qed.

Lemma decode_encode (l : list Z) :
  forallb scalar l = true -> decode (encode l) = l.
Proof.
  induction l as [|c l IH]; [ reflexivity | ].
  cbn [forallb encode fold_right]. intros H. apply andb_true_iff in H as [Hc Hl].
  fold (encode l). rewrite (decode_encode_point _ _ Hc), (IH Hl). reflexivity.
Qed.

Lemma encode_point_stray (a : ascii) (rest : string) :
  encode_point (stray (code a)) rest = String a rest.
Proof.
  pose proof (code_range a) as R. unfold encode_point, stray.
  destruct (Z.ltb_spec (0x110000 + code a) 0x80); [ lia | ].
  destruct (Z.ltb_spec (0x110000 + code a) 0x800); [ lia | ].
  destruct (Z.ltb_spec (0x110000 + code a) 0x10000); [ lia | ].
  destruct (Z.ltb_spec (0x110000 + code a) 0x110000); [ lia | ].
  replace (0x110000 + code a - 0x110000) with (code a) by lia.
  rewrite byte_code. reflexivity.
Qed.

Lemma byte_eq (n : Z) (a : ascii) : n = code a -> byte n = a.
Proof. intros ->. apply byte_code. Qed.

(** The code points of a text are written back as that text. *)
Lemma encode_decode_le (n : nat) :
  forall s, (String.length s <= n)%nat -> encode (decode s) = s.
Proof.
  induction n as [|n IH]; intros s Hn.
  { destruct s; [ reflexivity | simpl in Hn; lia ]. }
  destruct s as [|a0 s1]; [ reflexivity | ].
  cbn [String.length] in Hn.
  assert (Hstray : encode (stray (code a0) :: decode s1) = String a0 s1).
  { cbn [encode fold_right]. fold (encode (decode s1)).
    rewrite encode_point_stray, IH by lia. reflexivity. }
  pose proof (code_range a0) as R0.
  cbn [decode].
  destruct (Z.ltb_spec (code a0) 0x80) as [L|L].
  { cbn [encode fold_right]. fold (encode (decode s1)). rewrite IH by lia.
    unfold encode_point. destruct (Z.ltb_spec (code a0) 0x80); [ | lia ].
    rewrite byte_code. reflexivity. }
  destruct s1 as [|a1 s2]; [ exact Hstray | ].
  cbn [String.length] in Hn. pose proof (code_range a1) as R1.
  destruct (_ && _) eqn:E2 at 1.
  { unfold continuation in E2.
    repeat (apply andb_true_iff in E2 as [E2 ?]).
    repeat match goal with
           | H : (_ <=? _) = true |- _ => apply Z.leb_le in H
           | H : (_ <? _) = true |- _ => apply Z.ltb_lt in H
           end.
    cbn [encode fold_right]. fold (encode (decode s2)). rewrite IH by lia.
    unfold encode_point.
    destruct (Z.ltb_spec ((code a0 - 0xC0) * 64 + (code a1 - 0x80)) 0x80); [ lia | ].
    destruct (Z.ltb_spec ((code a0 - 0xC0) * 64 + (code a1 - 0x80)) 0x800); [ | lia ].
    f_equal; [ | f_equal ]; apply byte_eq; Z.div_mod_to_equations; lia. }
  destruct s2 as [|a2 s3]; [ exact Hstray | ].
  cbn [String.length] in Hn. pose proof (code_range a2) as R2.
  destruct (_ && _) eqn:E3 at 1.
  { unfold continuation in E3.
    repeat (apply andb_true_iff in E3 as [E3 ?]).
    repeat match goal with
           | H : (_ <=? _) = true |- _ => apply Z.leb_le in H
           | H : (_ <? _) = true |- _ => apply Z.ltb_lt in H
           end.
    cbn [encode fold_right]. fold (encode (decode s3)). rewrite IH by lia.
    unfold encode_point.
    match goal with |- context [ ?c <? 0x80 ] =>
      destruct (Z.ltb_spec c 0x80); [ lia | ];
      destruct (Z.ltb_spec c 0x800); [ lia | ];
      destruct (Z.ltb_spec c 0x10000); [ | lia ]
    end.
    f_equal; [ | f_equal; [ | f_equal ] ]; apply byte_eq; Z.div_mod_to_equations; lia. }
  destruct s3 as [|a3 s4]; [ exact Hstray | ].
  cbn [String.length] in Hn. pose proof (code_range a3) as R3.
  destruct (_ && _) eqn:E4 at 1; [ | exact Hstray ].
  unfold continuation in E4.
  repeat (apply andb_true_iff in E4 as [E4 ?]).
  repeat match goal with
         | H : (_ <=? _) = true |- _ => apply Z.leb_le in H
         | H : (_ <? _) = true |- _ => apply Z.ltb_lt in H
         end.
  cbn [encode fold_right]. fold (encode (decode s4)). rewrite IH by lia.
  unfold encode_point.
  match goal with |- context [ ?c <? 0x80 ] =>
    destruct (Z.ltb_spec c 0x80); [ lia | ];
    destruct (Z.ltb_spec c 0x800); [ lia | ];
    destruct (Z.ltb_spec c 0x10000); [ lia | ];
    destruct (Z.ltb_spec c 0x110000); [ | lia ]
  end.
  f_equal; [ | f_equal; [ | f_equal; [ | f_equal ] ] ];
    apply byte_eq; Z.div_mod_to_equations; lia.
Qed.

Lemma encode_decode (s : string) : encode (decode s) = s.
Proof. apply (encode_decode_le (String.length s)). lia. Qed.

(** ** The case tables *)

Lemma same_points_eq (l1 l2 : list Z) : same_points l1 l2 = true <-> l1 = l2.
Proof.
  revert l2. induction l1 as [|a l1 IH]; intros [|b l2]; simpl;
    try (split; [ discriminate | discriminate ]); [ tauto | ].
  rewrite andb_true_iff, Z.eqb_eq, IH. split.
  - intros [-> ->]. reflexivity.
  - intros H. injection H as -> ->. auto.
Qed.

Lemma find_range_In (c : Z) (l : list (Z * Z * Z * Z)) (d : Z) :
  positive_steps l = true -> find_range c l = Some d ->
  In c (flat_map range_points l).
Proof.
  induction l as [|[[[first last] step] diff] tl IH]; [ discriminate | ].
  cbn [positive_steps forallb find_range flat_map].
  intros Hs. apply andb_true_iff in Hs as [Hstep Hs]. apply Z.ltb_lt in Hstep.
  destruct (Z.ltb_spec c first) as [?|Hf]; [ discriminate | ].
  destruct ((c <=? last) && ((c - first) mod step =? 0)) eqn:E.
  - intros _. apply in_or_app. left.
    apply andb_true_iff in E as [Hl Hm]. apply Z.leb_le in Hl. apply Z.eqb_eq in Hm.
    unfold range_points. apply in_map_iff.
    exists (Z.to_nat ((c - first) / step)). split.
    + pose proof (Z.div_mod (c - first) step ltac:(lia)) as D.
      pose proof (Z.div_pos (c - first) step ltac:(lia) ltac:(lia)).
      rewrite Z2Nat.id by lia. nia.
    + apply in_seq. split; [ lia | ].
      pose proof (Z.div_le_mono (c - first) (last - first) step ltac:(lia) ltac:(lia)).
      pose proof (Z.div_pos (c - first) step ltac:(lia) ltac:(lia)).
      lia.
  - intros H. apply in_or_app. right. apply (IH Hs H).
Qed.

Lemma find_special_In (c : Z) (l : list (Z * list Z)) (v : list Z) :
  find_special c l = Some v -> In c (map fst l).
Proof.
  induction l as [|[k w] tl IH]; [ discriminate | ].
  cbn [find_special map fst].
  destruct (c <? k); [ discriminate | ].
  destruct (Z.eqb_spec c k) as [->|_]; [ left; reflexivity | ].
  intros H. right. apply (IH H).
Qed.

(** A code point outside the tables is mapped to itself. *)
Lemma case_mapping_cases (ranges : list (Z * Z * Z * Z)) (special : list (Z * list Z))
      (c : Z) :
  positive_steps ranges = true ->
  In c (table_points ranges special) \/ case_mapping ranges special c = [c].
Proof.
  intros Hs. unfold case_mapping, table_points.
  destruct (find_range c ranges) as [d|] eqn:Er.
  - left. apply in_or_app. left. apply (find_range_In _ _ _ Hs Er).
  - destruct (find_special c special) as [v|] eqn:Es.
    + left. apply in_or_app. right. apply (find_special_In _ _ _ Es).
    + right. reflexivity.
Qed.

Lemma upper_table_checked :
  positive_steps upper_ranges = true
  /\ forallb upper_checked (table_points upper_ranges upper_special) = true.
Proof. split; vm_compute; reflexivity. Qed.

Lemma title_table_checked :
  positive_steps title_ranges = true
  /\ forallb title_checked (table_points title_ranges title_special) = true.
Proof. split; vm_compute; reflexivity. Qed.

Lemma lower_table_checked :
  positive_steps lower_ranges = true
  /\ forallb lower_checked (table_points lower_ranges lower_special) = true.
Proof. split; vm_compute; reflexivity. Qed.

Lemma toupper_checked (c : Z) : scalar c = true -> upper_checked c = true.
Proof.
  intros Hc. destruct upper_table_checked as [Hs Ht].
  destruct (case_mapping_cases upper_ranges upper_special c Hs) as [Hin|E].
  - apply (proj1 (forallb_forall _ _) Ht c Hin).
  - unfold upper_checked. fold toupper in E.
    rewrite !E. cbn [flat_map]. rewrite !E.
    cbn [forallb app same_points]. rewrite Hc, Z.eqb_refl. reflexivity.
Qed.

Lemma totitle_checked (c : Z) : scalar c = true -> title_checked c = true.
Proof.
  intros Hc. destruct title_table_checked as [Hs Ht].
  destruct (case_mapping_cases title_ranges title_special c Hs) as [Hin|E].
  - apply (proj1 (forallb_forall _ _) Ht c Hin).
  - unfold title_checked, own_upper. fold totitle in E. rewrite E.
    cbn [forallb flat_map]. rewrite Hc, app_nil_r. cbn [andb].
    destruct (same_points (toupper c) [c]); reflexivity.
Qed.

Lemma tolower_checked (c : Z) : scalar c = true -> lower_checked c = true.
Proof.
  intros Hc. destruct lower_table_checked as [Hs Ht].
  destruct (case_mapping_cases lower_ranges lower_special c Hs) as [Hin|E].
  - apply (proj1 (forallb_forall _ _) Ht c Hin).
  - unfold lower_checked, own_upper. fold tolower in E. rewrite E.
    cbn [forallb flat_map]. rewrite Hc, app_nil_r. cbn [andb].
    destruct (same_points (toupper c) [c]); [ | reflexivity ].
    cbn [andb]. destruct (negb _); reflexivity.
Qed.

Lemma toupper_scalars (l : list Z) :
  forallb scalar l = true -> forallb scalar (flat_map toupper l) = true.
Proof.
  induction l as [|c l IH]; [ reflexivity | ].
  cbn [forallb flat_map]. intros H. apply andb_true_iff in H as [Hc Hl].
  rewrite forallb_app, (IH Hl), andb_true_r.
  pose proof (toupper_checked c Hc) as H. unfold upper_checked in H.
  apply andb_true_iff in H as [H _]. apply andb_true_iff in H as [H _]. exact H.
Qed.

Lemma toupper_twice (l : list Z) :
  forallb scalar l = true ->
  flat_map toupper (flat_map toupper l) = flat_map toupper l.
Proof.
  induction l as [|c l IH]; [ reflexivity | ].
  cbn [forallb flat_map]. intros H. apply andb_true_iff in H as [Hc Hl].
  rewrite flat_map_app, (IH Hl). f_equal.
  pose proof (toupper_checked c Hc) as H. unfold upper_checked in H.
  apply andb_true_iff in H as [H _]. apply andb_true_iff in H as [_ H].
  apply same_points_eq, H.
Qed.

(** The upper case of the text of a [str] is the text of a [str]. *)
Lemma upper_well_formed (s : string) :
  well_formed s = true -> well_formed (upper s) = true.
Proof.
  unfold well_formed, upper. intros H.
  rewrite decode_encode by (apply toupper_scalars, H).
  apply toupper_scalars, H.
Qed.

(** [s.upper().upper() == s.upper()] *)
Lemma upper_idempotent (s : string) :
  well_formed s = true -> upper (upper s) = upper s.
Proof.
  unfold well_formed. intros H. unfold upper at 1 3.
  unfold upper. rewrite decode_encode by (apply toupper_scalars, H).
  rewrite toupper_twice by exact H. reflexivity.
Qed.

Lemma toupper_longer (l : list Z) :
  forallb scalar l = true -> (List.length l <= List.length (flat_map toupper l))%nat.
Proof.
  induction l as [|c l IH]; [ simpl; lia | ].
  cbn [forallb flat_map]. intros H. apply andb_true_iff in H as [Hc Hl].
  rewrite length_app. specialize (IH Hl).
  pose proof (toupper_checked c Hc) as H. unfold upper_checked in H.
  apply andb_true_iff in H as [_ H]. apply negb_true_iff in H.
  destruct (toupper c); [ discriminate | ]. simpl. lia.
Qed.

(** A [str] that is its own upper case is made of code points that are
    their own upper case. *)
Lemma own_upper_points (l : list Z) :
  forallb scalar l = true -> flat_map toupper l = l -> forallb own_upper l = true.
Proof.
  induction l as [|c l IH]; [ reflexivity | ].
  cbn [forallb flat_map]. intros H E. apply andb_true_iff in H as [Hc Hl].
  pose proof (toupper_longer l Hl) as Hlen.
  pose proof (f_equal (@List.length Z) E) as EL. rewrite length_app in EL.
  cbn [List.length] in EL.
  pose proof (toupper_checked c Hc) as Hne. unfold upper_checked in Hne.
  apply andb_true_iff in Hne as [_ Hne]. apply negb_true_iff in Hne.
  destruct (toupper c) as [|x [|y rest]] eqn:Ec; cbn [List.length app] in *;
    [ discriminate Hne | | lia ].
  injection E as -> E. unfold own_upper. rewrite Ec. cbn [same_points].
  rewrite Z.eqb_refl. cbn [andb]. apply (IH Hl E).
Qed.

(** ** The district filter *)

Lemma filter_filter_implied {A : Type} (p q : A -> bool) (l : list A) :
  (forall a, p a = true -> q a = true) ->
  filter p (filter q l) = filter p l.
Proof.
  intros H. induction l as [|a tl IH]; simpl; [ reflexivity | ].
  destruct (q a) eqn:Eq; simpl.
  - rewrite IH. reflexivity.
  - destruct (p a) eqn:Ep; [ rewrite (H a Ep) in Eq; discriminate | exact IH ].
Qed.

(** X7.  The district filter keeps an entry only when its district is
    written as the upper-case form of the name asked for.  Such a text is
    its own upper case, so an entry whose district is not written in upper
    case is never selected, whatever is asked for. *)
Theorem getInfo_district_matching
        (name : string) (lo hi : datetime) (df : list (datetime * record)) :
  well_formed name = true ->
  select_rows name lo hi df
  = select_rows name lo hi
      (filter (fun '(_, rc) => String.eqb (upper (rec_distrito rc)) (rec_distrito rc)) df)
  /\ forall d c v,
       In (d, c, v) (select_rows name lo hi df) ->
       exists rc, In (d, rc) df /\ rec_concelho rc = c /\ rec_confirmados_1 rc = v
                  /\ rec_distrito rc = upper name
                  /\ upper (rec_distrito rc) = rec_distrito rc.
Proof.
  intros Hw. split.
  - unfold select_rows. do 2 f_equal.
    symmetry. apply filter_filter_implied.
    intros [d rc] H. apply String.eqb_eq in H. apply String.eqb_eq.
    rewrite H. apply upper_idempotent, Hw.
  - intros d c v Hin. apply select_rows_In in Hin as (rc & Hin & Hc & Hv & Hd & _).
    exists rc. repeat split; try assumption.
    rewrite Hd. apply upper_idempotent, Hw.
Qed.

Lemma getInfo_district_matching_braganca :
  well_formed "Bragança" = true
  /\ select_rows "Bragança" 63745056000 63776505600 (frame_of answer_braganca)
     = [(63745401600, "MIRANDELA", 3)]
  /\ forall d c v,
       In (d, c, v) (select_rows "Bragança" 63745056000 63776505600
                                 (frame_of answer_braganca)) ->
       exists rc, In (d, rc) (frame_of answer_braganca)
                  /\ rec_concelho rc = c /\ rec_confirmados_1 rc = v
                  /\ rec_distrito rc = upper "Bragança"
                  /\ upper (rec_distrito rc) = rec_distrito rc.
Proof.
  split; [ reflexivity | ].
  destruct (getInfo_district_matching "Bragança" 63745056000 63776505600
              (frame_of answer_braganca) eq_refl) as [Hsel Hrows].
  split; [ rewrite Hsel; reflexivity | exact Hrows ].
Defined.

(** ** What [plotData] can raise *)

Lemma datetime_ymd_Raise (y m dd : Z) (e : exn) :
  datetime_ymd y m dd = Raise e -> e = ValueError.
Proof.
  unfold datetime_ymd. destruct (_ && _); [ discriminate | ].
  intros H. injection H as <-. reflexivity.
Qed.

Lemma mapM_Raise {A B : Type} (f : A -> result B) (l : list A) (e : exn) :
  mapM f l = Raise e -> exists a, In a l /\ f a = Raise e.
Proof.
  induction l as [|a tl IH]; simpl; [ discriminate | ].
  destruct (f a) as [b|e'] eqn:E.
  - rewrite bind_Ok_l. destruct (mapM f tl) as [bs|e''].
    + discriminate.
    + intros H. injection H as ->. destruct (IH eq_refl) as (a' & Ha' & Hf).
      exists a'. auto.
  - intros H. injection H as ->. exists a. auto.
Qed.

Lemma strptime_Ymd_Raise (s : string) (e : exn) :
  strptime_Ymd s = Raise e -> e = ValueError.
Proof.
  unfold strptime_Ymd.
  destruct (match3 re_Y re_m re_d (list_ascii_of_string s)) as [[[[y m] dd] [|c rest]]|];
    try (intros H; injection H as <-; reflexivity).
  apply datetime_ymd_Raise.
Qed.

Section PlotDataRaises.
Context {tz : TimeZone} {np : Numpy}.

Lemma local_Raise (u : Z) (e : exn) : local u = Raise e -> e = ValueError.
Proof.
  unfold local. destruct (_ && _); [ discriminate | ].
  intros H. injection H as <-. reflexivity.
Qed.

Lemma timestamp_Raise (d : datetime) (e : exn) :
  timestamp d = Raise e -> e = ValueError.
Proof.
  unfold timestamp. cbv zeta. intros H.
  repeat match type of H with
         | bind ?c _ = Raise _ =>
             let E := fresh "E" in
             destruct c eqn:E;
             [ rewrite bind_Ok_l in H; cbv beta in H
             | apply Ok_inj_Raise in H; subst; eapply local_Raise; eassumption ]
         | (if ?b then _ else _) = Raise _ => destruct b
         | Ok _ = Raise _ => discriminate H
         end.
Qed.

Lemma fromtimestamp_Raise (u : Z) (e : exn) :
  fromtimestamp u = Raise e -> e = ValueError.
Proof.
  unfold fromtimestamp. cbv zeta. intros H.
  repeat match type of H with
         | bind (Ok _) _ = Raise _ => rewrite bind_Ok_l in H; cbv beta in H
         | bind (if ?b then _ else _) _ = Raise _ => destruct b
         | bind ?c _ = Raise _ =>
             let E := fresh "E" in
             destruct c eqn:E;
             [ rewrite bind_Ok_l in H; cbv beta in H
             | apply Ok_inj_Raise in H; subst; eapply local_Raise; eassumption ]
         | Ok _ = Raise _ => discriminate H
         end.
Qed.

Lemma new_dates_Raise (dates : list datetime) (predictions : Z) (e : exn) :
  new_dates dates predictions = Raise e ->
  (e = IndexError /\ dates = []) \/ (e = ValueError /\ dates <> []).
Proof.
  unfold new_dates. destruct (last_item dates) as [d|e1] eqn:Hl.
  - destruct (last_item_Ok _ _ Hl) as [Hne _]. rewrite bind_Ok_l.
    destruct (timestamp d) as [ts|e2] eqn:Hts.
    + rewrite bind_Ok_l. intros H. apply mapM_Raise in H as (u & _ & Hu).
      apply fromtimestamp_Raise in Hu. auto.
    + intros H. apply Ok_inj_Raise in H. subst e2.
      apply timestamp_Raise in Hts. auto.
  - unfold last_item in Hl. destruct (rev dates) as [|a tl] eqn:Hr; [ | discriminate ].
    injection Hl as <-. intros H. apply Ok_inj_Raise in H. subst e.
    left. split; [ reflexivity | ].
    rewrite <- (rev_involutive dates), Hr. reflexivity.
Qed.

Lemma np_polyfit_Raise (x y : list Z) (deg : Z) (e : exn) :
  np_polyfit x y deg = Raise e ->
  (e = ValueError /\ deg < 0)
  \/ (e = TypeError /\ 0 <= deg /\ List.length x <> List.length y)
  \/ (e = TypeError /\ 0 <= deg /\ x = [] /\ y = [])
  \/ (e = LinAlgError /\ 0 <= deg /\ lstsq x y deg = None).
Proof.
  unfold np_polyfit.
  destruct (Z.ltb_spec deg 0) as [Hd|Hd].
  { intros H. injection H as <-. auto. }
  destruct (Nat.eqb_spec (List.length x) 0) as [Hx|Hx].
  { intros H. injection H as <-.
    destruct y as [|b y'].
    - right; right; left. destruct x; [ auto | discriminate ].
    - right; left. rewrite Hx. simpl. auto. }
  destruct (Nat.eqb_spec (List.length x) (List.length y)) as [Hxy|Hxy].
  - destruct (lstsq x y deg) eqn:Hz; [ discriminate | ].
    intros H. injection H as <-. right; right; right. auto.
  - intros H. injection H as <-. right; left. auto.
Qed.


End PlotDataRaises.


(** ** The menus and the plot button *)

Lemma In_keys_lookup {V : Type} (d : dict V) (k : string) :
  In k (keys d) -> exists v, lookup d k = Some v.
Proof.
  induction d as [|[k' v'] tl IH]; simpl; [ contradiction | ].
  intros [->|Hin].
  - rewrite String.eqb_refl. eauto.
  - destruct (String.eqb k' k); [ eauto | apply IH, Hin ].
Qed.

Lemma sigma_upper :
  flat_map toupper [0x3C2] = [0x3A3] /\ flat_map toupper [0x3C3] = [0x3A3].
Proof. split; reflexivity. Qed.

Lemma upper_lower_after (l before : list Z) :
  forallb scalar l = true -> forallb own_upper l = true ->
  forallb (fun c => negb (existsb (Z.eqb c) lower_not_back)) l = true ->
  flat_map toupper (lower_after before l) = l
  /\ forallb scalar (lower_after before l) = true.
Proof.
  revert before. induction l as [|c l IH]; intros before Hs Hu Hx; [ split; reflexivity | ].
  cbn [forallb] in Hs, Hu, Hx.
  apply andb_true_iff in Hs as [Hc Hs]. apply andb_true_iff in Hu as [Hcu Hu].
  apply andb_true_iff in Hx as [Hcx Hx].
  destruct (IH (c :: before) Hs Hu Hx) as [IH1 IH2].
  cbn [lower_after]. rewrite flat_map_app, forallb_app, IH1, IH2, andb_true_r.
  destruct (Z.eqb_spec c 0x3A3) as [->|_].
  - destruct (final_sigma before l); split; reflexivity.
  - pose proof (tolower_checked c Hc) as H. unfold lower_checked in H.
    rewrite Hcu, Hcx in H. cbn [andb implb] in H.
    apply andb_true_iff in H as [H1 H2]. apply same_points_eq in H2.
    rewrite H2. split; [ reflexivity | exact H1 ].
Qed.

(** [k.capitalize().upper() == k] for a [str] in upper case that has none
    of the six capital letters of [lower_not_back] after its first code
    point. *)
Lemma upper_capitalize (k : string) :
  well_formed k = true -> upper k = k ->
  forallb (fun c => negb (existsb (Z.eqb c) lower_not_back)) (tl (decode k)) = true ->
  upper (capitalize k) = k.
Proof.
  unfold well_formed. intros Hw Hup Hx.
  assert (Hl : flat_map toupper (decode k) = decode k).
  { pose proof (f_equal decode Hup) as E. unfold upper in E.
    rewrite decode_encode in E by (apply toupper_scalars, Hw). exact E. }
  pose proof (own_upper_points _ Hw Hl) as Hown.
  unfold capitalize. destruct (decode k) as [|c l] eqn:E; [ exact Hup | ].
  cbn [forallb tl] in Hw, Hown, Hx.
  apply andb_true_iff in Hw as [Hc Hw]. apply andb_true_iff in Hown as [Hcu Hown].
  destruct (upper_lower_after l [c] Hw Hown Hx) as [H1 H2].
  pose proof (totitle_checked c Hc) as Ht. unfold title_checked in Ht.
  rewrite Hcu in Ht. cbn [implb] in Ht.
  apply andb_true_iff in Ht as [Ht1 Ht2]. apply same_points_eq in Ht2.
  unfold upper. rewrite decode_encode by (rewrite forallb_app, Ht1, H2; reflexivity).
  rewrite flat_map_app, Ht2, H1. change ([c] ++ l) with (c :: l).
  rewrite <- E. apply encode_decode.
Qed.

(** [plotData] raises [KeyError] only for a name that is not a key. *)
Lemma plotData_KeyError {tz : TimeZone} {np : Numpy}
      (self : App) (county : string) (degree predictions : Z) (key : string) :
  plotData self county degree predictions = Raise (KeyError key) ->
  lookup (data self) (upper county) = None \/ lookup (data self) county = None.
Proof.
  unfold plotData, getitem. intros H.
  destruct (lookup (data self) (upper county)) as [series|]; [ | left; reflexivity ].
  rewrite bind_Ok_l in H.
  destruct (mapM strptime_Ymd (keys series)) as [observed|e] eqn:Ho.
  2:{ apply mapM_Raise in Ho as (s & _ & Hs). apply strptime_Ymd_Raise in Hs.
      subst e. discriminate H. }
  rewrite bind_Ok_l in H.
  destruct (if 0 <? predictions
            then added <- new_dates observed predictions ;; Ok (observed ++ added)
            else Ok observed) as [dates|e] eqn:Hd.
  2:{ destruct (0 <? predictions); [ | discriminate Hd ].
      destruct (new_dates observed predictions) as [added|e'] eqn:Hn; [ discriminate Hd | ].
      apply new_dates_Raise in Hn as [[-> _]|[-> _]];
        injection Hd as <-; discriminate H. }
  rewrite bind_Ok_l in H.
  destruct (lookup (data self) county) as [cases|]; [ | right; reflexivity ].
  rewrite bind_Ok_l in H.
  match type of H with
  | bind ?c _ = _ => destruct c as [z|e] eqn:Hz
  end; [ discriminate H | ].
  apply np_polyfit_Raise in Hz as [[-> _]|[[-> _]|[[-> _]|[-> _]]]]; discriminate H.
Qed.

(** X9.  For a county whose key in the store is a text in upper case
    without any of the six capital letters of [lower_not_back] after its
    first letter, the county menu offers the capitalised key, the plot
    button on this entry runs [plotData] on the key itself, and the call
    never fails for a missing key. *)
Theorem plot_button_menu_entry
        {tz : TimeZone} {np : Numpy}
        (self : App) (k : string) (degree predictions : Z) :
  In k (keys (data self)) ->
  well_formed k = true -> upper k = k ->
  forallb (fun c => negb (existsb (Z.eqb c) lower_not_back)) (tl (decode k)) = true ->
  (exists menu, make_county_menu self = Ok menu
                /\ In (capitalize k) (menu_options menu))
  /\ plot_button self (capitalize k) degree predictions
     = plotData self k degree predictions
  /\ forall key,
       plot_button self (capitalize k) degree predictions <> Raise (KeyError key).
Proof.
  intros Hin Hw Hup Hx.
  assert (Hb : plot_button self (capitalize k) degree predictions
               = plotData self k degree predictions).
  { unfold plot_button. rewrite (upper_capitalize k Hw Hup Hx). reflexivity. }
  split; [ | split; [ exact Hb | ] ].
  - unfold make_county_menu, first_key.
    destruct (keys (data self)) as [|k0 tl] eqn:Hk; [ contradiction | ].
    rewrite bind_Ok_l. eexists. split; [ reflexivity | ].
    cbn [menu_options]. apply in_map. exact Hin.
  - intros key H. rewrite Hb in H.
    destruct (In_keys_lookup _ _ Hin) as [v Hv].
    apply plotData_KeyError in H as [HN|HN].
    + rewrite Hup, Hv in HN. discriminate.
    + rewrite Hv in HN. discriminate.
Qed.

Lemma plot_button_menu_entry_guimaraes :
  In "GUIMARÃES" (keys (data app_guimaraes))
  /\ well_formed "GUIMARÃES" = true
  /\ upper "GUIMARÃES" = "GUIMARÃES"
  /\ capitalize "GUIMARÃES" = "Guimarães"
  /\ @plot_button utc symbolic app_guimaraes "Guimarães" 2 0
     = Ok (figure_january_observed 2).
Proof.
  assert (Hin : In "GUIMARÃES" (keys (data app_guimaraes))) by (left; reflexivity).
  split; [ exact Hin | ].
  split; [ reflexivity | split; [ reflexivity | split; [ reflexivity | ] ] ].
  destruct (@plot_button_menu_entry utc symbolic app_guimaraes "GUIMARÃES" 2 0
              Hin eq_refl eq_refl eq_refl) as (_ & Hb & _).
  change (@plot_button utc symbolic app_guimaraes (capitalize "GUIMARÃES") 2 0
          = Ok (figure_january_observed 2)).
  rewrite Hb. reflexivity.
Defined.

(** The kelvin sign is its own upper case, and its lower case is the
    letter k: for such a key the entry of the menu leads the plot button
    to another name, which is not a key. *)
Example plot_button_kelvin :
  upper "AK" = "AK"
  /\ capitalize "AK" = "Ak"
  /\ @plot_button utc symbolic app_kelvin (capitalize "AK") 2 0 = Raise (KeyError "AK").
Proof. repeat split. Qed.

(** X10.  When the answer has entries but none of the selected district
    within the range, the callback of the district menu fails with
    [IndexError]: [getInfo] stores an empty mapping, which has no first
    county to show. *)
Theorem district_menu_change_no_county
        (self : App) (r : response) (name : string)
        (s0 e0 lo hi : datetime) (df : list (datetime * record)) :
  status_code r = 200 ->
  strptime_dmY (start_date self) = Ok s0 ->
  strptime_dmY (end_date self) = Ok e0 ->
  parse_data (json r) = Ok df ->
  to_timestamp (start_date self) = Ok lo ->
  to_timestamp (end_date self) = Ok hi ->
  select_rows name lo hi df = [] ->
  snd (district_menu_change self r name) = Raise IndexError
  /\ data (fst (district_menu_change self r name)) = [].
Proof.
  intros Hst Hs He Hdf Hlo Hhi Hsel.
  assert (Hb : build {| start_date := start_date self; end_date := end_date self;
                        district := name; data := data self |} r name
               = Ok (to_dict (pivot_table (select_rows name lo hi df))))
    by (apply (build_Ok _ _ _ s0 e0 lo hi df); assumption).
  unfold district_menu_change, getInfo. rewrite Hb, Hsel. split; reflexivity.
Qed.

Lemma district_menu_change_no_county_faro :
  snd (district_menu_change (app_of []) answer_january "Faro") = Raise IndexError
  /\ data (fst (district_menu_change (app_of []) answer_january "Faro")) = [].
Proof.
  apply (district_menu_change_no_county (app_of []) answer_january "Faro"
           63745056000 63776505600 63745056000 63776505600
           [(63745401600, nth 0 (json answer_january) (Build_record "" "" "" 0));
            (63745401600, nth 1 (json answer_january) (Build_record "" "" "" 0));
            (63745315200, nth 2 (json answer_january) (Build_record "" "" "" 0));
            (63745315200, nth 3 (json answer_january) (Build_record "" "" "" 0))]);
    reflexivity.
Defined.

(** ** The default end date *)

Lemma year_text_four (y : Z) :
  1000 <= y ->
  year_text y
  = [digit_char (y / 1000); digit_char (y / 100); digit_char (y / 10); digit_char y].
Proof.
  intros Hy. unfold year_text.
  destruct (Z.leb_spec 1000 y); [ | lia ].
  destruct (Z.leb_spec 100 y); [ | lia ].
  destruct (Z.leb_spec 10 y); [ | lia ].
  reflexivity.
Qed.

Lemma strftime_parsed (y m d : Z) :
  1000 <= y <= 9999 -> 1 <= m <= 12 -> 1 <= d <= 31 ->
  match3 re_d re_m re_Y
    ([digit_char (d / 10); digit_char d; "-"%char;
      digit_char (m / 10); digit_char m; "-"%char] ++ year_text y)
  = Some (d, m, y, []).
Proof.
  intros Hy Hm Hd.
  pose proof (upto_In 12 m ltac:(simpl; lia)) as Hmi.
  pose proof (upto_In 31 d ltac:(simpl; lia)) as Hdi.
  rewrite year_text_four by lia.
  pose proof (re_Y_digits y [] ltac:(lia)) as HY.
  revert HY.
  generalize [digit_char (y / 1000); digit_char (y / 100); digit_char (y / 10);
              digit_char y].
  intros ychars HY. clear Hy.
  simpl in Hmi, Hdi.
  repeat (destruct Hmi as [<-|Hmi]; [ | ]); try contradiction;
    repeat (destruct Hdi as [<-|Hdi];
            [ cbv -[re_Y]; rewrite HY; reflexivity | ]); contradiction.
Qed.

Lemma ymd2ord_injective (y m dd m' dd' : Z) (d : datetime) :
  datetime_ymd y m dd = Ok d -> datetime_ymd y m' dd' = Ok d -> m = m' /\ dd = dd'.
Proof.
  intros H H'.
  destruct (calendar_day_fields _ _ _ _ H) as [E _].
  destruct (calendar_day_fields _ _ _ _ H') as [E' _].
  rewrite E in E'. injection E' as <- <-. auto.
Qed.

(** X11.  The text [strftime] writes for a day with ['%d-%m-%Y'], as for
    the default end date, is read back by [strptime] as that day; but
    pandas, comparing the dates of the entries with this text, takes the
    day for the month whenever the day is at most 12, so the bound of the
    range is the day itself only from the 13th on, or when day and month
    are the same number. *)
Theorem default_end_date_read_month_first
        (y m dd : Z) (day today : datetime) :
  datetime_ymd y m dd = Ok day ->
  day <= today < day + SECONDS_PER_DAY ->
  1000 <= y ->
  strptime_dmY (strftime_dmY today) = Ok day
  /\ forall hi,
       to_timestamp (strftime_dmY today) = Ok hi ->
       datetime_ymd y (if dd <=? 12 then dd else m) (if dd <=? 12 then m else dd) = Ok hi
       /\ (hi = day <-> 12 < dd \/ dd = m).
Proof.
  intros Hday Htoday Hy.
  destruct (calendar_day_fields _ _ _ _ Hday) as [Hf Hmid].
  pose proof (datetime_ymd_Ok _ _ _ _ Hday) as (Hy' & Hm & Hd & _).
  rewrite days_in_month_length in Hd.
  pose proof (month_length_31 (is_leap y) m Hm) as H31.
  assert (Hdiv : today / SECONDS_PER_DAY = day / SECONDS_PER_DAY).
  { unfold midnight in Hmid. apply Z.div_exact in Hmid; [ | discriminate ].
    assert (HS : SECONDS_PER_DAY = 86400) by reflexivity.
    symmetry. apply (Z.div_unique today SECONDS_PER_DAY (day / SECONDS_PER_DAY)
                       (today - day)); lia. }
  assert (Htext : list_ascii_of_string (strftime_dmY today)
                  = [digit_char (dd / 10); digit_char dd; "-"%char;
                     digit_char (m / 10); digit_char m; "-"%char] ++ year_text y).
  { unfold strftime_dmY. rewrite Hdiv, Hf.
    apply list_ascii_of_string_of_list_ascii. }
  split.
  - unfold strptime_dmY. rewrite Htext, strftime_parsed by lia. exact Hday.
  - intros hi Hhi. unfold to_timestamp in Hhi.
    rewrite Htext, strftime_parsed in Hhi by lia.
    apply bind_Ok in Hhi as (x & Hx & Hhi).
    destruct (_ && _) in Hhi; [ | discriminate ].
    apply Ok_inj in Hhi. subst x.
    destruct (Z.leb_spec dd 12) as [H12|H12].
    + split; [ exact Hx | ]. split.
      * intros ->. right. destruct (ymd2ord_injective _ _ _ _ _ _ Hx Hday) as [-> _].
        reflexivity.
      * intros [Hgt| ->]; [ lia | ]. rewrite Hx in Hday. apply Ok_inj in Hday. exact Hday.
    + split; [ exact Hx | ]. split; [ intros _; left; exact H12 | ].
      intros _. rewrite Hx in Hday. apply Ok_inj in Hday. exact Hday.
Qed.

Lemma default_end_date_read_month_first_november :
  datetime_ymd 2026 11 4 = Ok 63929347200
  /\ strftime_dmY (63929347200 + 43200) = "04-11-2026"
  /\ strptime_dmY (strftime_dmY (63929347200 + 43200)) = Ok 63929347200
  /\ to_timestamp "04-11-2026" = datetime_ymd 2026 4 11.
Proof.
  assert (H : datetime_ymd 2026 11 4 = Ok 63929347200) by reflexivity.
  split; [ exact H | split; [ reflexivity | ] ].
  destruct (default_end_date_read_month_first 2026 11 4 63929347200
              (63929347200 + 43200) H) as [Hback _].
  - unfold SECONDS_PER_DAY. lia.
  - lia.
  - split; [ exact Hback | reflexivity ].
Defined.

(** ** Edge cases of [plotData] *)

(** X12.  A county stored with an empty series never yields a figure:
    with predictions asked for, [dates[-1]] raises [IndexError]; without,
    [x] is [[0]] against no value at all, and [np.polyfit] raises
    [ValueError] for a negative degree and [TypeError] otherwise. *)
Theorem plotData_empty_series
        {tz : TimeZone} {np : Numpy}
        (self : App) (county : string) (degree predictions : Z) :
  upper county = county ->
  lookup (data self) county = Some [] ->
  plotData self county degree predictions
  = Raise (if 0 <? predictions then IndexError
           else if degree <? 0 then ValueError else TypeError).
Proof.
  intros Hup Hl. unfold plotData, getitem. rewrite Hup, Hl.
  rewrite bind_Ok_l. cbn [keys map mapM]. rewrite bind_Ok_l.
  destruct (0 <? predictions); [ reflexivity | ].
  rewrite !bind_Ok_l. cbn [values map]. unfold np_polyfit.
  destruct (degree <? 0); reflexivity.
Qed.

Lemma plotData_empty_series_braga :
  upper "BRAGA" = "BRAGA"
  /\ @plotData utc symbolic (app_of [("BRAGA", [])]) "BRAGA" 2 3 = Raise IndexError
  /\ @plotData utc symbolic (app_of [("BRAGA", [])]) "BRAGA" 2 0 = Raise TypeError.
Proof.
  split; [ reflexivity | ].
  split;
    apply (@plotData_empty_series utc symbolic (app_of [("BRAGA", [])]) "BRAGA");
    reflexivity.
Defined.

(** X13.  A number of predictions that is zero or negative is treated as
    no prediction at all: the call behaves as with 0. *)
Theorem plotData_negative_predictions
        {tz : TimeZone} {np : Numpy}
        (self : App) (county : string) (degree predictions : Z) :
  predictions <= 0 ->
  plotData self county degree predictions = plotData self county degree 0.
Proof.
  intros Hp. unfold plotData, split_slice.
  destruct (Z.ltb_spec 0 predictions) as [?|_]; [ lia | ].
  destruct (Z.ltb_spec 1 predictions) as [?|_]; [ lia | ].
  destruct (Z.eqb_spec predictions 1) as [?|_]; [ lia | ].
  reflexivity.
Qed.

Lemma plotData_negative_predictions_january :
  -3 <= 0
  /\ @plotData utc symbolic app_january "BRAGA" 2 (-3) = Ok (figure_january_observed 2).
Proof.
  split; [ lia | ].
  rewrite (@plotData_negative_predictions utc symbolic app_january "BRAGA" 2 (-3));
    [ reflexivity | lia ].
Defined.

(** ** The ticks and their labels *)

Lemma every_third_combine_le {A B : Type} (n : nat) :
  forall (l1 : list A) (l2 : list B),
    (List.length l1 <= n)%nat ->
    every_third (combine l1 l2) = combine (every_third l1) (every_third l2).
Proof.
  induction n as [|n IH]; intros l1 l2 Hn.
  - destruct l1; [ reflexivity | simpl in Hn; lia ].
  - destruct l1 as [|a [|b [|c l1]]]; try reflexivity;
      destruct l2 as [|a' [|b' [|c' l2]]]; try reflexivity.
    + cbn [combine every_third]. destruct (every_third l1); reflexivity.
    + cbn [combine every_third]. destruct (every_third l1); reflexivity.
    + cbn [combine every_third]. f_equal. apply IH. simpl in Hn. lia.
Qed.

Lemma every_third_combine {A B : Type} (l1 : list A) (l2 : list B) :
  every_third (combine l1 l2) = combine (every_third l1) (every_third l2).
Proof. apply (every_third_combine_le (List.length l1)). lia. Qed.

Lemma every_third_length_le {A B : Type} (n : nat) :
  forall (l1 : list A) (l2 : list B),
    (List.length l1 <= n)%nat -> List.length l1 = List.length l2 ->
    List.length (every_third l1) = List.length (every_third l2).
Proof.
  induction n as [|n IH]; intros l1 l2 Hn Hl.
  - destruct l1; [ | simpl in Hn; lia ]. destruct l2; [ reflexivity | discriminate ].
  - destruct l1 as [|a [|b [|c l1]]]; destruct l2 as [|a' [|b' [|c' l2]]];
      try discriminate; try reflexivity.
    cbn [every_third List.length]. f_equal. apply IH; simpl in Hn, Hl; lia.
Qed.

Lemma every_third_In_le {A : Type} (n : nat) :
  forall (l : list A) (a : A),
    (List.length l <= n)%nat -> In a (every_third l) -> In a l.
Proof.
  induction n as [|n IH]; intros l a Hn Hin.
  - destruct l; [ exact Hin | simpl in Hn; lia ].
  - destruct l as [|b [|c [|d l]]]; try exact Hin.
    + destruct Hin as [<-|[]]. left. reflexivity.
    + cbn [every_third] in Hin. destruct Hin as [<-|Hin]; [ left; reflexivity | ].
      right. right. right. apply IH; [ simpl in Hn; lia | exact Hin ].
Qed.

Lemma combine_skipn {A B : Type} (n : nat) :
  forall (l1 : list A) (l2 : list B),
    skipn n (combine l1 l2) = combine (skipn n l1) (skipn n l2).
Proof.
  induction n as [|n IH]; intros l1 l2; [ reflexivity | ].
  destruct l1 as [|a l1]; [ reflexivity | ].
  destruct l2 as [|b l2]; [ simpl; destruct (skipn n l1); reflexivity | ].
  apply IH.
Qed.

Lemma combine_app_same {A B : Type} (l1 l2 : list A) (l1' l2' : list B) :
  List.length l1 = List.length l1' ->
  combine (l1 ++ l2) (l1' ++ l2') = combine l1 l1' ++ combine l2 l2'.
Proof.
  revert l1'. induction l1 as [|a l1 IH]; intros [|b l1'] Hl; try discriminate.
  - reflexivity.
  - simpl. f_equal. apply IH. simpl in Hl. lia.
Qed.

Lemma combine_map_r_In {A B C : Type} (f : B -> C) (l1 : list A) :
  forall (l2 : list B) (a : A) (c : C),
    In (a, c) (combine l1 (map f l2)) ->
    exists b, In (a, b) (combine l1 l2) /\ c = f b.
Proof.
  induction l1 as [|x l1 IH]; intros [|y l2] a c Hin; try contradiction.
  destruct Hin as [E|Hin].
  - injection E as <- <-. exists y. split; [ left; reflexivity | reflexivity ].
  - destruct (IH _ _ _ Hin) as (b & Hb & ->). exists b. split; [ right; exact Hb | reflexivity ].
Qed.

Lemma plotData_ticks {tz : TimeZone} {np : Numpy}
      (self : App) (county : string) (degree predictions : Z) (fig : figure) :
  plotData self county degree predictions = Ok fig ->
  fig_x fig = day_offsets (fig_dates fig)
  /\ fig_xticks fig
     = (if 0 <? predictions
        then every_third (slice (fig_x fig) None (Some (- predictions)))
             ++ slice (fig_x fig) (Some (- predictions)) None
        else every_third (fig_x fig))
  /\ fig_xtick_dates fig
     = (if 0 <? predictions
        then every_third (slice (fig_dates fig) None (Some (- predictions)))
             ++ slice (fig_dates fig) (Some (- predictions)) None
        else every_third (fig_dates fig)).
Proof.
  unfold plotData. intros H.
  apply bind_Ok in H as (series & _ & H).
  apply bind_Ok in H as (observed & _ & H).
  apply bind_Ok in H as (dates & _ & H).
  apply bind_Ok in H as (cases & _ & H).
  apply bind_Ok in H as (z & _ & H).
  injection H as <-. cbn [fig_x fig_dates fig_xticks fig_xtick_dates].
  repeat split.
Qed.

Lemma ticks_paired {A B : Type} (x : list A) (dates : list B) (predictions : Z) :
  List.length x = List.length dates ->
  let ticks := if 0 <? predictions
               then every_third (slice x None (Some (- predictions)))
                    ++ slice x (Some (- predictions)) None
               else every_third x in
  let tick_dates := if 0 <? predictions
                    then every_third (slice dates None (Some (- predictions)))
                         ++ slice dates (Some (- predictions)) None
                    else every_third dates in
  List.length ticks = List.length tick_dates
  /\ forall t d, In (t, d) (combine ticks tick_dates) -> In (t, d) (combine x dates).
Proof.
  intros Hl ticks tick_dates. subst ticks tick_dates.
  destruct (Z.ltb_spec 0 predictions) as [Hp|Hp].
  - rewrite !slice_to_neg, !slice_from_neg by exact Hp. rewrite <- Hl.
    set (k := (List.length x - Z.to_nat predictions)%nat).
    assert (Hk : List.length (every_third (firstn k x))
                 = List.length (every_third (firstn k dates))).
    { apply (every_third_length_le (List.length (firstn k x))); [ lia | ].
      rewrite !length_firstn, Hl. reflexivity. }
    split.
    + rewrite !length_app, !length_skipn, Hk, Hl. reflexivity.
    + intros t d Hin. rewrite (combine_app_same _ _ _ _ Hk) in Hin.
      rewrite <- every_third_combine, <- combine_firstn, <- combine_skipn in Hin.
      rewrite <- (firstn_skipn k (combine x dates)).
      apply in_app_iff. apply in_app_iff in Hin as [Hin|Hin]; [ left | right; exact Hin ].
      apply (every_third_In_le (List.length (firstn k (combine x dates)))); [ lia | exact Hin ].
  - split.
    + apply (every_third_length_le (List.length x)); [ lia | exact Hl ].
    + intros t d Hin. rewrite <- every_third_combine in Hin.
      apply (every_third_In_le (List.length (combine x dates))); [ lia | exact Hin ].
Qed.

(** X15.  The ticks and their labels go in pairs: after a call that
    returns, on a series that has a date, there are as many labels as
    ticks, and every tick carries the text of a date whose day offset it
    is. *)
Theorem plotData_ticks_labelled
        {tz : TimeZone} {np : Numpy}
        (self : App) (county : string) (degree predictions : Z) (fig : figure) :
  plotData self county degree predictions = Ok fig ->
  fig_dates fig <> [] ->
  List.length (x_labels fig) = List.length (fig_xticks fig)
  /\ forall (t : Z) (s : string),
       In (t, s) (combine (fig_xticks fig) (x_labels fig)) ->
       exists d, In (t, d) (combine (fig_x fig) (fig_dates fig))
                 /\ s = strftime_dmY d.
Proof.
  intros H Hne. destruct (plotData_ticks _ _ _ _ _ H) as (Hx & Ht & Hd).
  assert (Hl : List.length (fig_x fig) = List.length (fig_dates fig))
    by (rewrite Hx; apply day_offsets_length; exact Hne).
  destruct (ticks_paired (fig_x fig) (fig_dates fig) predictions Hl) as [Hlen Hin].
  cbv zeta in Hlen, Hin. rewrite <- Ht, <- Hd in Hlen, Hin.
  unfold x_labels. split.
  - rewrite length_map. symmetry. exact Hlen.
  - intros t s Hts. destruct (combine_map_r_In _ _ _ _ _ Hts) as (d & Hd' & ->).
    exists d. split; [ apply Hin; exact Hd' | reflexivity ].
Qed.

Lemma plotData_ticks_labelled_january :
  @plotData utc symbolic app_january "BRAGA" 2 2 = Ok figure_january
  /\ fig_dates figure_january <> []
  /\ List.length (x_labels figure_january)
     = List.length (fig_xticks figure_january)
  /\ forall (t : Z) (s : string),
       In (t, s) (combine (fig_xticks figure_january) (x_labels figure_january)) ->
       exists d, In (t, d) (combine (fig_x figure_january) (fig_dates figure_january))
                 /\ s = strftime_dmY d.
Proof.
  split; [ reflexivity | split; [ discriminate | ] ].
  apply (@plotData_ticks_labelled utc symbolic app_january "BRAGA" 2 2);
    [ reflexivity | discriminate ].
Defined.

(** ** The legend *)

(** X16.  The curve of the confirmed cases carries its own label exactly
    when predictions are asked for; when none is, no split is drawn and
    the curve is labelled as the split. *)
Theorem legend_confirmed_label (degree predictions : Z) :
  (In (ConfirmedCurve, "confirmed covid-19 cases") (legend degree predictions)
   <-> 0 < predictions)
  /\ (In (ConfirmedCurve, "confirmed vs predicted split") (legend degree predictions)
      <-> predictions <= 0).
Proof.
  unfold legend, artists, legend_labels.
  destruct (Z.ltb_spec 1 predictions) as [H1|H1];
    [ | destruct (Z.eqb_spec predictions 1) as [E|E] ];
    (destruct (Z.ltb_spec 0 predictions) as [H0|H0]; [ | try lia ]); try lia.
  - split; (split; [ | intros ?; try lia; right; left; reflexivity ]).
    + intros _. exact H0.
    + intros [E'|[E'|[E'|[E'|[]]]]]; discriminate.
  - split; (split; [ | intros ?; try lia; right; left; reflexivity ]).
    + intros _. exact H0.
    + intros [E'|[E'|[E'|[E'|[]]]]]; discriminate.
  - split; (split; [ | intros ?; try lia; left; reflexivity ]).
    + intros [E'|[E'|[]]]; discriminate.
    + intros _. exact H0.
Qed.
